(** * join0: the tabular extractor, the embedding adapter and the query router

    A shallow embedding of [app/services/excel_processor.py],
    [app/services/embedding_service.py] and [app/services/search_service.py],
    and the properties of the specification that concern them.

    Layout: the Python runtime the services rest on (strings, exceptions, a
    state-and-exception monad, floats), the three services, the predicates
    the statements use, stand-ins for the runtime on which the examples
    run, then the lemmas, service by service. *)

From Stdlib Require Import ZArith NArith List Bool Lia PrimFloat QArith Sorted.
From Stdlib Require Import String Ascii DecimalString DecimalZ DecimalPos.
From stdpp Require Import base list gmap sorting.

#[local] Set Warnings "-register-all".

Local Open Scope Z_scope.
Local Open Scope list_scope.

(* ===================================================================== *)
(** * Python strings *)
(* ===================================================================== *)

(** A [str] is a sequence of Unicode code points. *)
Abbreviation pystr := (list N).

(** Source literals are ASCII; [cps] turns one into its code points. *)
Definition cps (s : string) : pystr :=
  List.map N_of_ascii (list_ascii_of_string s).

(** [s.startswith(prefix)]. *)
Fixpoint startswith (pre s : pystr) : bool :=
  match pre, s with
  | [], _ => true
  | _ :: _, [] => false
  | a :: pre', b :: s' => N.eqb a b && startswith pre' s'
  end.

(** [sub in s] for two strings. *)
Fixpoint contains (sub s : pystr) : bool :=
  startswith sub s ||
  match s with
  | [] => false
  | _ :: s' => contains sub s'
  end.

(** [str.isspace] on one code point, the characters [str.strip()] removes. *)
Definition isspace (c : N) : bool :=
  ((9 <=? c) && (c <=? 13) || (28 <=? c) && (c <=? 32) || (c =? 133) || (c =? 160)
   || (c =? 5760) || (8192 <=? c) && (c <=? 8202) || (c =? 8232) || (c =? 8233)
   || (c =? 8239) || (c =? 8287) || (c =? 12288))%N.

Fixpoint lstrip (s : pystr) : pystr :=
  match s with
  | c :: s' => if isspace c then lstrip s' else s
  | [] => []
  end.

(** [s.strip()]. *)
Definition strip (s : pystr) : pystr := rev (lstrip (rev (lstrip s))).

Definition ascii_upper (c : N) : N :=
  if ((97 <=? c) && (c <=? 122))%N then (c - 32)%N else c.

Definition ascii_lower (c : N) : N :=
  if ((65 <=? c) && (c <=? 90))%N then (c + 32)%N else c.

(** The case tables of the Unicode database for the code points above ASCII.
    [str.upper] maps each code point on its own (to one to three code points);
    [str.lower] does too, except for the final-sigma rule, which looks at the
    whole string: [to_lower_full s i c] is the lowercase of [c] standing at
    index [i] of [s]. *)
Class Unicode := {
  to_upper_full : N -> pystr;
  to_lower_full : pystr -> nat -> N -> pystr;
}.

Definition upper_char {uc : Unicode} (c : N) : pystr :=
  if (c <? 128)%N then [ascii_upper c] else to_upper_full c.

(** [s.upper()]. *)
Definition upper {uc : Unicode} (s : pystr) : pystr := List.flat_map upper_char s.

Definition lower_char {uc : Unicode} (s : pystr) (i : nat) (c : N) : pystr :=
  if (c <? 128)%N then [ascii_lower c] else to_lower_full s i c.

(** [s.lower()]. *)
Definition lower {uc : Unicode} (s : pystr) : pystr := concat (imap (lower_char s) s).

(** A string is one of a list of strings: [s in [a, b, ...]]. *)
Definition str_in_list (s : pystr) (l : list pystr) : bool :=
  existsb (fun x => bool_decide (s = x)) l.

(* ===================================================================== *)
(** * Exceptions, and a monad for output and failure *)
(* ===================================================================== *)

(** The exceptions the services meet. [CancelledError] derives from
    [BaseException] only, so [except Exception] lets it through. *)
Inductive exn :=
| ValueError (msg : pystr)
| TypeError (msg : pystr)
| AttributeError (msg : pystr)
| IndexError (msg : pystr)
| ProviderError (msg : pystr)
| DatabaseError (msg : pystr)
| CancelledError.

(** [isinstance(e, Exception)]. *)
Definition is_Exception (e : exn) : bool :=
  match e with
  | CancelledError => false
  | _ => true
  end.

(** [str(e)]. *)
Definition exn_str (e : exn) : pystr :=
  match e with
  | ValueError m | TypeError m | AttributeError m | IndexError m
  | ProviderError m | DatabaseError m => m
  | CancelledError => []
  end.

Inductive outcome (A : Type) :=
| Return (a : A)
| Raise (e : exn).
Arguments Return {A} a.
Arguments Raise {A} e.

(** What a call leaves behind: the lines it printed, the statements
    [_execute_sql_safely] sent to the database for execution, and the
    search-history rows committed (query, query type, result count). *)
Record world := {
  stdout : list pystr;
  executed : list pystr;
  history : list (pystr * pystr * nat);
}.

Definition world0 : world := {| stdout := []; executed := []; history := [] |}.

Definition M (A : Type) : Type := world -> outcome A * world.

#[export] Instance M_ret : MRet M := fun A a w => (Return a, w).

#[export] Instance M_bind : MBind M := fun A B k m w =>
  match m w with
  | (Return a, w') => k a w'
  | (Raise e, w') => (Raise e, w')
  end.

Definition raise {A} (e : exn) : M A := fun w => (Raise e, w).

(** [print(line)]. *)
Definition print (line : pystr) : M unit :=
  fun w => (Return tt, {| stdout := stdout w ++ [line]; executed := executed w;
                          history := history w |}).

(** [try: body  except Exception as e: handler(e)]. *)
Definition try_except {A} (body : M A) (handler : exn -> M A) : M A :=
  fun w =>
    match body w with
    | (Return a, w') => (Return a, w')
    | (Raise e, w') => if is_Exception e then handler e w' else (Raise e, w')
    end.

(** The result of an external call, lifted into the monad. *)
Definition lift {A} (o : outcome A) : M A := fun w => (o, w).

(* ===================================================================== *)
(** * Floats *)
(* ===================================================================== *)

(** The float operations the services use. The second instance is exact
    rational arithmetic, the reading under which the specification states
    its order properties. *)
Class FloatOps (F : Type) := {
  f_zero : F;
  f_one : F;
  f_sub : F -> F -> F;
  f_ltb : F -> F -> bool;
  f_leb : F -> F -> bool;
  f_isnan : F -> bool;
}.

#[export] Instance binary64 : FloatOps float := {|
  f_zero := 0%float;
  f_one := 1%float;
  f_sub := PrimFloat.sub;
  f_ltb := PrimFloat.ltb;
  f_leb := PrimFloat.leb;
  f_isnan := PrimFloat.is_nan;
|}.

#[export] Instance rational : FloatOps Q := {|
  f_zero := 0%Q;
  f_one := 1%Q;
  f_sub := Qminus;
  f_ltb := fun x y => negb (Qle_bool y x);
  f_leb := Qle_bool;
  f_isnan := fun _ => false;
|}.

(** The order laws the ranking argument needs: [<=] is transitive and
    [1 - d] falls as [d] grows. IEEE 754 subtraction, being correctly
    rounded, has them. *)
Class FloatLaws (F : Type) {fops : FloatOps F} : Prop := {
  f_leb_trans : forall x y z : F, f_leb x y = true -> f_leb y z = true -> f_leb x z = true;
  f_sub_antitone : forall x y : F,
    f_leb x y = true -> f_leb (f_sub f_one y) (f_sub f_one x) = true;
}.

(** The conversions between numbers and strings that Python's runtime
    supplies: [float(n)] of an integer, [float(s)] of a string ([None] when
    it raises [ValueError]) and [str(x)] of a float. *)
Class Builtins (F : Type) := {
  float_of_int : Z -> F;
  float_of_str : pystr -> option F;
  str_of_float : F -> pystr;
}.

(** [str(n)] of an integer: its decimal digits, with a sign when negative. *)
Definition str_of_int (n : Z) : pystr :=
  cps (DecimalString.NilZero.string_of_int (Z.to_int n)).

(* ===================================================================== *)
(** * excel_processor.py *)
(* ===================================================================== *)

Module ExcelProcessor.

(** The values a DataFrame cell holds after [read_csv] / [read_excel]. *)
Inductive cell (F : Type) :=
| CNone
| CBool (b : bool)
| CInt (n : Z)
| CFloat (x : F)
| CStr (s : pystr)
| CTimestamp (shown : pystr).
Arguments CNone {F}.
Arguments CBool {F} b.
Arguments CInt {F} n.
Arguments CFloat {F} x.
Arguments CStr {F} s.
Arguments CTimestamp {F} shown.

(** The type tags of [ExcelDataPoint.data_type]. *)
Inductive data_type := text | formula | number | percentage | currency | decimal.

#[export] Instance data_type_eq_dec : EqDecision data_type.
Proof. solve_decision. Defined.

(** The tag as the string the source writes. *)
Definition tag (t : data_type) : pystr :=
  match t with
  | text => cps "text"
  | formula => cps "formula"
  | number => cps "number"
  | percentage => cps "percentage"
  | currency => cps "currency"
  | decimal => cps "decimal"
  end.

(** [schemas.ExcelDataPoint]. *)
Record ExcelDataPoint (F : Type) := {
  row_index : Z;
  column_name : pystr;
  text_value : option pystr;
  numerical_value : option F;
  dp_type : data_type;
  dp_formula : option pystr;
}.
Arguments row_index {F} _.
Arguments column_name {F} _.
Arguments text_value {F} _.
Arguments numerical_value {F} _.
Arguments dp_type {F} _.
Arguments dp_formula {F} _.

(** A DataFrame under the default [RangeIndex]: its column labels and its
    rows, each holding one cell per column. *)
Record DataFrame (F : Type) := {
  columns : list pystr;
  rows : list (list (cell F));
}.
Arguments columns {F} _.
Arguments rows {F} _.

Section Processor.
Context {F : Type} {fops : FloatOps F} {rt : Builtins F} {uc : Unicode}.

(** [pd.isna(value)]. *)
Definition isna (value : cell F) : bool :=
  match value with
  | CNone => true
  | CFloat x => f_isnan x
  | _ => false
  end.

(** [float(value)]; [None] when it raises [ValueError] or [TypeError]. *)
Definition py_float (value : cell F) : option F :=
  match value with
  | CNone => None
  | CBool b => Some (float_of_int (if b then 1 else 0))
  | CInt n => Some (float_of_int n)
  | CFloat x => Some x
  | CStr s => float_of_str s
  | CTimestamp _ => None
  end.

(** [str(value)]. *)
Definition py_str (value : cell F) : pystr :=
  match value with
  | CNone => cps "None"
  | CBool b => if b then cps "True" else cps "False"
  | CInt n => str_of_int n
  | CFloat x => str_of_float x
  | CStr s => s
  | CTimestamp shown => shown
  end.

(** [isinstance(value, float)]: [numpy.float64] derives from [float],
    [numpy.int64] and [bool] do not. *)
Definition isinstance_float (value : cell F) : bool :=
  match value with
  | CFloat _ => true
  | _ => false
  end.

Definition _extract_headers (df : DataFrame F) : list pystr :=
  foldl (fun headers col =>
           let header := strip col in
           if negb (str_in_list (lower header) [cps "unnamed"; cps "index"])
           then headers ++ [header] else headers)
        [] (columns df).

Definition _is_numerical (value : cell F) : bool :=
  if isna value then false
  else match py_float value with
       | Some _ => true
       | None => false
       end.

Definition currency_symbols : list pystr :=
  [cps "$"; [8364%N]; [163%N]; [165%N]; [8377%N]].

Definition _classify_numerical_type (value : cell F) (str_value : pystr) : data_type :=
  if contains (cps "%") str_value
     || match value with
        | CFloat x => f_leb f_zero x && f_leb x f_one
        | _ => false
        end
  then percentage
  else if existsb (fun symbol => contains symbol str_value) currency_symbols
  then currency
  else if isinstance_float value && contains (cps ".") str_value
  then decimal
  else number.

Definition _create_data_point (row_idx : Z) (column_name : pystr) (value : cell F)
  : ExcelDataPoint F :=
  let str_value := strip (py_str value) in
  if _is_numerical value then
    {| row_index := row_idx; column_name := column_name;
       numerical_value := py_float value;
       dp_type := _classify_numerical_type value str_value;
       text_value := None; dp_formula := None |}
  else if startswith (cps "=") str_value then
    {| row_index := row_idx; column_name := column_name;
       text_value := Some str_value; dp_type := formula;
       dp_formula := Some str_value; numerical_value := None |}
  else
    {| row_index := row_idx; column_name := column_name;
       text_value := Some str_value; dp_type := text;
       numerical_value := None; dp_formula := None |}.

(** [row[col_name]]: the cell under the column labelled [col_name]. *)
Fixpoint row_get (cols : list pystr) (row : list (cell F)) (col_name : pystr) : cell F :=
  match cols, row with
  | c :: cols', v :: row' =>
      if bool_decide (c = col_name) then v else row_get cols' row' col_name
  | _, _ => CNone
  end.

(** One pass of the inner loop of [_separate_data_types]: the cell of one
    row under one header. *)
Definition separate_cell (df : DataFrame F) (row_idx : nat) (row : list (cell F))
    (acc : list (ExcelDataPoint F) * list (ExcelDataPoint F)) (col_name : pystr)
  : list (ExcelDataPoint F) * list (ExcelDataPoint F) :=
  let '(text_data, numerical_data) := acc in
  if negb (str_in_list col_name (columns df)) then acc
  else
    let value := row_get (columns df) row col_name in
    if isna value then acc
    else
      let data_point := _create_data_point (Z.of_nat row_idx) col_name value in
      if bool_decide (dp_type data_point = text)
      then (text_data ++ [data_point], numerical_data)
      else if bool_decide (dp_type data_point ∈ [number; percentage; currency])
      then (text_data, numerical_data ++ [data_point])
      else acc.

(** The outer loop, over [df.iterrows()] from row [row_idx] on. *)
Fixpoint separate_rows (df : DataFrame F) (headers : list pystr) (row_idx : nat)
    (rs : list (list (cell F)))
    (acc : list (ExcelDataPoint F) * list (ExcelDataPoint F))
  : list (ExcelDataPoint F) * list (ExcelDataPoint F) :=
  match rs with
  | [] => acc
  | row :: rs' =>
      separate_rows df headers (S row_idx) rs'
        (foldl (separate_cell df row_idx row) acc headers)
  end.

Definition _separate_data_types (df : DataFrame F) (headers : list pystr)
  : list (ExcelDataPoint F) * list (ExcelDataPoint F) :=
  separate_rows df headers 0 (rows df) ([], []).

End Processor.

(** [schemas.ProcessedExcelData]. *)
Record ProcessedExcelData (F : Type) := {
  pd_filename : pystr;
  pd_headers : list pystr;
  text_data : list (ExcelDataPoint F);
  numerical_data : list (ExcelDataPoint F);
  pd_row_count : nat;
  file_hash : pystr;
}.
Arguments pd_filename {F} _.
Arguments pd_headers {F} _.
Arguments text_data {F} _.
Arguments numerical_data {F} _.
Arguments pd_row_count {F} _.
Arguments file_hash {F} _.

(** [pd.read_csv] and [pd.read_excel] on the bytes of a file: the frame
    read, or the exception raised. *)
Class Pandas (F : Type) := {
  read_csv : list Byte.byte -> outcome (DataFrame F);
  read_excel : list Byte.byte -> outcome (DataFrame F);
}.

(** [hashlib.md5(content).hexdigest()], and [str(l)] of a list of strings
    as an f-string interpolates it. *)
Class Hashing := {
  md5_hexdigest : list Byte.byte -> pystr;
  str_of_str_list : list pystr -> pystr;
}.

(** The processor holds [settings.ALLOWED_FILE_EXTENSIONS]. *)
Record ExcelProcessor := {
  supported_extensions : list pystr;
}.

(** [s.endswith(suffix)]. *)
Definition endswith (suffix s : pystr) : bool := startswith (rev suffix) (rev s).

Section Files.
Context {F : Type} {fops : FloatOps F} {rt : Builtins F} {uc : Unicode}
        {pandas : Pandas F} {hashing : Hashing}.

Definition _is_supported_file (self : ExcelProcessor) (filename : pystr) : bool :=
  existsb (fun ext => endswith ext (lower filename)) (supported_extensions self).

(** [df.empty]: no rows or no columns. *)
Definition df_empty (df : DataFrame F) : bool :=
  match columns df, rows df with
  | [], _ | _, [] => true
  | _, _ => false
  end.

Definition _read_file_to_dataframe (file_content : list Byte.byte) (filename : pystr)
  : M (DataFrame F) :=
  try_except
    (df ← (if endswith (cps ".csv") (lower filename)
           then lift (read_csv file_content)
           else if existsb (fun ext => endswith ext (lower filename))
                           [cps ".xlsx"; cps ".xls"]
           then lift (read_excel file_content)
           else raise (ValueError (cps "Unsupported file format: " ++ filename)));
     if df_empty df
     then raise (ValueError (cps "File is empty or could not be parsed"))
     else mret df)
    (fun e =>
       raise (ValueError (cps "Error reading file " ++ filename ++ cps ": " ++ exn_str e))).

Definition process_file (self : ExcelProcessor) (file_content : list Byte.byte)
    (filename : pystr) : M (ProcessedExcelData F) :=
  if negb (_is_supported_file self filename) then
    raise (ValueError (cps "Unsupported file type. Supported: "
                       ++ str_of_str_list (supported_extensions self)))
  else
    let file_hash := md5_hexdigest file_content in
    df ← _read_file_to_dataframe file_content filename;
    let headers := _extract_headers df in
    let '(text_data, numerical_data) := _separate_data_types df headers in
    mret {| pd_filename := filename; pd_headers := headers;
            text_data := text_data; numerical_data := numerical_data;
            pd_row_count := length (rows df); file_hash := file_hash |}.

End Files.

End ExcelProcessor.

(* ===================================================================== *)
(** * embedding_service.py *)
(* ===================================================================== *)

Module EmbeddingService.

(** [genai.embed_content(model=, content=, task_type=)['embedding']]: the
    provider's answer, or the exception the call raises. *)
Class Provider (F : Type) := {
  embed_content : pystr -> pystr -> pystr -> outcome (list F);
}.

Section Embedding.
Context {F : Type} {fops : FloatOps F} {provider : Provider F}.

(** [[0.0] * 768]. *)
Definition zero_vector : list F := repeat f_zero 768.

Definition _create_embedding (model_name text : pystr) : M (list F) :=
  try_except
    (lift (embed_content model_name text (cps "retrieval_document")))
    (fun e =>
       print (cps "Error creating embedding for text '" ++ take 50 text
              ++ cps "...': " ++ exn_str e);;
       mret zero_vector).

Definition create_query_embedding (model_name query : pystr) : M (list F) :=
  try_except
    (lift (embed_content model_name query (cps "retrieval_query")))
    (fun e =>
       print (cps "Error creating query embedding: " ++ exn_str e);;
       mret zero_vector).

End Embedding.

(** A row of [excel_files] and a row of [spreadsheet_data], as handed to
    the session. *)
Record ExcelFile := {
  ef_filename : pystr;
  ef_original_filename : pystr;
  ef_headers : list pystr;
  ef_row_count : nat;
  ef_file_hash : pystr;
}.

Record SpreadsheetData (F : Type) := {
  sd_file_id : Z;
  sd_row_index : Z;
  sd_column_name : pystr;
  sd_text_value : option pystr;
  sd_numerical_value : option F;
  sd_data_type : ExcelProcessor.data_type;
  sd_embedding_id : option pystr;
}.
Arguments sd_file_id {F} _.
Arguments sd_row_index {F} _.
Arguments sd_column_name {F} _.
Arguments sd_text_value {F} _.
Arguments sd_numerical_value {F} _.
Arguments sd_data_type {F} _.
Arguments sd_embedding_id {F} _.

Inductive db_record (F : Type) :=
| FileRecord (file : ExcelFile)
| DataRecord (data : SpreadsheetData F).
Arguments FileRecord {F} file.
Arguments DataRecord {F} data.

(** The metadata bag stored with an embedding: the bag of the header entry
    and the bag of a data entry, field by field. *)
Inductive entry_metadata :=
| HeaderMetadata (file_id : Z) (headers : list pystr)
| DataMetadata (file_id : Z) (row_index : Z) (column_name : pystr)
    (data_type : ExcelProcessor.data_type) (original_text : option pystr)
    (headers : list pystr).

(** One call of [vector_db.add]: an embedding, its document, its metadata
    and its id. *)
Record VectorEntry (F : Type) := {
  ve_embedding : list F;
  ve_document : pystr;
  ve_metadata : entry_metadata;
  ve_id : pystr;
}.
Arguments ve_embedding {F} _.
Arguments ve_document {F} _.
Arguments ve_metadata {F} _.
Arguments ve_id {F} _.

(** The two stores as the ingest path meets them: whether the collection,
    holding the entries given, takes one more; whether the session, with
    the rows given committed, commits the pending ones; and the id the
    database gave a file row, read back by [db.refresh]. *)
Class Stores (F : Type) := {
  vector_add : list (VectorEntry F) -> VectorEntry F -> outcome unit;
  session_commit : list (db_record F) -> list (db_record F) -> outcome unit;
  session_refresh : list (db_record F) -> ExcelFile -> outcome Z;
}.

(** What ingest leaves behind: the printed output, the entries of the
    vector collection, the rows added to the session and not yet
    committed, and the rows committed. *)
Record ingest (F : Type) := {
  out : world;
  collection : list (VectorEntry F);
  pending : list (db_record F);
  stored : list (db_record F);
}.
Arguments out {F} _.
Arguments collection {F} _.
Arguments pending {F} _.
Arguments stored {F} _.

Definition I (F A : Type) : Type := ingest F -> outcome A * ingest F.

#[export] Instance I_ret {F} : MRet (I F) := fun A a s => (Return a, s).

#[export] Instance I_bind {F} : MBind (I F) := fun A B k m s =>
  match m s with
  | (Return a, s') => k a s'
  | (Raise e, s') => (Raise e, s')
  end.

(** [{'embeddings_count': ..., 'metadata_count': ...}]. *)
Record IngestCounts := {
  embeddings_count : nat;
  metadata_count : nat;
}.

(** [sep.join(l)]. *)
Fixpoint join (sep : pystr) (l : list pystr) : pystr :=
  match l with
  | [] => []
  | [x] => x
  | x :: rest => x ++ sep ++ join sep rest
  end.

Section Ingest.
Import ExcelProcessor.
Context {F : Type} {fops : FloatOps F} {provider : Provider F} {stores : Stores F}.

(** A computation on the printed output alone, run within ingest. *)
Definition lift_M {A} (m : M A) : I F A :=
  fun s =>
    let '(o, w) := m (out s) in
    (o, {| out := w; collection := collection s; pending := pending s;
           stored := stored s |}).

Definition I_raise {A} (e : exn) : I F A := fun s => (Raise e, s).

(** [try: body  except Exception as e: handler(e)], within ingest. *)
Definition I_try_except {A} (body : I F A) (handler : exn -> I F A) : I F A :=
  fun s =>
    match body s with
    | (Return a, s') => (Return a, s')
    | (Raise e, s') => if is_Exception e then handler e s' else (Raise e, s')
    end.

(** [self.vector_db.add(...)]. *)
Definition collection_add (entry : VectorEntry F) : I F unit :=
  fun s =>
    match vector_add (collection s) entry with
    | Return _ => (Return tt, {| out := out s; collection := collection s ++ [entry];
                                 pending := pending s; stored := stored s |})
    | Raise e => (Raise e, s)
    end.

(** [db.add(record)]. *)
Definition db_add (record : db_record F) : I F unit :=
  fun s => (Return tt, {| out := out s; collection := collection s;
                          pending := pending s ++ [record]; stored := stored s |}).

(** [await db.commit()]. *)
Definition db_commit : I F unit :=
  fun s =>
    match session_commit (stored s) (pending s) with
    | Return _ => (Return tt, {| out := out s; collection := collection s;
                                 pending := []; stored := stored s ++ pending s |})
    | Raise e => (Raise e, s)
    end.

(** [await db.refresh(excel_file)] and then [excel_file.id]. *)
Definition db_refresh (file : ExcelFile) : I F Z :=
  fun s => (session_refresh (stored s) file, s).

Definition _store_file_metadata (processed_data : ProcessedExcelData F)
    (original_filename : pystr) : I F (ExcelFile * Z) :=
  let excel_file :=
    {| ef_filename := pd_filename processed_data;
       ef_original_filename := original_filename;
       ef_headers := pd_headers processed_data;
       ef_row_count := pd_row_count processed_data;
       ef_file_hash := file_hash processed_data |} in
  db_add (FileRecord excel_file);;
  db_commit;;
  id ← db_refresh excel_file;
  mret (excel_file, id).

(** [str(v)] of an optional string. *)
Definition str_of_opt (v : option pystr) : pystr :=
  match v with
  | Some s => s
  | None => cps "None"
  end.

Definition _create_context_text (data_point : ExcelDataPoint F) (headers : list pystr)
  : pystr :=
  let header_context := cps "Column: " ++ column_name data_point in
  let value_context := cps "Value: " ++ str_of_opt (text_value data_point) in
  match dp_formula data_point with
  | Some (c :: f) =>
      let formula_context := cps "Formula: " ++ (c :: f) in
      header_context ++ cps " | " ++ value_context ++ cps " | " ++ formula_context
  | _ => header_context ++ cps " | " ++ value_context
  end.

(** The loop of [_create_batch_embeddings]; the pause between calls is not
    modelled. *)
Fixpoint create_batch_loop (model_name : pystr) (batch : list (ExcelDataPoint F))
    (headers : list pystr) (embeddings : list (list F)) : M (list (list F)) :=
  match batch with
  | [] => mret embeddings
  | data_point :: rest =>
      let context_text := _create_context_text data_point headers in
      embedding ← _create_embedding model_name context_text;
      create_batch_loop model_name rest headers (embeddings ++ [embedding])
  end.

Definition _create_batch_embeddings (model_name : pystr)
    (batch : list (ExcelDataPoint F)) (headers : list pystr) : M (list (list F)) :=
  create_batch_loop model_name batch headers [].

Definition _store_embedding_in_chromadb (embedding : list F) (text : pystr)
    (metadata : entry_metadata) (doc_id : pystr) : I F unit :=
  I_try_except
    (collection_add {| ve_embedding := embedding; ve_document := text;
                       ve_metadata := metadata; ve_id := doc_id |})
    (fun e =>
       lift_M (print (cps "Error storing embedding in ChromaDB: " ++ exn_str e));;
       I_raise e).

Definition _store_data_reference (data_point : ExcelDataPoint F) (file_id : Z)
    (embedding_id : pystr) : I F unit :=
  db_add (DataRecord
            {| sd_file_id := file_id;
               sd_row_index := row_index data_point;
               sd_column_name := column_name data_point;
               sd_text_value := text_value data_point;
               sd_numerical_value := numerical_value data_point;
               sd_data_type := dp_type data_point;
               sd_embedding_id := Some embedding_id |}).

(** [f"file_{file_id}_row_{row_index}_col_{column_name}"]. *)
Definition data_doc_id (file_id : Z) (data_point : ExcelDataPoint F) : pystr :=
  cps "file_" ++ str_of_int file_id ++ cps "_row_" ++ str_of_int (row_index data_point)
  ++ cps "_col_" ++ column_name data_point.

(** [f"file_{file_id}_headers"]. *)
Definition header_doc_id (file_id : Z) : pystr :=
  cps "file_" ++ str_of_int file_id ++ cps "_headers".

(** The inner loop of [_create_and_store_embeddings], over one batch zipped
    with its embeddings. *)
Fixpoint store_batch (headers : list pystr) (file_id : Z)
    (pairs : list (ExcelDataPoint F * list F)) (embeddings_count : nat) : I F nat :=
  match pairs with
  | [] => mret embeddings_count
  | (data_point, embedding) :: rest =>
      let doc_id := data_doc_id file_id data_point in
      let context_text := _create_context_text data_point headers in
      _store_embedding_in_chromadb embedding context_text
        (DataMetadata file_id (row_index data_point) (column_name data_point)
           (dp_type data_point) (text_value data_point) headers)
        doc_id;;
      _store_data_reference data_point file_id doc_id;;
      store_batch headers file_id rest (embeddings_count + 1)
  end.

(** [range(0, n, step)]. *)
Definition range_step (n step : nat) : list nat :=
  List.map (fun k => (k * step)%nat) (seq 0 ((n + step - 1) / step)).

(** The outer loop, over the batch starts [i]. *)
Fixpoint batches_loop (model_name : pystr) (text_data : list (ExcelDataPoint F))
    (headers : list pystr) (file_id : Z) (batch_size : nat) (starts : list nat)
    (embeddings_count : nat) : I F nat :=
  match starts with
  | [] => mret embeddings_count
  | i :: rest =>
      let batch := take batch_size (drop i text_data) in
      batch_embeddings ← lift_M (_create_batch_embeddings model_name batch headers);
      embeddings_count ←
        store_batch headers file_id (zip batch batch_embeddings) embeddings_count;
      batches_loop model_name text_data headers file_id batch_size rest embeddings_count
  end.

Definition _create_and_store_embeddings (model_name : pystr)
    (text_data : list (ExcelDataPoint F)) (headers : list pystr) (file_id : Z)
  : I F nat :=
  let embeddings_count := 0%nat in
  let header_text := join (cps " | ") headers in
  header_embedding ← lift_M (_create_embedding model_name (cps "Headers: " ++ header_text));
  _store_embedding_in_chromadb header_embedding header_text
    (HeaderMetadata file_id headers) (header_doc_id file_id);;
  let embeddings_count := (embeddings_count + 1)%nat in
  let batch_size := 10%nat in
  embeddings_count ←
    batches_loop model_name text_data headers file_id batch_size
      (range_step (length text_data) batch_size) embeddings_count;
  db_commit;;
  mret embeddings_count.

(** The loop of [_store_numerical_metadata]. *)
Fixpoint store_numerical_loop (numerical_data : list (ExcelDataPoint F)) (file_id : Z)
    (count : nat) : I F nat :=
  match numerical_data with
  | [] => mret count
  | data_point :: rest =>
      db_add (DataRecord
                {| sd_file_id := file_id;
                   sd_row_index := row_index data_point;
                   sd_column_name := column_name data_point;
                   sd_text_value := None;
                   sd_numerical_value := numerical_value data_point;
                   sd_data_type := dp_type data_point;
                   sd_embedding_id := None |});;
      store_numerical_loop rest file_id (count + 1)
  end.

Definition _store_numerical_metadata (numerical_data : list (ExcelDataPoint F))
    (file_id : Z) : I F nat :=
  count ← store_numerical_loop numerical_data file_id 0;
  db_commit;;
  mret count.

Definition process_and_store_data (model_name : pystr)
    (processed_data : ProcessedExcelData F) (original_filename : pystr)
  : I F IngestCounts :=
  '(excel_file, file_id) ← _store_file_metadata processed_data original_filename;
  embeddings_count ←
    match text_data processed_data with
    | [] => mret 0%nat
    | _ => _create_and_store_embeddings model_name (text_data processed_data)
             (pd_headers processed_data) file_id
    end;
  metadata_count ← _store_numerical_metadata (numerical_data processed_data) file_id;
  mret {| embeddings_count := embeddings_count; metadata_count := metadata_count |}.

End Ingest.

End EmbeddingService.

(* ===================================================================== *)
(** * search_service.py *)
(* ===================================================================== *)

Module SearchService.

(** The values of a result row or of a metadata bag. *)
Inductive pyval (F : Type) :=
| VNone
| VBool (b : bool)
| VInt (n : Z)
| VFloat (x : F)
| VStr (s : pystr)
| VDict (items : list (pystr * pyval F)).
Arguments VNone {F}.
Arguments VBool {F} b.
Arguments VInt {F} n.
Arguments VFloat {F} x.
Arguments VStr {F} s.
Arguments VDict {F} items.

(** A [Dict[str, Any]]. *)
Abbreviation dict F := (gmap pystr (pyval F)).

(** String formatting supplied by the runtime: [f"{x:.2%}"], [f"{x:,.2f}"]
    and [str(x)] as an f-string interpolates it. *)
Class Formatting (F : Type) := {
  format_percent : pyval F -> pystr;
  format_grouped : pyval F -> pystr;
  str_of_val : pyval F -> pystr;
}.

(** What [await db.execute(text(sql))] hands back: [fetchall()] and [keys()],
    either of which may raise. *)
Record Cursor (F : Type) := {
  fetchall : outcome (list (list (pyval F)));
  keys : outcome (list pystr);
}.
Arguments fetchall {F} _.
Arguments keys {F} _.

(** The database session: executing a statement, the sibling-values query
    of [_enhance_metadata_with_sql_context] (by file id and row index, giving
    column name, numerical value and data type of each row), and a commit. *)
Record AsyncSession (F : Type) := {
  execute : pystr -> outcome (Cursor F);
  select_numerical : pyval F -> pyval F -> outcome (list (pystr * pyval F * pyval F));
  commit : outcome unit;
}.
Arguments execute {F} _ _.
Arguments select_numerical {F} _ _ _.
Arguments commit {F} _.

(** The answer of [vector_db.query(...)], one inner list per query embedding. *)
Record QueryResult (F : Type) := {
  documents : list (list pystr);
  metadatas : list (list (dict F));
  distances : list (list F);
}.
Arguments documents {F} _.
Arguments metadatas {F} _.
Arguments distances {F} _.

Record SearchService (F : Type) := {
  db : option (AsyncSession F);
  vector_db : list F -> Z -> outcome (QueryResult F);
  model_name : pystr;
}.
Arguments db {F} _.
Arguments vector_db {F} _ _ _.
Arguments model_name {F} _.

(** [schemas.SearchResult]. *)
Record SearchResult (F : Type) := {
  content : pystr;
  score : F;
  metadata : dict F;
  source : pystr;
  sr_row_index : pyval F;
  sr_column_name : pyval F;
}.
Arguments content {F} _.
Arguments score {F} _.
Arguments metadata {F} _.
Arguments source {F} _.
Arguments sr_row_index {F} _.
Arguments sr_column_name {F} _.

(** [schemas.SearchResponse], without the wall-clock [execution_time]. *)
Record SearchResponse (F : Type) := {
  query : pystr;
  results : list (SearchResult F);
  total_results : nat;
  search_type : pystr;
  suggestions : list pystr;
}.
Arguments query {F} _.
Arguments results {F} _.
Arguments total_results {F} _.
Arguments search_type {F} _.
Arguments suggestions {F} _.

Section Search.
Context {F : Type} {fops : FloatOps F} {fmt : Formatting F} {uc : Unicode}
        {provider : EmbeddingService.Provider F}.

(** [d.get(key, default)]. *)
Definition dict_get (d : dict F) (key : pystr) (dflt : pyval F) : pyval F :=
  default dflt (d !! key).

(** [l[0]]. *)
Definition first {A} (l : list A) : M A :=
  match l with
  | x :: _ => mret x
  | [] => raise (IndexError (cps "list index out of range"))
  end.

(** [await db.execute(text(sql))]: the statement reaches the database. *)
Definition db_execute (session : AsyncSession F) (sql : pystr) : M (Cursor F) :=
  fun w => (execute session sql,
            {| stdout := stdout w; executed := executed w ++ [sql];
               history := history w |}).

(** [db.add(SearchHistory(...)); await db.commit()]. *)
Definition db_add_commit (session : AsyncSession F) (record : pystr * pystr * nat)
  : M unit :=
  fun w =>
    match commit session with
    | Return _ => (Return tt, {| stdout := stdout w; executed := executed w;
                                 history := history w ++ [record] |})
    | Raise e => (Raise e, w)
    end.

Definition _enhance_metadata_with_sql_context (self : SearchService F)
    (metadata : dict F) : M (dict F) :=
  match db self with
  | None => mret metadata
  | Some session =>
      try_except
        (result ← lift (select_numerical session
                          (dict_get metadata (cps "file_id") VNone)
                          (dict_get metadata (cps "row_index") VNone));
         let numerical_context :=
           foldl (fun ctx row =>
                    let '(column_name, numerical_value, data_type) := row in
                    <[column_name :=
                        VDict [(cps "value", numerical_value); (cps "type", data_type)]]> ctx)
                 (∅ : dict F) result in
         mret (<[cps "numerical_context" := VDict (map_to_list numerical_context)]> metadata))
        (fun e =>
           print (cps "Error enhancing metadata: " ++ exn_str e);;
           mret metadata)
  end.

(** The filtering loop of [semantic_search] over the zipped neighbours. *)
Fixpoint search_loop (self : SearchService F) (limit : Z) (threshold : F)
    (neighbours : list (pystr * dict F * F)) (search_results : list (SearchResult F))
  : M (list (SearchResult F)) :=
  match neighbours with
  | [] => mret search_results
  | (doc, metadata, distance) :: rest =>
      let score := f_sub f_one distance in
      if f_ltb score threshold then
        search_loop self limit threshold rest search_results
      else
        enhanced_metadata ← _enhance_metadata_with_sql_context self metadata;
        (* the call updates the bag in place: [metadata] now names the same
           bag as [enhanced_metadata] *)
        let metadata := enhanced_metadata in
        let result :=
          {| content := doc; score := score; metadata := enhanced_metadata;
             source := cps "Row "
                       ++ str_of_val (dict_get metadata (cps "row_index") (VStr (cps "N/A")))
                       ++ cps ", Column "
                       ++ str_of_val (dict_get metadata (cps "column_name") (VStr (cps "N/A")));
             sr_row_index := dict_get metadata (cps "row_index") (VInt 0);
             sr_column_name := dict_get metadata (cps "column_name") (VStr []) |} in
        let search_results := search_results ++ [result] in
        if (Z.of_nat (length search_results) >=? limit)%Z then mret search_results
        else search_loop self limit threshold rest search_results
  end.

(** [s.split()]: the maximal runs of non-whitespace. *)
Fixpoint split_from (word : pystr) (s : pystr) : list pystr :=
  match s with
  | [] => match word with [] => [] | _ => [word] end
  | c :: s' =>
      if isspace c
      then match word with [] => split_from [] s' | _ => word :: split_from [] s' end
      else split_from (word ++ [c]) s'
  end.

Definition split (s : pystr) : list pystr := split_from [] s.

Definition base_suggestions : list pystr :=
  [cps "Show me the top performers";
   cps "Which region has the best sales?";
   cps "Who is underperforming?";
   cps "Average performance by region";
   cps "Total sales by representative"].

Definition _generate_search_suggestions (query : pystr)
    (results : list (SearchResult F)) : list pystr :=
  take 3 (List.filter
            (fun suggestion =>
               negb (existsb (fun word => contains word (lower suggestion))
                             (split (lower query))))
            base_suggestions).

Definition _log_search_history (self : SearchService F) (query query_type : pystr)
    (results_count : nat) : M unit :=
  match db self with
  | None => mret tt
  | Some session =>
      try_except
        (db_add_commit session (query, query_type, results_count))
        (fun e => print (cps "Error logging search history: " ++ exn_str e))
  end.

Definition semantic_search (self : SearchService F) (query : pystr) (limit : Z)
    (threshold : F) : M (SearchResponse F) :=
  query_embedding ← EmbeddingService.create_query_embedding (model_name self) query;
  chroma_results ← lift (vector_db self query_embedding (limit * 2));
  search_results ←
    match documents chroma_results with
    | [] => mret []
    | docs :: _ =>
        metas ← first (metadatas chroma_results);
        dists ← first (distances chroma_results);
        search_loop self limit threshold (zip (zip docs metas) dists) []
    end;
  let suggestions := _generate_search_suggestions query search_results in
  _log_search_history self query (cps "semantic") (length search_results);;
  mret {| query := query; results := search_results;
          total_results := length search_results;
          search_type := cps "semantic"; suggestions := suggestions |}.

Definition unsafe_keywords : list pystr :=
  [cps "DELETE"; cps "UPDATE"; cps "INSERT"; cps "DROP"; cps "ALTER";
   cps "CREATE"; cps "TRUNCATE"].

(** The safety loop: the first keyword found in the uppercased text raises. *)
Fixpoint check_keywords (keywords : list pystr) (query_upper : pystr) : M unit :=
  match keywords with
  | [] => mret tt
  | keyword :: rest =>
      if contains keyword query_upper
      then raise (ValueError (cps "Unsafe SQL operation detected: " ++ keyword))
      else check_keywords rest query_upper
  end.

(** [dict(zip(columns, row))]: a later duplicate of a key wins. *)
Definition dict_of_zip (columns : list pystr) (row : list (pyval F)) : dict F :=
  foldl (fun d kv => <[kv.1 := kv.2]> d) ∅ (zip columns row).

Definition _execute_sql_safely (self : SearchService F) (sql_query : pystr)
  : M (list (dict F)) :=
  match db self with
  | None => mret []
  | Some session =>
      let query_upper := upper sql_query in
      check_keywords unsafe_keywords query_upper;;
      try_except
        (result ← db_execute session sql_query;
         rows ← lift (fetchall result);
         columns ← lift (keys result);
         mret (List.map (dict_of_zip columns) rows))
        (fun e =>
           print (cps "Error executing SQL: " ++ exn_str e);;
           mret [])
  end.

(** [isinstance(v, (int, float))]; [bool] derives from [int]. *)
Definition isinstance_number (v : pyval F) : bool :=
  match v with
  | VBool _ | VInt _ | VFloat _ => true
  | _ => false
  end.

(** [v.lower()] of a row value: only a [str] has the method. *)
Definition val_lower (v : pyval F) : M pystr :=
  match v with
  | VStr s => mret (lower s)
  | _ => raise (AttributeError (cps "object has no attribute 'lower'"))
  end.

(** [sub in v] for a row value that is a string. *)
Definition val_contains (sub : pystr) (v : pyval F) : bool :=
  match v with
  | VStr s => contains sub s
  | _ => false
  end.

(** The body of the loop of [_post_process_sql_results] on one row. *)
Definition post_process_row (result : dict F) : M (dict F) :=
  match result !! cps "numerical_value", result !! cps "column_name" with
  | Some numerical_value, Some _ =>
      let column_name := dict_get result (cps "column_name") (VStr []) in
      name ← val_lower column_name;
      if contains (cps "performance") name || val_contains (cps "%") column_name then
        if isinstance_number numerical_value
        then mret (<[cps "formatted_value" := VStr (format_percent numerical_value)]> result)
        else mret result
      else if contains (cps "sales") name || contains (cps "quota") name then
        if isinstance_number numerical_value
        then mret (<[cps "formatted_value" :=
                       VStr (cps "$" ++ format_grouped numerical_value)]> result)
        else mret result
      else mret result
  | _, _ => mret result
  end.

Definition _post_process_sql_results (results : list (dict F)) (original_query : pystr)
  : M (list (dict F)) :=
  match results with
  | [] => mret results
  | _ => mapM post_process_row results
  end.

(** [l[:n]]: a negative bound counts from the end. *)
Definition slice_to {A} (n : Z) (l : list A) : list A :=
  if (n <? 0)%Z then take (Z.to_nat (Z.of_nat (length l) + n)) l
  else take (Z.to_nat n) l.

Definition suggestion_pool : list pystr :=
  [cps "who did the best sales from the sales team?";
   cps "which representative has the highest performance?";
   cps "show me all representatives in the North region";
   cps "what is the average quota by region?";
   cps "which region has the lowest performance?";
   cps "who exceeded their quota?";
   cps "total sales for each region";
   cps "performance ranking of all representatives"].

Definition get_suggestions (partial_query : pystr) (limit : Z) : list pystr :=
  let suggestions := suggestion_pool in
  match partial_query with
  | _ :: _ =>
      let filtered :=
        List.filter (fun s => contains (lower partial_query) (lower s)) suggestions in
      slice_to limit filtered
  | [] => slice_to limit suggestions
  end.

End Search.

(** [self.text_model.generate_content_async(prompt)] followed by
    [response.text]: the provider's answer, or the exception raised. *)
Class TextModel := {
  generate_content : pystr -> outcome pystr;
}.

(** [re.search] with the two patterns of [_generate_sql_with_gemini], under
    [re.DOTALL | re.IGNORECASE]: group 1 of the match for the SQL section
    and for the explanation section, [None] when the pattern does not
    match. *)
Class Regex := {
  search_sql_query : pystr -> option pystr;
  search_explanation : pystr -> option pystr;
}.

(** [schemas.SQLQueryResult], without the wall-clock [execution_time]. *)
Record SQLQueryResult (F : Type) := {
  sq_query : pystr;
  generated_sql : pystr;
  sq_results : list (dict F);
  row_count : nat;
  explanation : pystr;
}.
Arguments sq_query {F} _.
Arguments generated_sql {F} _.
Arguments sq_results {F} _.
Arguments row_count {F} _.
Arguments explanation {F} _.

(** [s.replace(old, new)] for a non-empty [old]: every occurrence, left to
    right, none overlapping. [skip] counts the characters of a replaced
    occurrence still to pass over. *)
Fixpoint replace_from (old new : pystr) (skip : nat) (s : pystr) : pystr :=
  match s with
  | [] => []
  | c :: s' =>
      match skip with
      | S k => replace_from old new k s'
      | O =>
          if startswith old s
          then new ++ replace_from old new (length old - 1) s'
          else c :: replace_from old new 0 s'
      end
  end.

Definition replace (old new s : pystr) : pystr := replace_from old new 0 s.

Section Generation.
Context {F : Type} {fops : FloatOps F} {fmt : Formatting F} {uc : Unicode}
        {tm : TextModel} {re : Regex}.

Definition _get_database_schema_context : pystr :=
  cps "
        Database Schema:
        
        Table: spreadsheet_data
        Columns:
        - id (INTEGER): Primary key
        - file_id (INTEGER): Reference to excel_files table
        - row_index (INTEGER): Row number in spreadsheet (0-based)
        - column_name (VARCHAR): Name of the column/header
        - text_value (TEXT): Text content (for embedded data)
        - numerical_value (FLOAT): Numerical content (for calculations)
        - data_type (VARCHAR): Type of data (text, number, percentage, currency)
        
        Table: excel_files
        Columns:
        - id (INTEGER): Primary key
        - filename (VARCHAR): Name of the uploaded file
        - headers (JSON): Column headers as JSON array
        - row_count (INTEGER): Total number of rows
        
        Common column names in sales data:
        - Rep Name, Region, Quota, Actual Sales, Performance %
        
        Example queries:
        - Best performer: SELECT * FROM spreadsheet_data WHERE column_name='Performance %' ORDER BY numerical_value DESC LIMIT 1
        - Regional analysis: SELECT column_name, AVG(numerical_value) FROM spreadsheet_data WHERE column_name IN ('Quota', 'Actual Sales') GROUP BY column_name
        ".

Definition _generate_sql_with_gemini (natural_query schema_context : pystr)
    (table_context : option (dict F)) : M (pystr * pystr) :=
  let prompt :=
    cps "
        You are an expert SQL query generator. Convert the natural language query to a safe SQL query.
        
        Database Schema:
        "
    ++ schema_context
    ++ cps "
        
        Natural Language Query: "
    ++ natural_query
    ++ cps "
        
        Additional Context: "
    ++ match table_context with
       | Some d => match map_to_list d with
                   | [] => cps "None"
                   | _ => str_of_val (VDict (map_to_list d))
                   end
       | None => cps "None"
       end
    ++ cps "
        
        Requirements:
        1. Generate ONLY SELECT queries (no INSERT, UPDATE, DELETE, DROP)
        2. Use proper JOINs when needed
        3. Include column_name filtering when looking for specific data types
        4. For performance queries, look for 'Performance %' or similar columns
        5. For sales queries, look for 'Actual Sales' or similar columns
        6. For names, look for 'Rep Name' or similar columns
        7. Always include LIMIT to prevent huge result sets
        8. Use proper aggregation functions (AVG, SUM, MAX, MIN) when appropriate
        
        Return format:
        SQL_QUERY: [your SQL query here]
        EXPLANATION: [brief explanation of what the query does]
        " in
  try_except
    (response_text ← lift (generate_content prompt);
     let sql_match := search_sql_query response_text in
     let explanation_match := search_explanation response_text in
     let sql_query := match sql_match with Some g => strip g | None => [] end in
     let explanation :=
       match explanation_match with
       | Some g => strip g
       | None => cps "No explanation provided"
       end in
     let sql_query :=
       strip (replace (cps "```") [] (replace (cps "```sql") [] sql_query)) in
     mret (sql_query, explanation))
    (fun e =>
       print (cps "Error generating SQL with Gemini: " ++ exn_str e);;
       mret (cps "SELECT * FROM spreadsheet_data LIMIT 10",
             cps "Error generating query: " ++ exn_str e)).

Definition natural_language_to_sql (self : SearchService F) (query : pystr)
    (table_context : option (dict F)) : M (SQLQueryResult F) :=
  let schema_context := _get_database_schema_context in
  '(sql_query, explanation) ←
    _generate_sql_with_gemini query schema_context table_context;
  results ← _execute_sql_safely self sql_query;
  processed_results ← _post_process_sql_results results query;
  _log_search_history self query (cps "sql") (length processed_results);;
  mret {| sq_query := query; generated_sql := sql_query;
          sq_results := processed_results;
          row_count := length processed_results;
          explanation := explanation |}.

End Generation.

End SearchService.

(* ===================================================================== *)
(** * api/v1/endpoints: upload.py and search.py *)
(* ===================================================================== *)

Module Endpoints.

(** What the client of an endpoint receives: the body returned, or the
    [HTTPException] raised, which the framework turns into the response. *)
Inductive response (A : Type) :=
| Ok (body : A)
| HTTPException (status_code : Z) (detail : pystr).
Arguments Ok {A} body.
Arguments HTTPException {A} status_code detail.

(** The body [upload_excel_file] returns. *)
Record UploadBody := {
  message : pystr;
  up_filename : pystr;
  up_headers : list pystr;
  rows_processed : nat;
  embeddings_created : nat;
  metadata_records : nat;
}.

Section Search.
Import SearchService.
Context {F : Type} {fops : FloatOps F} {fmt : Formatting F} {uc : Unicode}
        {provider : EmbeddingService.Provider F} {tm : TextModel} {re : Regex}.

(** [POST /search/semantic]; [service] is [SearchService(db)] as built from
    the request's session. *)
Definition semantic_search_endpoint (service : SearchService F) (query : pystr)
    (limit : Z) (threshold : F) : M (response (SearchResponse F)) :=
  try_except
    (result ← semantic_search service query limit threshold;
     mret (Ok result))
    (fun e =>
       mret (HTTPException 500 (cps "Error performing semantic search: " ++ exn_str e))).

(** [POST /search/sql-query]. *)
Definition generate_sql_query (service : SearchService F) (natural_query : pystr)
    (table_context : option (dict F)) : M (response (SQLQueryResult F)) :=
  try_except
    (result ← natural_language_to_sql service natural_query table_context;
     mret (Ok result))
    (fun e =>
       mret (HTTPException 500 (cps "Error generating SQL query: " ++ exn_str e))).

End Search.

Section Upload.
Import ExcelProcessor EmbeddingService.
Context {F : Type} {fops : FloatOps F} {rt : Builtins F} {uc : Unicode}
        {pandas : Pandas F} {hashing : Hashing}
        {provider : Provider F} {stores : Stores F}.

(** [extracted_data[key]]: [ProcessedExcelData] is a pydantic model, and a
    pydantic model has no [__getitem__]. *)
Definition subscript_model {A} (extracted_data : ProcessedExcelData F) (key : pystr)
  : I F A :=
  I_raise (TypeError (cps "'ProcessedExcelData' object is not subscriptable")).

(** [POST /upload/excel]; [processor] is [ExcelProcessor()]. *)
Definition upload_excel_file (processor : ExcelProcessor) (model_name : pystr)
    (filename : pystr) (file_content : list Byte.byte) : I F (response UploadBody) :=
  if negb (existsb (fun ext => endswith ext (lower filename))
                   [cps ".xlsx"; cps ".xls"; cps ".csv"])
  then mret (HTTPException 400
               (cps "Invalid file type. Only Excel (.xlsx, .xls) and CSV files are supported."))
  else
    I_try_except
      (extracted_data ← lift_M (process_file processor file_content filename);
       result ← process_and_store_data model_name extracted_data filename;
       headers ← subscript_model extracted_data (cps "headers");
       row_count ← subscript_model extracted_data (cps "row_count");
       mret (Ok {| message := cps "File processed successfully";
                   up_filename := filename;
                   up_headers := headers;
                   rows_processed := row_count;
                   embeddings_created := embeddings_count result;
                   metadata_records := metadata_count result |}))
      (fun e => mret (HTTPException 500 (cps "Error processing file: " ++ exn_str e))).

End Upload.

End Endpoints.

(* ===================================================================== *)
(** * The predicates of the statements *)
(* ===================================================================== *)

(** A call that cannot end in an exception [except Exception] lets through. *)
Definition catchable {A} (o : outcome A) : Prop :=
  forall e, o = Raise e -> is_Exception e = true.

(** [m] spells [word] up to the case of its ASCII letters. *)
Definition spells_ignoring_case (m word : pystr) : Prop :=
  Forall2 (fun c k => (c < 128)%N /\ ascii_upper c = k) m word.

(** The characters of [str(n)]: digits and the minus sign. *)
Definition int_char (c : N) : Prop := (48 <= c <= 57)%N \/ c = 45%N.

Section Predicates.
Import ExcelProcessor SearchService.
Context {F : Type} {fops : FloatOps F} {fmt : Formatting F} {uc : Unicode}.

(** The value is a float within [0, 1]. *)
Definition float_in_unit_interval (value : cell F) : Prop :=
  exists x, value = CFloat x /\ f_leb f_zero x = true /\ f_leb x f_one = true.

(** The string holds one of the currency symbols. *)
Definition has_currency_symbol (str_value : pystr) : Prop :=
  exists symbol, symbol ∈ currency_symbols /\ contains symbol str_value = true.

(** The statement fails at execution time with [e]: in [db.execute], in
    [fetchall()] or in [keys()]. *)
Definition execution_fails (session : AsyncSession F) (sql : pystr) (e : exn) : Prop :=
  execute session sql = Raise e
  \/ exists cursor, execute session sql = Return cursor
     /\ (fetchall cursor = Raise e
         \/ exists rows, fetchall cursor = Return rows /\ keys cursor = Raise e).

(** The column name suggests a percentage, or sales or a quota. *)
Definition suggests_percentage (name : pystr) : Prop :=
  contains (cps "performance") (lower name) = true \/ contains (cps "%") name = true.

Definition suggests_currency (name : pystr) : Prop :=
  contains (cps "sales") (lower name) = true \/ contains (cps "quota") (lower name) = true.

(** The row can be post-processed: when it has both keys, its column name
    is a string. *)
Definition name_is_str (result : dict F) : Prop :=
  forall nv v, result !! cps "numerical_value" = Some nv ->
               result !! cps "column_name" = Some v -> exists name, v = VStr name.

(** What post-processing does to one row: every field but the display
    field keeps its value, and the display field is set as the column
    name asks, for a value that is a number. *)
Definition annotated (result result' : dict F) : Prop :=
  (forall key, key <> cps "formatted_value" -> result' !! key = result !! key)
  /\ result' !! cps "numerical_value" = result !! cps "numerical_value"
  /\ (result' = result \/ exists shown, result' = <[cps "formatted_value" := VStr shown]> result)
  /\ forall nv name,
       result !! cps "numerical_value" = Some nv ->
       result !! cps "column_name" = Some (VStr name) ->
       isinstance_number nv = true ->
       (suggests_percentage name ->
          result' !! cps "formatted_value" = Some (VStr (format_percent nv)))
       /\ (~ suggests_percentage name -> suggests_currency name ->
             result' !! cps "formatted_value" = Some (VStr (cps "$" ++ format_grouped nv)))
       /\ (~ suggests_percentage name -> ~ suggests_currency name -> result' = result).

(** [x <= y] on floats. *)
Definition f_le (x y : F) : Prop := f_leb x y = true.

(** The neighbour at this distance scores below the threshold. *)
Definition below (threshold distance : F) : Prop :=
  f_ltb (f_sub f_one distance) threshold = true.

(** The store lists the neighbours of each query by ascending distance. *)
Definition store_sorted (self : SearchService F) : Prop :=
  forall emb n qr, vector_db self emb n = Return qr -> Forall (Sorted f_le) (distances qr).

(** The store answers every query, with metadata and distances whenever it
    lists documents. *)
Definition store_answers (self : SearchService F) : Prop :=
  forall emb n, exists qr,
    vector_db self emb n = Return qr
    /\ (documents qr = [] \/ (metadatas qr <> [] /\ distances qr <> [])).

Context {provider : EmbeddingService.Provider F}.

(** No call to the provider or to the database ends in an exception that
    [except Exception] lets through. *)
Definition uncancelled (self : SearchService F) : Prop :=
  (forall model text task_type,
     catchable (EmbeddingService.embed_content model text task_type))
  /\ forall session, db self = Some session ->
       (forall file_id row_index, catchable (select_numerical session file_id row_index))
       /\ catchable (commit session).

(** The statement passes the keyword gate of [_execute_sql_safely]: its
    uppercased text holds none of the seven keywords. *)
Definition passes_gate (sql : pystr) : Prop :=
  Forall (fun kw => contains kw (upper sql) = false) unsafe_keywords.

(** The neighbours the store lists for the first query embedding, as the
    loop of [semantic_search] zips them: document, metadata, distance. *)
Definition listed_neighbours (qr : QueryResult F) : list (pystr * dict F * F) :=
  zip (zip (hd [] (documents qr)) (hd [] (metadatas qr))) (hd [] (distances qr)).

(** The entry of the numerical context made from one row of the lookup. *)
Definition context_entry (numerical_value data_type : pyval F) : pyval F :=
  VDict [(cps "value", numerical_value); (cps "type", data_type)].

(** The result is made from one of the neighbours: its document, its
    distance, and its bag up to the numerical context. *)
Definition from_neighbour (threshold : F) (ns : list (pystr * dict F * F))
    (r : SearchResult F) : Prop :=
  exists i doc md distance,
    ns !! i = Some (doc, md, distance)
    /\ content r = doc
    /\ score r = f_sub f_one distance
    /\ f_ltb (score r) threshold = false
    /\ (forall key, key <> cps "numerical_context" -> metadata r !! key = md !! key)
    /\ sr_row_index r = dict_get md (cps "row_index") (VInt 0)
    /\ sr_column_name r = dict_get md (cps "column_name") (VStr [])
    /\ source r = cps "Row "
                  ++ str_of_val (dict_get md (cps "row_index") (VStr (cps "N/A")))
                  ++ cps ", Column "
                  ++ str_of_val (dict_get md (cps "column_name") (VStr (cps "N/A"))).

(** The distances the store lists for the first query embedding. *)
Definition first_distances (qr : QueryResult F) : list F := hd [] (distances qr).

End Predicates.

Section IngestPredicates.
Import ExcelProcessor EmbeddingService.
Context {F : Type} {fops : FloatOps F} {provider : Provider F}.

(** The row of [excel_files] that [_store_file_metadata] adds. *)
Definition file_row (processed_data : ProcessedExcelData F) (original_filename : pystr)
  : ExcelFile :=
  {| ef_filename := pd_filename processed_data;
     ef_original_filename := original_filename;
     ef_headers := pd_headers processed_data;
     ef_row_count := pd_row_count processed_data;
     ef_file_hash := file_hash processed_data |}.

(** The entry of the vector collection for the headers, and for a text
    point with its embedding. *)
Definition header_entry (headers : list pystr) (file_id : Z) (embedding : list F)
  : VectorEntry F :=
  {| ve_embedding := embedding; ve_document := join (cps " | ") headers;
     ve_metadata := HeaderMetadata file_id headers; ve_id := header_doc_id file_id |}.

Definition data_entry (headers : list pystr) (file_id : Z)
    (pair : ExcelDataPoint F * list F) : VectorEntry F :=
  {| ve_embedding := pair.2;
     ve_document := _create_context_text pair.1 headers;
     ve_metadata := DataMetadata file_id (row_index pair.1) (column_name pair.1)
                      (dp_type pair.1) (text_value pair.1) headers;
     ve_id := data_doc_id file_id pair.1 |}.

(** The row of [spreadsheet_data] for a text point, which names its
    embedding, and for a numerical point, which has none. *)
Definition text_row (file_id : Z) (data_point : ExcelDataPoint F) : db_record F :=
  DataRecord {| sd_file_id := file_id;
                sd_row_index := row_index data_point;
                sd_column_name := column_name data_point;
                sd_text_value := text_value data_point;
                sd_numerical_value := numerical_value data_point;
                sd_data_type := dp_type data_point;
                sd_embedding_id := Some (data_doc_id file_id data_point) |}.

Definition numerical_row (file_id : Z) (data_point : ExcelDataPoint F) : db_record F :=
  DataRecord {| sd_file_id := file_id;
                sd_row_index := row_index data_point;
                sd_column_name := column_name data_point;
                sd_text_value := None;
                sd_numerical_value := numerical_value data_point;
                sd_data_type := dp_type data_point;
                sd_embedding_id := None |}.

(** The embedding is what [_create_embedding] gives for the text: the
    provider's answer, or the zero vector when the provider failed. *)
Definition embedding_of (model_name text : pystr) (embedding : list F) : Prop :=
  embed_content model_name text (cps "retrieval_document") = Return embedding
  \/ (embedding = zero_vector
      /\ exists e, embed_content model_name text (cps "retrieval_document") = Raise e
                   /\ is_Exception e = true).

End IngestPredicates.

(* ===================================================================== *)
(** * Stand-ins for the runtime, on which the examples run *)
(* ===================================================================== *)

(** Case tables that leave every code point above ASCII as it is. *)
Definition ascii_case_only : Unicode :=
  {| to_upper_full := fun c => [c]; to_lower_full := fun _ _ c => [c] |}.

(** A provider whose every call fails, and one that answers 768 zeros. *)
Definition failing_provider : EmbeddingService.Provider float :=
  {| EmbeddingService.embed_content := fun _ _ _ =>
       Raise (ProviderError (cps "503 service unavailable")) |}.

Definition zeros_provider : EmbeddingService.Provider float :=
  {| EmbeddingService.embed_content := fun _ _ _ => Return (repeat 0%float 768) |}.

(** Number conversions that know only the numbers of the examples:
    [float(n)] is exact below 2^53, [float(s)] accepts the two strings
    listed, and [str(x)] knows 0.5, 1.125 and 1.5. *)
Fixpoint float_of_pos (p : positive) : float :=
  match p with
  | xH => 1
  | xO q => 2 * float_of_pos q
  | xI q => 2 * float_of_pos q + 1
  end%float.

Definition sample_builtins : Builtins float :=
  {| float_of_int := fun n =>
       match n with
       | Z0 => 0%float
       | Zpos p => float_of_pos p
       | Zneg p => (- float_of_pos p)%float
       end;
     float_of_str := fun s =>
       if bool_decide (s = cps "0.5") then Some 0.5%float
       else if bool_decide (s = cps "42") then Some 42%float
       else None;
     str_of_float := fun x =>
       if PrimFloat.eqb x 0.5 then cps "0.5"
       else if PrimFloat.eqb x 1.125 then cps "1.125"
       else if PrimFloat.eqb x 1.5 then cps "1.5"
       else cps "nan" |}.

(** A session whose database has no tables: every statement fails. *)
Definition broken_session : SearchService.AsyncSession float :=
  {| SearchService.execute := fun _ =>
       Raise (DatabaseError (cps "no such table: spreadsheet_data"));
     SearchService.select_numerical := fun _ _ =>
       Raise (DatabaseError (cps "no such table: spreadsheet_data"));
     SearchService.commit := Return tt |}.

(** A vector store that holds nothing. *)
Definition empty_store : list float -> Z -> outcome (SearchService.QueryResult float) :=
  fun _ _ => Return {| SearchService.documents := [[]];
                       SearchService.metadatas := [[]];
                       SearchService.distances := [[]] |}.

Definition service_with_session : SearchService.SearchService float :=
  {| SearchService.db := Some broken_session;
     SearchService.vector_db := empty_store;
     SearchService.model_name := cps "models/text-embedding-004" |}.

Definition service_without_session : SearchService.SearchService float :=
  {| SearchService.db := None;
     SearchService.vector_db := empty_store;
     SearchService.model_name := cps "models/text-embedding-004" |}.

(** Formatting that knows only the values of the examples. *)
Definition sample_formatting : SearchService.Formatting float :=
  {| SearchService.format_percent := fun v =>
       match v with
       | SearchService.VFloat x => if PrimFloat.eqb x 0.75 then cps "75.00%" else cps "?"
       | _ => cps "?"
       end;
     SearchService.format_grouped := fun v =>
       match v with
       | SearchService.VInt 135000 => cps "135,000.00"
       | _ => cps "?"
       end;
     SearchService.str_of_val := fun v =>
       match v with
       | SearchService.VStr s => s
       | SearchService.VInt n => str_of_int n
       | _ => cps "?"
       end |}.

(** Two rows of [spreadsheet_data] as [_execute_sql_safely] builds them. *)
Definition sample_rows : list (SearchService.dict float) :=
  List.map (SearchService.dict_of_zip [cps "column_name"; cps "numerical_value"])
    [[SearchService.VStr (cps "Performance %"); SearchService.VFloat 0.75%float];
     [SearchService.VStr (cps "Actual Sales"); SearchService.VInt 135000]].

(** A store that lists two neighbours at the same distance, and the
    service over it. *)
Definition tie_store : list float -> Z -> outcome (SearchService.QueryResult float) :=
  fun _ _ => Return {| SearchService.documents :=
                         [[cps "Column: Region | Value: North";
                           cps "Column: Region | Value: South"]];
                       SearchService.metadatas := [[∅; ∅]];
                       SearchService.distances := [[0.25%float; 0.25%float]] |}.

Definition tie_service : SearchService.SearchService float :=
  {| SearchService.db := None;
     SearchService.vector_db := tie_store;
     SearchService.model_name := cps "models/text-embedding-004" |}.

(** The same on exact rationals: a provider, formatting, and a store that
    lists four neighbours by ascending distance. *)
Definition rational_provider : EmbeddingService.Provider Q :=
  {| EmbeddingService.embed_content := fun _ _ _ => Return [1 # 2; 1 # 3]%Q |}.

Definition rational_formatting : SearchService.Formatting Q :=
  {| SearchService.format_percent := fun _ => cps "?";
     SearchService.format_grouped := fun _ => cps "?";
     SearchService.str_of_val := fun v =>
       match v with
       | SearchService.VStr s => s
       | SearchService.VInt n => str_of_int n
       | _ => cps "?"
       end |}.

Definition rational_store : list Q -> Z -> outcome (SearchService.QueryResult Q) :=
  fun _ _ => Return {| SearchService.documents := [[cps "a"; cps "b"; cps "c"; cps "d"]];
                       SearchService.metadatas := [[∅; ∅; ∅; ∅]];
                       SearchService.distances := [[1 # 10; 3 # 10; 3 # 10; 7 # 10]%Q] |}.

Definition rational_service : SearchService.SearchService Q :=
  {| SearchService.db := None;
     SearchService.vector_db := rational_store;
     SearchService.model_name := cps "models/text-embedding-004" |}.

(** A frame whose second label carries surrounding whitespace. *)
Definition padded_frame : ExcelProcessor.DataFrame float :=
  {| ExcelProcessor.columns := [cps "Region"; cps " Quota "];
     ExcelProcessor.rows := [[ExcelProcessor.CStr (cps "North"); ExcelProcessor.CInt 120000];
                             [ExcelProcessor.CStr (cps "South"); ExcelProcessor.CInt 100000]] |}.

(** Readers that take every non-empty CSV file for the same frame, of two
    columns and two rows, and fail on anything else; and hashing that does
    not look at the bytes. *)
Definition sample_csv : list Byte.byte := [Byte.x52; Byte.x2c; Byte.x51; Byte.x0a].

Definition sample_frame : ExcelProcessor.DataFrame float :=
  {| ExcelProcessor.columns := [cps "Region"; cps "Quota"];
     ExcelProcessor.rows := [[ExcelProcessor.CStr (cps "North"); ExcelProcessor.CInt 120000];
                             [ExcelProcessor.CStr (cps "South"); ExcelProcessor.CInt 100000]] |}.

Definition sample_pandas : ExcelProcessor.Pandas float :=
  {| ExcelProcessor.read_csv := fun content =>
       match content with
       | [] => Raise (ValueError (cps "No columns to parse from file"))
       | _ => Return sample_frame
       end;
     ExcelProcessor.read_excel := fun _ =>
       Raise (ValueError (cps "Excel file format cannot be determined")) |}.

Definition sample_hashing : ExcelProcessor.Hashing :=
  {| ExcelProcessor.md5_hexdigest := fun _ => cps "d41d8cd98f00b204e9800998ecf8427e";
     ExcelProcessor.str_of_str_list := fun _ => cps "['.xlsx', '.xls', '.csv']" |}.

Definition default_processor : ExcelProcessor.ExcelProcessor :=
  {| ExcelProcessor.supported_extensions := [cps ".xlsx"; cps ".xls"; cps ".csv"] |}.

(** A session over one sheet of two rows: every statement gives the same
    two rows under the three columns. *)
Definition sales_cursor : SearchService.Cursor float :=
  {| SearchService.fetchall :=
       Return [[SearchService.VInt 0; SearchService.VStr (cps "Quota");
                SearchService.VFloat 1.5%float];
               [SearchService.VInt 1; SearchService.VStr (cps "Quota");
                SearchService.VFloat 0.5%float]];
     SearchService.keys :=
       Return [cps "row_index"; cps "column_name"; cps "numerical_value"] |}.

Definition sales_lookup
  : list (pystr * SearchService.pyval float * SearchService.pyval float) :=
  [(cps "Quota", SearchService.VFloat 1.5%float, SearchService.VStr (cps "number"));
   (cps "Quota", SearchService.VFloat 0.5%float, SearchService.VStr (cps "percentage"))].

Definition sales_session : SearchService.AsyncSession float :=
  {| SearchService.execute := fun _ => Return sales_cursor;
     SearchService.select_numerical := fun _ _ => Return sales_lookup;
     SearchService.commit := Return tt |}.

Definition sales_service : SearchService.SearchService float :=
  {| SearchService.db := Some sales_session;
     SearchService.vector_db := empty_store;
     SearchService.model_name := cps "models/text-embedding-004" |}.

(** A text model that answers every prompt with the same fenced statement,
    one that fails on every prompt, and the two searches on the answers of
    the first. *)
Definition fenced_answer : pystr :=
  cps "SQL_QUERY: ```sql
SELECT * FROM spreadsheet_data LIMIT 5
```
EXPLANATION: The first five rows.".

Definition fenced_model : SearchService.TextModel :=
  {| SearchService.generate_content := fun _ => Return fenced_answer |}.

Definition failing_model : SearchService.TextModel :=
  {| SearchService.generate_content := fun _ =>
       Raise (ProviderError (cps "429 Resource has been exhausted")) |}.

Definition dropping_model : SearchService.TextModel :=
  {| SearchService.generate_content := fun _ =>
       Return (cps "SQL_QUERY: DROP TABLE spreadsheet_data
EXPLANATION: Removes the table.") |}.

Definition sample_regex : SearchService.Regex :=
  {| SearchService.search_sql_query := fun text =>
       if bool_decide (text = fenced_answer)
       then Some (cps "```sql
SELECT * FROM spreadsheet_data LIMIT 5
```
")
       else Some (cps "DROP TABLE spreadsheet_data
");
     SearchService.search_explanation := fun text =>
       if bool_decide (text = fenced_answer)
       then Some (cps "The first five rows.")
       else Some (cps "Removes the table.") |}.

(** A service whose vector store is down. *)
Definition down_service : SearchService.SearchService float :=
  {| SearchService.db := Some sales_session;
     SearchService.vector_db := fun _ _ =>
       Raise (ProviderError (cps "Collection excel_embeddings does not exist."));
     SearchService.model_name := cps "models/text-embedding-004" |}.

(** Three text points of one sheet, and the processed sheet they belong to. *)
Definition sample_points : list (ExcelProcessor.ExcelDataPoint float) :=
  [{| ExcelProcessor.row_index := 0; ExcelProcessor.column_name := cps "Region";
      ExcelProcessor.text_value := Some (cps "North");
      ExcelProcessor.numerical_value := None;
      ExcelProcessor.dp_type := ExcelProcessor.text;
      ExcelProcessor.dp_formula := None |};
   {| ExcelProcessor.row_index := 1; ExcelProcessor.column_name := cps "Region";
      ExcelProcessor.text_value := Some (cps "South");
      ExcelProcessor.numerical_value := None;
      ExcelProcessor.dp_type := ExcelProcessor.text;
      ExcelProcessor.dp_formula := None |}].

Definition sample_numbers : list (ExcelProcessor.ExcelDataPoint float) :=
  [{| ExcelProcessor.row_index := 0; ExcelProcessor.column_name := cps "Quota";
      ExcelProcessor.text_value := None;
      ExcelProcessor.numerical_value := Some 1.5%float;
      ExcelProcessor.dp_type := ExcelProcessor.number;
      ExcelProcessor.dp_formula := None |}].

Definition sample_processed : ExcelProcessor.ProcessedExcelData float :=
  {| ExcelProcessor.pd_filename := cps "sales.csv";
     ExcelProcessor.pd_headers := [cps "Region"; cps "Quota"];
     ExcelProcessor.text_data := sample_points;
     ExcelProcessor.numerical_data := sample_numbers;
     ExcelProcessor.pd_row_count := 2;
     ExcelProcessor.file_hash := cps "d41d8cd98f00b204e9800998ecf8427e" |}.

(** Stores that take everything and number the file 7, and stores whose
    vector collection takes one entry and then fails. *)
Definition accepting_stores : EmbeddingService.Stores float :=
  {| EmbeddingService.vector_add := fun _ _ => Return tt;
     EmbeddingService.session_commit := fun _ _ => Return tt;
     EmbeddingService.session_refresh := fun _ _ => Return 7 |}.

Definition full_stores : EmbeddingService.Stores float :=
  {| EmbeddingService.vector_add := fun held _ =>
       match held with
       | [] => Return tt
       | _ => Raise (ProviderError (cps "Quota exceeded"))
       end;
     EmbeddingService.session_commit := fun _ _ => Return tt;
     EmbeddingService.session_refresh := fun _ _ => Return 7 |}.

Definition ingest0 : EmbeddingService.ingest float :=
  {| EmbeddingService.out := world0; EmbeddingService.collection := [];
     EmbeddingService.pending := []; EmbeddingService.stored := [] |}.

(* ===================================================================== *)
(** * Lemmas on the monad *)
(* ===================================================================== *)

Lemma bind_return {A B} (m : M A) (k : A -> M B) (a : A) (w w' : world) :
  m w = (Return a, w') -> (m ≫= k) w = k a w'.
Proof. intros Hm. unfold mbind, M_bind. by rewrite Hm. Qed.

(* ===================================================================== *)
(** * Lemmas on strings *)
(* ===================================================================== *)

Lemma startswith_spec (pre s : pystr) :
  startswith pre s = true <-> exists t, s = pre ++ t.
Proof.
  revert s; induction pre as [|a pre IH]; intros s; simpl.
  - split; [intros _; by exists s | done].
  - destruct s as [|b s].
    + split; [done | intros [t Ht]; discriminate].
    + rewrite andb_true_iff, N.eqb_eq, IH. split.
      * intros [-> [t ->]]. by exists t.
      * intros [t Ht]. injection Ht as -> ->. eauto.
Qed.

Lemma contains_spec (sub s : pystr) :
  contains sub s = true <-> exists a b, s = a ++ sub ++ b.
Proof.
  induction s as [|c s IH].
  - simpl. rewrite orb_false_r, startswith_spec. split.
    + intros [t Ht]. by exists [], t.
    + intros (a & b & Hab). destruct a; [by exists b |]. discriminate.
  - cbn [contains]. rewrite orb_true_iff, startswith_spec, IH. split.
    + intros [[t Ht] | (a & b & ->)]; [by exists [], t | by exists (c :: a), b].
    + intros (a & b & Hab). destruct a as [|c' a].
      * left. by exists b.
      * right. injection Hab as -> ->. eauto.
Qed.

Lemma upper_app {uc : Unicode} (a b : pystr) : upper (a ++ b) = upper a ++ upper b.
Proof. unfold upper. apply List.flat_map_app. Qed.

Lemma upper_spelling {uc : Unicode} (m word : pystr) :
  spells_ignoring_case m word -> upper m = word.
Proof.
  induction 1 as [|c k m word [Hc Hk] _ IH]; [done |].
  unfold upper in *. simpl. rewrite IH. unfold upper_char.
  apply N.ltb_lt in Hc. by rewrite Hc, Hk.
Qed.

Lemma upper_contains_spelling {uc : Unicode} (s m word : pystr) :
  spells_ignoring_case m word ->
  (exists a b, s = a ++ m ++ b) -> contains word (upper s) = true.
Proof.
  intros Hm (a & b & ->). apply contains_spec.
  exists (upper a), (upper b). by rewrite !upper_app, (upper_spelling m word).
Qed.

(** The string operations on small inputs. *)
Example strip_example : strip (cps "  Actual Sales ") = cps "Actual Sales".
Proof. reflexivity. Qed.

Example upper_example :
  upper (uc := ascii_case_only) (cps "Drop table x_1") = cps "DROP TABLE X_1".
Proof. reflexivity. Qed.

Example contains_example :
  contains (cps "CREATE") (cps "SELECT CREATED_AT FROM T") = true
  /\ contains (cps "DROP") (cps "SELECT 1") = false.
Proof. split; reflexivity. Qed.

Example split_example :
  SearchService.split (cps " best  sales ") = [cps "best"; cps "sales"].
Proof. reflexivity. Qed.

Example extract_headers_example :
  ExcelProcessor._extract_headers (F := float) (uc := ascii_case_only)
    {| ExcelProcessor.columns := [cps "Rep Name"; cps " Quota "; cps "Index"; cps "Unnamed: 0"];
       ExcelProcessor.rows := [] |}
  = [cps "Rep Name"; cps "Quota"; cps "Unnamed: 0"].
Proof. reflexivity. Qed.

Example suggestions_example :
  SearchService._generate_search_suggestions (F := float) (uc := ascii_case_only)
    (cps "Best sales") []
  = [cps "Show me the top performers"; cps "Who is underperforming?";
     cps "Average performance by region"].
Proof. reflexivity. Qed.

(* ===================================================================== *)
(** * The safety gate and the execution step of SQL mode *)
(* ===================================================================== *)

Section SafetyGate.
Import SearchService.
Context {F : Type} {uc : Unicode}.

Lemma check_keywords_raises (keywords : list pystr) (query_upper : pystr) (w : world) :
  Exists (fun kw => contains kw query_upper = true) keywords ->
  exists kw, kw ∈ keywords /\ contains kw query_upper = true /\
    check_keywords keywords query_upper w
    = (Raise (ValueError (cps "Unsafe SQL operation detected: " ++ kw)), w).
Proof.
  induction keywords as [|k ks IH]; intros Hex; [by apply Exists_nil in Hex |].
  simpl. destruct (contains k query_upper) eqn:Hk.
  - exists k. split; [left | done].
  - apply Exists_cons in Hex as [Hex | Hex]; [congruence |].
    destruct (IH Hex) as (kw & Hin & Hc & Hrun).
    exists kw. split; [by right | done].
Qed.

Lemma check_keywords_passes (keywords : list pystr) (query_upper : pystr) (w : world) :
  Forall (fun kw => contains kw query_upper = false) keywords ->
  check_keywords keywords query_upper w = (Return tt, w).
Proof.
  induction 1 as [|k ks Hk _ IH]; [done |]. simpl. by rewrite Hk.
Qed.

(** Without a session the call returns the empty list before it looks at
    the statement. *)
Lemma execute_sql_safely_without_session
    (self : SearchService F) (sql : pystr) (w : world) :
  db self = None -> _execute_sql_safely self sql w = (Return [], w).
Proof. intros Hdb. unfold _execute_sql_safely. by rewrite Hdb. Qed.

(** C1, as the code has it. A service that holds a database session rejects
    every statement whose uppercased text contains one of the seven keywords,
    and so every statement that spells DROP in any mix of letter cases: the
    call raises [ValueError] naming a keyword found, and leaves the world as
    it was, so no statement reached the database and nothing was printed. *)
Theorem execute_sql_safely_rejects_unsafe
    (self : SearchService F) (session : AsyncSession F) (sql : pystr) (w : world) :
  db self = Some session ->
  Exists (fun kw => contains kw (upper sql) = true) unsafe_keywords
  \/ (exists m, spells_ignoring_case m (cps "DROP") /\ exists a b, sql = a ++ m ++ b) ->
  exists kw, kw ∈ unsafe_keywords /\ contains kw (upper sql) = true /\
    _execute_sql_safely self sql w
    = (Raise (ValueError (cps "Unsafe SQL operation detected: " ++ kw)), w).
Proof.
  intros Hdb Hbad.
  assert (Exists (fun kw => contains kw (upper sql) = true) unsafe_keywords) as Hex.
  { destruct Hbad as [Hex | (m & Hm & Hsub)]; [done |].
    apply Exists_exists. exists (cps "DROP"). split.
    - unfold unsafe_keywords. rewrite !elem_of_cons. tauto.
    - by apply (upper_contains_spelling sql m). }
  destruct (check_keywords_raises _ _ w Hex) as (kw & Hin & Hc & Hrun).
  exists kw. split_and!; [done | done |].
  unfold _execute_sql_safely. rewrite Hdb.
  unfold mbind, M_bind. by rewrite Hrun.
Qed.

(** C4. A statement that passes the keyword gate and then fails at execution
    time with an exception makes the call return the empty list: the
    statement did reach the database, the error went to the printed output,
    and nothing is raised to the caller. *)
Theorem execute_sql_safely_swallows_execution_error
    (self : SearchService F) (session : AsyncSession F) (sql : pystr) (e : exn) (w : world) :
  db self = Some session ->
  Forall (fun kw => contains kw (upper sql) = false) unsafe_keywords ->
  execution_fails session sql e ->
  is_Exception e = true ->
  _execute_sql_safely self sql w
  = (Return [], {| stdout := stdout w ++ [cps "Error executing SQL: " ++ exn_str e];
                   executed := executed w ++ [sql];
                   history := history w |}).
Proof.
  intros Hdb Hpass Hfail He.
  unfold _execute_sql_safely. rewrite Hdb.
  unfold mbind, M_bind. rewrite (check_keywords_passes _ _ w Hpass).
  unfold try_except, db_execute, lift, print, mret, M_ret.
  destruct Hfail as [Hx | (cursor & Hx & [Hf | (rows & Hf & Hk)])];
    rewrite Hx; simpl; rewrite ?Hf, ?Hk, ?He; simpl; rewrite ?He; done.
Qed.

End SafetyGate.

(** C1 on a statement that spells DROP in mixed case. *)
Lemma execute_sql_safely_rejects_unsafe_witness :
  exists kw, kw ∈ SearchService.unsafe_keywords
    /\ contains kw (@upper ascii_case_only (cps "select 1; dRoP table spreadsheet_data")) = true
    /\ @SearchService._execute_sql_safely float ascii_case_only service_with_session
         (cps "select 1; dRoP table spreadsheet_data") world0
       = (Raise (ValueError (cps "Unsafe SQL operation detected: " ++ kw)), world0).
Proof.
  apply (@execute_sql_safely_rejects_unsafe float ascii_case_only
           service_with_session broken_session).
  - reflexivity.
  - right. exists (cps "dRoP"). split.
    + repeat constructor.
    + exists (cps "select 1; "), (cps " table spreadsheet_data"). reflexivity.
Defined.

(** C1 as stated fails on a service built without a session: a DROP
    statement comes back as the empty result list, and nothing is raised. *)
Lemma execute_sql_safely_drop_without_session :
  contains (cps "DROP") (@upper ascii_case_only (cps "DROP TABLE spreadsheet_data")) = true
  /\ @SearchService._execute_sql_safely float ascii_case_only service_without_session
       (cps "DROP TABLE spreadsheet_data") world0
     = (Return [], world0).
Proof. split; reflexivity. Qed.

(** C4 on a SELECT sent to a database that lacks the table. *)
Lemma execute_sql_safely_swallows_execution_error_witness :
  @SearchService._execute_sql_safely float ascii_case_only service_with_session
    (cps "SELECT * FROM spreadsheet_data LIMIT 10") world0
  = (Return [],
     {| stdout := [cps "Error executing SQL: no such table: spreadsheet_data"];
        executed := [cps "SELECT * FROM spreadsheet_data LIMIT 10"];
        history := [] |}).
Proof.
  apply (@execute_sql_safely_swallows_execution_error float ascii_case_only
           service_with_session broken_session _
           (DatabaseError (cps "no such table: spreadsheet_data")) world0).
  - reflexivity.
  - repeat constructor.
  - left. reflexivity.
  - reflexivity.
Defined.

(* ===================================================================== *)
(** * The tabular extractor *)
(* ===================================================================== *)

Lemma contains_single_elem (c : N) (s : pystr) : contains [c] s = true -> c ∈ s.
Proof.
  intros (a & b & ->)%contains_spec. rewrite !elem_of_app, elem_of_cons. tauto.
Qed.

Lemma str_of_int_chars (n : Z) : Forall int_char (str_of_int n).
Proof.
  assert (forall d, Forall int_char (cps (NilEmpty.string_of_uint d))) as Hu.
  { induction d; simpl; constructor; try done; left; simpl; lia. }
  assert (forall d, Forall int_char (cps (NilZero.string_of_uint d))) as Hz.
  { intros []; try apply Hu. simpl. constructor; [left; simpl; lia | done]. }
  unfold str_of_int. destruct (Z.to_int n); simpl.
  - apply Hz.
  - constructor; [by right | apply Hz].
Qed.

Lemma strip_subset (s : pystr) : forall c, c ∈ strip s -> c ∈ s.
Proof.
  assert (forall t c, c ∈ lstrip t -> c ∈ t) as Hl.
  { induction t as [|a t IH]; simpl; [done |]. intros c.
    destruct (isspace a); [|done]. intros Hc. right. by apply IH. }
  intros c Hc. unfold strip in Hc.
  apply list_elem_of_In, in_rev, list_elem_of_In, Hl in Hc.
  by apply Hl, list_elem_of_In, in_rev, list_elem_of_In.
Qed.

Section Extractor.
Import ExcelProcessor.
Context {F : Type} {fops : FloatOps F} {rt : Builtins F} {uc : Unicode}.

(** Reduce the fields of a data point, and nothing inside them. *)
Ltac dp_simpl :=
  cbv beta iota delta
    [row_index column_name text_value numerical_value dp_type dp_formula].

Lemma float_in_unit_interval_test (value : cell F) :
  match value with
  | CFloat x => f_leb f_zero x && f_leb x f_one
  | _ => false
  end = true <-> float_in_unit_interval value.
Proof.
  unfold float_in_unit_interval. split.
  - destruct value; try done. intros [? ?]%andb_true_iff. eauto.
  - intros (x & -> & Hlo & Hhi). by rewrite Hlo, Hhi.
Qed.

Lemma has_currency_symbol_test (str_value : pystr) :
  existsb (fun symbol => contains symbol str_value) currency_symbols = true
  <-> has_currency_symbol str_value.
Proof.
  unfold has_currency_symbol. rewrite existsb_exists.
  by setoid_rewrite list_elem_of_In.
Qed.

(** The decision order of [_classify_numerical_type], one tag at a time. *)
Lemma classify_numerical_type_order (value : cell F) (str_value : pystr) :
  let pct := contains (cps "%") str_value = true \/ float_in_unit_interval value in
  let cur := has_currency_symbol str_value in
  let dec := isinstance_float value = true /\ contains (cps ".") str_value = true in
  let t := _classify_numerical_type value str_value in
  (t = percentage <-> pct)
  /\ (t = currency <-> ~ pct /\ cur)
  /\ (t = decimal <-> ~ pct /\ ~ cur /\ dec)
  /\ (t = number <-> ~ pct /\ ~ cur /\ ~ dec).
Proof.
  intros pct cur dec t. subst pct cur dec t.
  rewrite <- float_in_unit_interval_test, <- has_currency_symbol_test,
    <- orb_true_iff, <- andb_true_iff.
  unfold _classify_numerical_type.
  destruct (_ || _); [intuition congruence |].
  destruct (existsb _ _); [intuition congruence |].
  destruct (_ && _); intuition congruence.
Qed.

(** An integer cell is never put to the [0, 1] test. *)
Lemma classify_integer (v : Z) (str_value : pystr) :
  contains (cps "%") str_value = false ->
  ~ has_currency_symbol str_value ->
  _classify_numerical_type (CInt v : cell F) str_value = number.
Proof.
  intros Hpct Hcur.
  apply (classify_numerical_type_order (CInt v) str_value).
  split_and!.
  - intros [? | (x & ? & _)]; congruence.
  - done.
  - by intros [? _].
Qed.

(** C10. With no percent sign and no currency symbol in its string, an
    integer cell within [0, 1], so the integers 0 and 1, is tagged number,
    not percentage. *)
Theorem classify_integer_in_unit_interval_is_number (v : Z) (str_value : pystr) :
  0 <= v <= 1 ->
  contains (cps "%") str_value = false ->
  ~ has_currency_symbol str_value ->
  _classify_numerical_type (CInt v : cell F) str_value = number.
Proof. intros _. apply classify_integer. Qed.

(** Through the extractor an integer cell is tagged number whatever its
    value: its digits hold neither a percent sign nor a currency symbol. *)
Lemma create_data_point_integer (row_idx : Z) (col : pystr) (n : Z) :
  let dp := _create_data_point row_idx col (CInt n : cell F) in
  dp_type dp = number
  /\ numerical_value dp = Some (float_of_int n)
  /\ text_value dp = None.
Proof.
  simpl. unfold _create_data_point. simpl. split_and!; try done.
  assert (forall c, ~ int_char c -> contains [c] (strip (str_of_int n)) = false) as Hno.
  { intros c Hc. destruct (contains _ _) eqn:E; [|done]. exfalso. apply Hc.
    apply contains_single_elem, strip_subset in E.
    by apply (proj1 (Forall_forall _ _) (str_of_int_chars n)). }
  apply classify_integer.
  - change (cps "%") with [37%N]. apply Hno. unfold int_char. lia.
  - intros (symbol & Hin & Hc). unfold currency_symbols in Hin.
    change (cps "$") with [36%N] in Hin.
    rewrite !elem_of_cons, elem_of_nil in Hin.
    destruct Hin as [-> | [-> | [-> | [-> | [-> | []]]]]];
      (rewrite Hno in Hc; [discriminate | unfold int_char; lia]).
Qed.

(** C8. A data point holds exactly one of its two values: a numerical cell
    its number and no text; a text cell its text and no number; a formula
    cell the raw formula as its text, again as its formula, and no number. *)
Theorem create_data_point_one_value (row_idx : Z) (col : pystr) (value : cell F) :
  let dp := _create_data_point row_idx col value in
  row_index dp = row_idx /\ column_name dp = col
  /\ ((dp_type dp ∈ [number; percentage; currency; decimal]
       /\ is_Some (numerical_value dp) /\ text_value dp = None /\ dp_formula dp = None)
      \/ (dp_type dp = text
          /\ text_value dp = Some (strip (py_str value))
          /\ numerical_value dp = None /\ dp_formula dp = None)
      \/ (dp_type dp = formula
          /\ startswith (cps "=") (strip (py_str value)) = true
          /\ text_value dp = Some (strip (py_str value))
          /\ dp_formula dp = Some (strip (py_str value))
          /\ numerical_value dp = None)).
Proof.
  intros dp. subst dp. unfold _create_data_point, _is_numerical.
  destruct (isna value); [|destruct (py_float value) eqn:Hf].
  1, 3: destruct (startswith (cps "=") (strip (py_str value))) eqn:Hs;
    dp_simpl; split_and!; try done; auto 10.
  dp_simpl. split_and!; try done. left. split_and!; try done.
  unfold _classify_numerical_type. rewrite !elem_of_cons.
  destruct (_ || _); [tauto |].
  destruct (existsb _ _); [tauto |].
  destruct (_ && _); tauto.
Qed.

(** C6, where the code departs from it. A string cell that holds a dollar
    sign and that [float()] rejects never reaches the currency branch: the
    cell is tagged text, or formula when it starts with an equals sign. *)
Theorem create_data_point_dollar_string (row_idx : Z) (col : pystr) (s : pystr) :
  contains (cps "$") s = true ->
  float_of_str s = None ->
  let dp := _create_data_point row_idx col (CStr s : cell F) in
  dp_type dp ∈ [text; formula]
  /\ text_value dp = Some (strip s) /\ numerical_value dp = None.
Proof.
  intros _ Hf dp. subst dp. unfold _create_data_point, _is_numerical.
  cbn [isna py_float py_str]. rewrite Hf.
  destruct (startswith (cps "=") (strip s));
    dp_simpl; rewrite !elem_of_cons; split_and!; auto.
Qed.

(** A cell is tagged currency only when the runtime's [float()] accepts a
    string that holds a currency symbol, or its [str()] of a float holds
    one. *)
Lemma create_data_point_currency_inv (row_idx : Z) (col : pystr) (value : cell F) :
  dp_type (_create_data_point row_idx col value) = currency ->
  (exists s, value = CStr s /\ is_Some (float_of_str s) /\ has_currency_symbol (strip s))
  \/ (exists x, value = CFloat x /\ has_currency_symbol (strip (str_of_float x))).
Proof.
  unfold _create_data_point.
  destruct (_is_numerical value) eqn:Hnum;
    [|destruct (startswith (cps "=") (strip (py_str value))); dp_simpl; discriminate].
  dp_simpl. intros Ht. apply classify_numerical_type_order in Ht as [_ Hcur].
  destruct value as [| b | n | x | s | shown]; cbn [py_str] in Hcur.
  - discriminate.
  - exfalso. destruct Hcur as (symbol & Hin & Hc). unfold currency_symbols in Hin.
    rewrite !elem_of_cons, elem_of_nil in Hin.
    destruct b, Hin as [-> | [-> | [-> | [-> | [-> | []]]]]]; discriminate.
  - exfalso. pose proof (create_data_point_integer row_idx col n) as (Hn & _).
    unfold _create_data_point in Hn. rewrite Hnum in Hn.
    cbv beta iota delta [dp_type] in Hn.
    cbn [py_str] in Hn. apply classify_numerical_type_order in Hn. tauto.
  - right. eauto.
  - left. exists s. split_and!; [done | | done].
    unfold _is_numerical in Hnum. cbn [isna py_float] in Hnum.
    by destruct (float_of_str s).
  - discriminate.
Qed.

(** One pass of the inner loop, by the tag of the data point: a text point
    joins the text list, a number, percentage or currency point the
    numerical list, and a formula or decimal point neither. *)
Lemma separate_cell_by_tag (df : DataFrame F) (row_idx : nat) (row : list (cell F))
    (text_data numerical_data : list (ExcelDataPoint F)) (col : pystr) :
  let value := row_get (columns df) row col in
  let dp := _create_data_point (Z.of_nat row_idx) col value in
  separate_cell df row_idx row (text_data, numerical_data) col
  = if negb (str_in_list col (columns df)) || isna value
    then (text_data, numerical_data)
    else match dp_type dp with
         | text => (text_data ++ [dp], numerical_data)
         | number | percentage | currency => (text_data, numerical_data ++ [dp])
         | formula | decimal => (text_data, numerical_data)
         end.
Proof.
  intros value dp. unfold separate_cell. fold value. fold dp.
  destruct (negb _); [done |]. destruct (isna value); [done |].
  cbn [orb]. by destruct (dp_type dp).
Qed.

(** C3, where the code departs from it. A float tagged decimal and a
    formula string are both non-null cells of the sheet, and
    [_separate_data_types] puts neither into either output list: the two
    lists are empty where the sheet has two cells. *)
Theorem separate_data_types_drops_decimal_and_formula (x : F) (s : pystr) :
  f_isnan x = false ->
  _classify_numerical_type (CFloat x) (strip (str_of_float x)) = decimal ->
  float_of_str s = None ->
  startswith (cps "=") (strip s) = true ->
  let df := {| columns := [cps "Total"]; rows := [[CFloat x]; [CStr s]] |} in
  _extract_headers df = [cps "Total"]
  /\ List.map isna (concat (rows df)) = [false; false]
  /\ dp_type (_create_data_point 0 (cps "Total") (CFloat x)) = decimal
  /\ dp_type (_create_data_point 1 (cps "Total") (CStr s)) = formula
  /\ _separate_data_types df (_extract_headers df) = ([], []).
Proof.
  intros Hnan Hdec Hf Hs df.
  assert (_extract_headers df = [cps "Total"]) as Hh by (by vm_compute).
  assert (dp_type (_create_data_point 0 (cps "Total") (CFloat x)) = decimal) as Hd1.
  { unfold _create_data_point, _is_numerical. cbn [isna py_float py_str].
    by rewrite Hnan. }
  assert (dp_type (_create_data_point 1 (cps "Total") (CStr s)) = formula) as Hd2.
  { unfold _create_data_point, _is_numerical. cbn [isna py_float py_str].
    by rewrite Hf, Hs. }
  split_and!; try done.
  - cbn [df rows concat List.map isna app]. by rewrite Hnan.
  - rewrite Hh. unfold _separate_data_types, df.
    assert (str_in_list (cps "Total") [cps "Total"] = true) as Hin by done.
    cbn [rows separate_rows foldl]. rewrite separate_cell_by_tag.
    cbn [columns row_get]. rewrite bool_decide_eq_true_2 by done.
    rewrite Hin. cbn [negb orb isna]. rewrite Hnan.
    change (Z.of_nat 0) with 0. rewrite Hd1.
    rewrite separate_cell_by_tag.
    cbn [columns row_get]. rewrite bool_decide_eq_true_2 by done.
    rewrite Hin. cbn [negb orb isna].
    change (Z.of_nat 1) with 1. by rewrite Hd2.
Qed.

End Extractor.

(** C5, as the code has it. The classifier decides in this order:
    percentage when the string holds a percent sign or the value is a float
    within [0, 1]; else currency when the string holds a currency symbol;
    else decimal when the value is a float and its string holds a point;
    else number. On binary64 the float 0.5 is tagged percentage and the
    float 1.5 is not: it is tagged decimal. *)
Theorem classify_numerical_type_spec :
  (forall (F : Type) (fops : FloatOps F) (value : ExcelProcessor.cell F)
          (str_value : pystr),
     let pct := contains (cps "%") str_value = true \/ float_in_unit_interval value in
     let cur := has_currency_symbol str_value in
     let dec := ExcelProcessor.isinstance_float value = true
                /\ contains (cps ".") str_value = true in
     let t := ExcelProcessor._classify_numerical_type value str_value in
     (t = ExcelProcessor.percentage <-> pct)
     /\ (t = ExcelProcessor.currency <-> ~ pct /\ cur)
     /\ (t = ExcelProcessor.decimal <-> ~ pct /\ ~ cur /\ dec)
     /\ (t = ExcelProcessor.number <-> ~ pct /\ ~ cur /\ ~ dec))
  /\ ExcelProcessor._classify_numerical_type
       (ExcelProcessor.CFloat 0.5%float) (cps "0.5") = ExcelProcessor.percentage
  /\ ExcelProcessor._classify_numerical_type
       (ExcelProcessor.CFloat 1.5%float) (cps "1.5") = ExcelProcessor.decimal.
Proof.
  split_and!; [|reflexivity..].
  intros F fops value str_value. apply classify_numerical_type_order.
Qed.

(** C5 as stated fails on integers: the integer 1 lies within [0, 1] and
    its string holds no percent sign, yet the classifier tags it number,
    and so does the extractor. *)
Lemma classify_integer_one_not_percentage :
  (0 <= 1 <= 1)%Z
  /\ contains (cps "%") (cps "1") = false
  /\ ExcelProcessor._classify_numerical_type
       (ExcelProcessor.CInt 1 : ExcelProcessor.cell float) (cps "1")
     = ExcelProcessor.number
  /\ ExcelProcessor.dp_type
       (ExcelProcessor._create_data_point (rt := sample_builtins) 0 (cps "Quota")
          (ExcelProcessor.CInt 1))
     = ExcelProcessor.number.
Proof. split_and!; [lia | reflexivity..]. Qed.

(** C10 on the integer 1. *)
Lemma classify_integer_in_unit_interval_is_number_witness :
  ExcelProcessor._classify_numerical_type
    (ExcelProcessor.CInt 1 : ExcelProcessor.cell float) (cps "1")
  = ExcelProcessor.number.
Proof.
  apply (classify_integer_in_unit_interval_is_number (F := float) 1 (cps "1")).
  - lia.
  - reflexivity.
  - intros Hc%has_currency_symbol_test. vm_compute in Hc. discriminate Hc.
Defined.

(** A numeric string is a number by [float()], and is not put to the
    [0, 1] test either: the string 0.5 is tagged number. *)
Example create_data_point_numeric_string :
  let dp := ExcelProcessor._create_data_point (rt := sample_builtins) 0 (cps "Rate")
              (ExcelProcessor.CStr (cps "0.5")) in
  ExcelProcessor.dp_type dp = ExcelProcessor.number
  /\ ExcelProcessor.numerical_value dp = Some 0.5%float.
Proof. split; reflexivity. Qed.

(** C6 on a dollar amount. *)
Lemma create_data_point_dollar_string_witness :
  let dp := ExcelProcessor._create_data_point (rt := sample_builtins) 3 (cps "Quota")
              (ExcelProcessor.CStr (cps "$1200.50")) in
  ExcelProcessor.dp_type dp ∈ [ExcelProcessor.text; ExcelProcessor.formula]
  /\ ExcelProcessor.text_value dp = Some (strip (cps "$1200.50"))
  /\ ExcelProcessor.numerical_value dp = None.
Proof.
  apply (create_data_point_dollar_string (rt := sample_builtins) 3 (cps "Quota")
           (cps "$1200.50")); reflexivity.
Defined.

(** The same cell, evaluated: a dollar amount read from a sheet is tagged
    text. *)
Example create_data_point_dollar_amount :
  ExcelProcessor.dp_type
    (ExcelProcessor._create_data_point (rt := sample_builtins) 3 (cps "Quota")
       (ExcelProcessor.CStr (cps "$1200.50")))
  = ExcelProcessor.text.
Proof. reflexivity. Qed.

(** C3 on a sheet that holds 1.125 and a formula. *)
Lemma separate_data_types_drops_decimal_and_formula_witness :
  let df := {| ExcelProcessor.columns := [cps "Total"];
               ExcelProcessor.rows := [[ExcelProcessor.CFloat 1.125%float];
                                       [ExcelProcessor.CStr (cps "=B2*C2")]] |} in
  ExcelProcessor._extract_headers (uc := ascii_case_only) df = [cps "Total"]
  /\ List.map ExcelProcessor.isna (concat (ExcelProcessor.rows df)) = [false; false]
  /\ ExcelProcessor.dp_type
       (ExcelProcessor._create_data_point (rt := sample_builtins) 0 (cps "Total")
          (ExcelProcessor.CFloat 1.125%float)) = ExcelProcessor.decimal
  /\ ExcelProcessor.dp_type
       (ExcelProcessor._create_data_point (rt := sample_builtins) 1 (cps "Total")
          (ExcelProcessor.CStr (cps "=B2*C2"))) = ExcelProcessor.formula
  /\ ExcelProcessor._separate_data_types (rt := sample_builtins) df
       (ExcelProcessor._extract_headers (uc := ascii_case_only) df) = ([], []).
Proof.
  apply (separate_data_types_drops_decimal_and_formula
           (rt := sample_builtins) (uc := ascii_case_only) 1.125%float (cps "=B2*C2"));
    reflexivity.
Defined.

(* ===================================================================== *)
(** * The embedding adapter *)
(* ===================================================================== *)

Section Fallback.
Import EmbeddingService.
Context {F : Type} {fops : FloatOps F} {provider : Provider F}.

Lemma zero_vector_shape : length (zero_vector (F := F)) = 768%nat
                          /\ Forall (fun x => x = f_zero) (zero_vector (F := F)).
Proof.
  unfold zero_vector. split; [apply repeat_length |].
  apply Forall_forall. intros x Hx%list_elem_of_In. by apply repeat_spec in Hx.
Qed.

(** C7, as the code has it. When the provider's call fails with an
    exception, neither embed operation raises: each returns the vector of
    768 zeros and prints the error. What is returned is that vector alone,
    with no status beside it. *)
Theorem create_embedding_falls_back (model text : pystr) (e : exn) (w : world) :
  (forall task_type, embed_content model text task_type = Raise e) ->
  is_Exception e = true ->
  _create_embedding model text w
  = (Return zero_vector,
     {| stdout := stdout w ++ [cps "Error creating embedding for text '" ++ take 50 text
                                 ++ cps "...': " ++ exn_str e];
        executed := executed w; history := history w |})
  /\ create_query_embedding model text w
     = (Return zero_vector,
        {| stdout := stdout w ++ [cps "Error creating query embedding: " ++ exn_str e];
           executed := executed w; history := history w |})
  /\ length (zero_vector (F := F)) = 768%nat
  /\ Forall (fun x => x = f_zero) (zero_vector (F := F)).
Proof.
  intros Hfail He. split_and!; try apply zero_vector_shape.
  - unfold _create_embedding, try_except, lift. by rewrite Hfail, He.
  - unfold create_query_embedding, try_except, lift. by rewrite Hfail, He.
Qed.

End Fallback.

(** C7 on a provider that is down. *)
Lemma create_embedding_falls_back_witness :
  EmbeddingService._create_embedding (provider := failing_provider)
    (cps "models/text-embedding-004") (cps "Column: Region | Value: North") world0
  = (Return (EmbeddingService.zero_vector (F := float)),
     {| stdout := [cps "Error creating embedding for text 'Column: Region | Value: North...': 503 service unavailable"];
        executed := []; history := [] |})
  /\ EmbeddingService.create_query_embedding (provider := failing_provider)
       (cps "models/text-embedding-004") (cps "Column: Region | Value: North") world0
     = (Return (EmbeddingService.zero_vector (F := float)),
        {| stdout := [cps "Error creating query embedding: 503 service unavailable"];
           executed := []; history := [] |})
  /\ length (EmbeddingService.zero_vector (F := float)) = 768%nat
  /\ Forall (fun x => x = 0%float) (EmbeddingService.zero_vector (F := float)).
Proof.
  exact (create_embedding_falls_back (provider := failing_provider)
           (cps "models/text-embedding-004") (cps "Column: Region | Value: North")
           (ProviderError (cps "503 service unavailable")) world0
           (fun task_type => eq_refl) eq_refl).
Defined.

(** C7 as stated fails: the caller is handed no status. Whatever the caller
    computes from the returned value, it cannot tell a failed call from an
    answered one, since a provider that fails and a provider that answers
    768 zeros make the operation return the same value. *)
Lemma create_embedding_returns_no_status :
  ~ exists failed : outcome (list float) -> bool,
      forall (provider : EmbeddingService.Provider float) (model text : pystr),
        failed (EmbeddingService._create_embedding model text world0).1
        = match EmbeddingService.embed_content model text (cps "retrieval_document") with
          | Raise _ => true
          | Return _ => false
          end.
Proof.
  intros [failed Hfailed].
  pose proof (Hfailed failing_provider [] []) as Hf.
  pose proof (Hfailed zeros_provider [] []) as Hz.
  change (failed (Return (repeat 0%float 768)) = true) in Hf.
  change (failed (Return (repeat 0%float 768)) = false) in Hz.
  congruence.
Qed.

(* ===================================================================== *)
(** * Post-processing of SQL rows *)
(* ===================================================================== *)

Section PostProcess.
Import SearchService.
Context {F : Type} {fmt : Formatting F} {uc : Unicode}.

Lemma annotated_insert (result : dict F) (shown : pystr) :
  (forall key, key <> cps "formatted_value" ->
     <[cps "formatted_value" := VStr shown]> result !! key = result !! key)
  /\ <[cps "formatted_value" := VStr shown]> result !! cps "numerical_value"
     = result !! cps "numerical_value".
Proof.
  split; [intros key Hkey | ]; by rewrite lookup_insert_ne.
Qed.

Lemma post_process_row_annotated (result : dict F) (w : world) :
  name_is_str result ->
  exists result', post_process_row result w = (Return result', w)
                  /\ annotated result result'.
Proof.
  intros Hstr. unfold post_process_row, name_is_str, dict_get in *.
  destruct (result !! cps "numerical_value") as [nv|] eqn:Hnv;
    [destruct (result !! cps "column_name") as [v|] eqn:Hcn |].
  2, 3: exists result; split; [done |]; split_and!; auto; intros; congruence.
  destruct (Hstr nv v eq_refl eq_refl) as [name ->].
  unfold default. cbn [from_option id val_lower val_contains].
  unfold mbind, M_bind, mret, M_ret.
  pose proof (annotated_insert result) as Hins.
  destruct (contains (cps "performance") (lower name)
            || contains (cps "%") name) eqn:Hp.
  - apply orb_true_iff in Hp.
    destruct (isinstance_number nv) eqn:Hnum.
    + eexists. split; [done |]. split_and!; try apply Hins; [eauto |].
      intros nv' name' Hnv' Hcn' _. rewrite Hnv in Hnv'. rewrite Hcn in Hcn'.
      injection Hnv' as <-. injection Hcn' as <-. unfold suggests_percentage.
      split_and!; [|tauto..]. intros _. by rewrite lookup_insert_eq.
    + exists result. split; [done |]. split_and!; auto. intros; congruence.
  - apply orb_false_iff in Hp as [Hp1 Hp2].
    assert (~ suggests_percentage name) as Hnp
      by (unfold suggests_percentage; intros [? | ?]; congruence).
    destruct (contains (cps "sales") (lower name)
              || contains (cps "quota") (lower name)) eqn:Hc.
    + apply orb_true_iff in Hc.
      destruct (isinstance_number nv) eqn:Hnum.
      * eexists. split; [done |]. split_and!; try apply Hins; [eauto |].
        intros nv' name' Hnv' Hcn' _. rewrite Hnv in Hnv'. rewrite Hcn in Hcn'.
      injection Hnv' as <-. injection Hcn' as <-. unfold suggests_currency.
        split_and!; [tauto | | tauto]. intros _ _. by rewrite lookup_insert_eq.
      * exists result. split; [done |]. split_and!; auto. intros; congruence.
    + apply orb_false_iff in Hc as [Hc1 Hc2].
      exists result. split; [done |]. split_and!; auto.
      intros nv' name' Hnv' Hcn' _. rewrite Hnv in Hnv'. rewrite Hcn in Hcn'.
      injection Hnv' as <-. injection Hcn' as <-. unfold suggests_currency.
      split_and!; [tauto | | done]. intros _ [? | ?]; congruence.
Qed.

Lemma mapM_post_process_row (results : list (dict F)) (w : world) :
  Forall name_is_str results ->
  exists results', mapM post_process_row results w = (Return results', w)
                   /\ Forall2 annotated results results'.
Proof.
  induction 1 as [|r rs Hr _ (rs' & Hrun & Hrs)]; [by exists [] |].
  destruct (post_process_row_annotated r w Hr) as (r' & Hrow & Hann).
  exists (r' :: rs'). split; [|by constructor].
  cbn [mapM]. rewrite (bind_return _ _ _ _ _ Hrow).
  by rewrite (bind_return _ _ _ _ _ Hrun).
Qed.

(** C9. Post-processing returns one row for each row it was given, in the
    same order; in each it sets at most the display field
    [formatted_value]: to the percentage string when the column name
    suggests a percentage, else to the currency string when the name
    suggests sales or a quota, for a value that is a number. The
    [numerical_value] field and every other field keep their values, and
    nothing is printed or executed. *)
Theorem post_process_sql_results_frame
    (results : list (dict F)) (original_query : pystr) (w : world) :
  Forall name_is_str results ->
  exists results',
    _post_process_sql_results results original_query w = (Return results', w)
    /\ Forall2 annotated results results'.
Proof.
  intros Hstr. unfold _post_process_sql_results.
  destruct results as [|r rs]; [by exists [] |].
  by apply mapM_post_process_row.
Qed.

(** A row with both keys whose column name is not a string stops
    post-processing with [AttributeError]: no rows are returned. *)
Lemma post_process_row_raises (result : dict F) (nv v : pyval F) (w : world) :
  result !! cps "numerical_value" = Some nv ->
  result !! cps "column_name" = Some v ->
  (forall name, v <> VStr name) ->
  post_process_row result w
  = (Raise (AttributeError (cps "object has no attribute 'lower'")), w).
Proof.
  intros Hnv Hcn Hv. unfold post_process_row, dict_get. rewrite Hnv, Hcn.
  unfold default. cbn [from_option id]. destruct v; try done. by destruct (Hv s).
Qed.

End PostProcess.

(** C9 on the two sample rows. *)
Lemma post_process_sql_results_frame_witness :
  exists results',
    SearchService._post_process_sql_results (fmt := sample_formatting)
      (uc := ascii_case_only) sample_rows (cps "who did the best sales?") world0
    = (Return results', world0)
    /\ Forall2 (annotated (fmt := sample_formatting) (uc := ascii_case_only))
         sample_rows results'.
Proof.
  apply (post_process_sql_results_frame (fmt := sample_formatting)
           (uc := ascii_case_only) sample_rows (cps "who did the best sales?") world0).
  repeat constructor; intros nv v _ Hcn; vm_compute in Hcn;
    injection Hcn as <-; eauto.
Defined.

(** The two rows, evaluated: each gains its display string and keeps its
    number. *)
Example post_process_sample_rows :
  match (SearchService._post_process_sql_results (fmt := sample_formatting)
           (uc := ascii_case_only) sample_rows (cps "who did the best sales?") world0).1 with
  | Return [r1; r2] =>
      r1 !! cps "formatted_value" = Some (SearchService.VStr (cps "75.00%"))
      /\ r1 !! cps "numerical_value" = Some (SearchService.VFloat 0.75%float)
      /\ r2 !! cps "formatted_value" = Some (SearchService.VStr (cps "$135,000.00"))
      /\ r2 !! cps "numerical_value" = Some (SearchService.VInt 135000)
  | _ => False
  end.
Proof. vm_compute. split_and!; reflexivity. Qed.

(* ===================================================================== *)
(** * Semantic search *)
(* ===================================================================== *)

Lemma bind_return_inv {A B} (m : M A) (k : A -> M B) (b : B) (w w' : world) :
  (m ≫= k) w = (Return b, w') ->
  exists a w1, m w = (Return a, w1) /\ k a w1 = (Return b, w').
Proof.
  unfold mbind, M_bind. destruct (m w) as [[a | e] w1]; [eauto | discriminate].
Qed.

Lemma sublist_Forall {A} (P : A -> Prop) (l1 l2 : list A) :
  l1 `sublist_of` l2 -> Forall P l2 -> Forall P l1.
Proof.
  induction 1 as [|x l1 l2 _ IH|x l1 l2 _ IH]; [done | |];
    intros [Hx Hl]%Forall_cons; auto.
Qed.

Lemma sublist_fmap_mono {A B} (f : A -> B) (l1 l2 : list A) :
  l1 `sublist_of` l2 -> f <$> l1 `sublist_of` f <$> l2.
Proof. induction 1; simpl; by constructor. Qed.

Lemma StronglySorted_sublist {A} (R : relation A) (l1 l2 : list A) :
  l1 `sublist_of` l2 -> StronglySorted R l2 -> StronglySorted R l1.
Proof.
  induction 1 as [|x l1 l2 Hsub IH|x l1 l2 Hsub IH]; [done | |];
    intros [Hx Hl]%StronglySorted_cons; [|auto].
  apply StronglySorted_cons. split; [by apply (sublist_Forall _ l1 l2) | auto].
Qed.

Lemma StronglySorted_fmap_mono {A B} (R : relation A) (R' : relation B)
    (f : A -> B) (l : list A) :
  (forall x y, R x y -> R' (f x) (f y)) ->
  StronglySorted R l -> StronglySorted R' (f <$> l).
Proof.
  intros Hf. induction 1 as [|x l _ IH Hx]; simpl; constructor; [done |].
  apply Forall_fmap. eapply Forall_impl; [exact Hx |]. intros y. apply Hf.
Qed.

Lemma zip_snd_sublist {A B} (l : list A) (k : list B) : (zip l k).*2 `sublist_of` k.
Proof.
  revert k. induction l as [|x l IH]; intros [|y k]; simpl;
    [done | apply sublist_nil_l | done | by constructor].
Qed.

Section Ranking.
Import SearchService.
Context {F : Type} {fops : FloatOps F} {fmt : Formatting F} {uc : Unicode}
        {provider : EmbeddingService.Provider F}.

Lemma try_except_returns {A} (body : M A) (handler : exn -> M A) (w : world) :
  (forall e w1, body w = (Raise e, w1) ->
     is_Exception e = true /\ exists a w2, handler e w1 = (Return a, w2)) ->
  exists a w', try_except body handler w = (Return a, w').
Proof.
  intros Hraise. unfold try_except.
  destruct (body w) as [[a | e] w1] eqn:Hbody; [eauto |].
  destruct (Hraise e w1 eq_refl) as (-> & a & w2 & ->). eauto.
Qed.

Lemma create_query_embedding_returns (model q : pystr) (w : world) :
  (forall task_type, catchable (EmbeddingService.embed_content model q task_type)) ->
  exists emb w', EmbeddingService.create_query_embedding model q w = (Return emb, w').
Proof.
  intros Hc. apply try_except_returns. intros e w1 Hrun.
  unfold lift in Hrun. injection Hrun as Hrun _.
  split; [exact (Hc _ e Hrun) | by eexists _, _].
Qed.

Lemma enhance_metadata_returns (self : SearchService F) (md : dict F) (w : world) :
  (forall session, db self = Some session ->
     forall file_id row_index, catchable (select_numerical session file_id row_index)) ->
  exists md' w', _enhance_metadata_with_sql_context self md w = (Return md', w').
Proof.
  intros Hc. unfold _enhance_metadata_with_sql_context.
  destruct (db self) as [session|] eqn:Hdb; [|by eexists _, _].
  apply try_except_returns. intros e w1 Hrun.
  unfold mbind, M_bind, lift in Hrun.
  destruct (select_numerical session _ _) as [rows | e'] eqn:Hsel; [discriminate |].
  injection Hrun as <- <-.
  split; [exact (Hc session eq_refl _ _ e' Hsel) | by eexists _, _].
Qed.

Lemma log_search_history_returns (self : SearchService F) (q kind : pystr) (n : nat)
    (w : world) :
  (forall session, db self = Some session -> catchable (commit session)) ->
  exists w', _log_search_history self q kind n w = (Return tt, w').
Proof.
  intros Hc. unfold _log_search_history.
  destruct (db self) as [session|] eqn:Hdb; [|by eexists].
  destruct (try_except_returns (db_add_commit session (q, kind, n))
              (fun e => print (cps "Error logging search history: " ++ exn_str e)) w)
    as ([] & w' & Hrun); [|eauto].
  intros e w1 Hrun. unfold db_add_commit in Hrun.
  destruct (commit session) as [[] | e'] eqn:Hcommit; [discriminate |].
  injection Hrun as <- <-.
  split; [exact (Hc session eq_refl e' Hcommit) | by eexists _, _].
Qed.

(** What a returning run of the loop has collected. *)
Lemma search_loop_returns (self : SearchService F) (limit : Z) (threshold : F)
    (ns : list (pystr * dict F * F)) (acc res : list (SearchResult F)) (w w' : world) :
  search_loop self limit threshold ns acc w = (Return res, w') ->
  exists picked,
    res = acc ++ picked
    /\ score <$> picked `sublist_of` (fun n => f_sub f_one n.2) <$> ns
    /\ Forall (fun r => f_ltb (score r) threshold = false) picked
    /\ Z.of_nat (length res) <= Z.max limit (Z.of_nat (length acc) + 1).
Proof.
  revert acc w. induction ns as [|[[doc md] d] ns IH]; intros acc w Hrun.
  - injection Hrun as <- <-. exists []. rewrite app_nil_r. split_and!; [done..|lia].
  - cbn [search_loop] in Hrun.
    destruct (f_ltb (f_sub f_one d) threshold) eqn:Hlt.
    + destruct (IH _ _ Hrun) as (picked & -> & Hsub & Hall & Hlen).
      exists picked. split_and!; [done | by constructor | done..].
    + apply bind_return_inv in Hrun as (md' & w1 & _ & Hrun).
      match type of Hrun with
      | context [acc ++ [?r]] => set (result := r) in *
      end.
      destruct (Z.of_nat (length (acc ++ [result])) >=? limit) eqn:Hfull.
      * injection Hrun as <- <-. exists [result].
        split_and!; [done | | by repeat constructor |].
        { rewrite !fmap_cons. apply sublist_skip, sublist_nil_l. }
        rewrite length_app. simpl. lia.
      * destruct (IH _ _ Hrun) as (picked & -> & Hsub & Hall & Hlen).
        exists (result :: picked).
        split_and!; [by rewrite <- app_assoc | | by constructor |].
        { rewrite !fmap_cons. by apply sublist_skip. }
        rewrite Z.geb_leb in Hfull. apply Z.leb_gt in Hfull.
        pose proof (length_app acc [result]) as Hone.
        pose proof (length_app (acc ++ [result]) picked) as Hmore.
        simpl in Hone. lia.
Qed.

Lemma search_loop_total (self : SearchService F) (limit : Z) (threshold : F)
    (ns : list (pystr * dict F * F)) (acc : list (SearchResult F)) (w : world) :
  (forall session, db self = Some session ->
     forall file_id row_index, catchable (select_numerical session file_id row_index)) ->
  exists res w', search_loop self limit threshold ns acc w = (Return res, w').
Proof.
  intros Hc. revert acc w.
  induction ns as [|[[doc md] d] ns IH]; intros acc w; [by eexists _, _ |].
  cbn [search_loop]. destruct (f_ltb _ _); [apply IH |].
  destruct (enhance_metadata_returns self md w Hc) as (md' & w1 & Hmd).
  rewrite (bind_return _ _ _ _ _ Hmd).
  destruct (_ >=? _); [by eexists _, _ | apply IH].
Qed.

Lemma search_loop_all_below (self : SearchService F) (limit : Z) (threshold : F)
    (ns : list (pystr * dict F * F)) (acc : list (SearchResult F)) (w : world) :
  Forall (fun n => below threshold n.2) ns ->
  search_loop self limit threshold ns acc w = (Return acc, w).
Proof.
  induction 1 as [|[[doc md] d] ns Hd _ IH]; [done |].
  cbn [search_loop]. unfold below in Hd. simpl in Hd. by rewrite Hd.
Qed.

Lemma scores_descending {laws : FloatLaws F} (ds : list F) :
  Sorted f_le ds -> StronglySorted (fun a b => f_le b a) (f_sub f_one <$> ds).
Proof.
  intros Hs. apply (StronglySorted_fmap_mono f_le).
  - intros x y. apply f_sub_antitone.
  - apply Sorted.Sorted_StronglySorted; [|done]. intros x y z. apply f_leb_trans.
Qed.

(** What a returning run of [semantic_search] has found. *)
Lemma semantic_search_returns (self : SearchService F) (q : pystr) (limit : Z)
    (threshold : F) (resp : SearchResponse F) (w w' : world) :
  semantic_search self q limit threshold w = (Return resp, w') ->
  exists emb qr,
    vector_db self emb (limit * 2) = Return qr
    /\ score <$> results resp `sublist_of` f_sub f_one <$> first_distances qr
    /\ Forall (fun r => f_ltb (score r) threshold = false) (results resp)
    /\ Z.of_nat (length (results resp)) <= Z.max limit 1
    /\ total_results resp = length (results resp).
Proof.
  unfold semantic_search. intros Hrun.
  apply bind_return_inv in Hrun as (emb & w1 & _ & Hrun).
  apply bind_return_inv in Hrun as (qr & w2 & Hq & Hrun).
  apply bind_return_inv in Hrun as (res & w3 & Hres & Hrun).
  apply bind_return_inv in Hrun as ([] & w4 & _ & Hrun).
  injection Hrun as <- <-. cbn [results total_results].
  unfold lift in Hq. injection Hq as Hq _.
  exists emb, qr. split; [done |].
  destruct (documents qr) as [|docs ?].
  - injection Hres as <- _. split_and!; [apply sublist_nil_l | done | simpl; lia | done].
  - apply bind_return_inv in Hres as (metas & ? & _ & Hres).
    apply bind_return_inv in Hres as (dists & ? & Hd & Hres).
    assert (first_distances qr = dists) as ->.
    { unfold first_distances. destruct (distances qr); [discriminate |].
      by injection Hd as -> _. }
    apply search_loop_returns in Hres as (picked & -> & Hsub & Hall & Hlen).
    cbn [app]. split_and!; [|done | simpl in Hlen; lia | done].
    etrans; [exact Hsub |].
    assert (forall ns : list (pystr * dict F * F),
              (fun n => f_sub f_one n.2) <$> ns = f_sub f_one <$> ns.*2) as ->
      by (intros ns; by rewrite <- list_fmap_compose).
    apply sublist_fmap_mono, zip_snd_sublist.
Qed.


End Ranking.

(** Exact rational arithmetic has the order laws. *)
Lemma rational_laws : FloatLaws Q.
Proof.
  split; simpl.
  - intros x y z Hxy%Qle_bool_iff Hyz%Qle_bool_iff.
    apply Qle_bool_iff. by apply Qle_trans with y.
  - intros x y Hxy%Qle_bool_iff. apply Qle_bool_iff.
    unfold Qminus. apply Qplus_le_compat; [apply Qle_refl | by apply Qopp_le_compat].
Qed.


(** The same run, evaluated: of the four neighbours the two nearest are
    returned, with similarities 9/10 and 7/10. *)
Example semantic_search_rational_run :
  match (SearchService.semantic_search (fmt := rational_formatting)
           (uc := ascii_case_only) (provider := rational_provider)
           rational_service (cps "best sales") 2 (1 # 2)%Q world0).1 with
  | Return resp =>
      List.map (fun r => Qred (SearchService.score r)) (SearchService.results resp)
      = [(9 # 10)%Q; (7 # 10)%Q]
      /\ SearchService.total_results resp = 2%nat
  | Raise _ => False
  end.
Proof. vm_compute. split; reflexivity. Qed.


(** Rounding does the same to distinct distances: 2^-60 and 2^-59 are in
    strictly ascending order, and both similarities round to 1. *)
Example similarity_rounds_to_one :
  PrimFloat.ltb 0x1p-60 0x1p-59 = true
  /\ f_sub (F := float) f_one 0x1p-60%float = 1%float
  /\ f_sub (F := float) f_one 0x1p-59%float = 1%float.
Proof. split_and!; reflexivity. Qed.

(* ===================================================================== *)
(** * More on strings: stripping, suffixes, replacing *)
(* ===================================================================== *)

Lemma lstrip_lstrip (s : pystr) : lstrip (lstrip s) = lstrip s.
Proof.
  induction s as [|c s IH]; [done |]. simpl.
  destruct (isspace c) eqn:Hc; [done |]. simpl. by rewrite Hc.
Qed.

Lemma lstrip_nonspace (c : N) (s : pystr) :
  isspace c = false -> lstrip (c :: s) = c :: s.
Proof. intros Hc. simpl. by rewrite Hc. Qed.

Lemma lstrip_cases (s : pystr) :
  lstrip s = [] \/ exists c t, lstrip s = c :: t /\ isspace c = false.
Proof.
  induction s as [|c s IH]; [by left |]. simpl.
  destruct (isspace c) eqn:Hc; [done | right; eauto].
Qed.

Lemma lstrip_snoc_nonspace (l : pystr) (c : N) :
  isspace c = false -> lstrip (l ++ [c]) = lstrip l ++ [c].
Proof.
  intros Hc. induction l as [|a l IH]; simpl; [by rewrite Hc |].
  by destruct (isspace a).
Qed.

Lemma strip_cons_nonspace (c : N) (s : pystr) :
  isspace c = false -> strip (c :: s) = c :: rev (lstrip (rev s)).
Proof.
  intros Hc. unfold strip. rewrite lstrip_nonspace by done. simpl.
  rewrite lstrip_snoc_nonspace by done. by rewrite rev_app_distr.
Qed.

(** Stripping a stripped string changes nothing. *)
Lemma strip_idemp (s : pystr) : strip (strip s) = strip s.
Proof.
  destruct (lstrip_cases s) as [Hs | (c & t & Hs & Hc)].
  - assert (strip s = []) as -> by (unfold strip; by rewrite Hs). done.
  - assert (strip s = c :: rev (lstrip (rev t))) as ->.
    { unfold strip. rewrite Hs. simpl.
      by rewrite lstrip_snoc_nonspace, rev_app_distr by done. }
    rewrite strip_cons_nonspace by done. f_equal.
    by rewrite rev_involutive, lstrip_lstrip.
Qed.

Lemma startswith_refl (s : pystr) : startswith s s = true.
Proof. apply startswith_spec. exists []. by rewrite app_nil_r. Qed.

Lemma endswith_spec (suffix s : pystr) :
  ExcelProcessor.endswith suffix s = true <-> exists t, s = t ++ suffix.
Proof.
  unfold ExcelProcessor.endswith. rewrite startswith_spec. split.
  - intros [t Ht]. exists (rev t).
    by rewrite <- (rev_involutive s), Ht, rev_app_distr, rev_involutive.
  - intros [t ->]. exists (rev t). by rewrite rev_app_distr.
Qed.

(* ===================================================================== *)
(** * The extractor: headers and the two output lists *)
(* ===================================================================== *)

Section Headers.
Import ExcelProcessor.
Context {F : Type} {fops : FloatOps F} {rt : Builtins F} {uc : Unicode}.

Lemma str_in_list_spec (s : pystr) (l : list pystr) :
  str_in_list s l = true <-> s ∈ l.
Proof.
  unfold str_in_list. rewrite existsb_exists. split.
  - intros (x & Hx%list_elem_of_In & Heq%bool_decide_eq_true). by subst.
  - intros Hs. exists s. split; [by apply list_elem_of_In | by apply bool_decide_eq_true].
Qed.

Lemma extract_headers_fold (cols acc : list pystr) :
  foldl (fun headers col =>
           let header := strip col in
           if negb (str_in_list (lower header) [cps "unnamed"; cps "index"])
           then headers ++ [header] else headers) acc cols
  = acc ++ List.filter (fun h => negb (str_in_list (lower h) [cps "unnamed"; cps "index"]))
             (List.map strip cols).
Proof.
  revert acc. induction cols as [|c cols IH]; intros acc; simpl; [by rewrite app_nil_r |].
  rewrite IH. destruct (negb _); [by rewrite <- app_assoc | done].
Qed.

(** X1. The headers are the stripped column labels, in column order, less
    those that read unnamed or index in any letter case: so every header
    is free of surrounding whitespace, none is a placeholder, and there
    are no more headers than columns. *)
Theorem extract_headers_spec (df : DataFrame F) :
  _extract_headers df
  = List.filter (fun h => negb (str_in_list (lower h) [cps "unnamed"; cps "index"]))
      (List.map strip (columns df))
  /\ Forall (fun h => strip h = h /\ lower h <> cps "unnamed" /\ lower h <> cps "index"
                      /\ exists col, col ∈ columns df /\ h = strip col)
       (_extract_headers df)
  /\ (length (_extract_headers df) <= length (columns df))%nat.
Proof.
  assert (_extract_headers df
          = List.filter (fun h => negb (str_in_list (lower h) [cps "unnamed"; cps "index"]))
              (List.map strip (columns df))) as Heq.
  { unfold _extract_headers. by rewrite extract_headers_fold. }
  split_and!; [done | |].
  - rewrite Heq. apply Forall_forall. intros h Hh%list_elem_of_In.
    apply filter_In in Hh as [Hin Hkeep].
    apply in_map_iff in Hin as (col & <- & Hcol%list_elem_of_In).
    apply negb_true_iff in Hkeep.
    assert (~ lower (strip col) ∈ [cps "unnamed"; cps "index"]) as Hnot.
    { intros Hin%str_in_list_spec. congruence. }
    rewrite !elem_of_cons in Hnot.
    split_and!; [apply strip_idemp | tauto | tauto | eauto].
  - rewrite Heq. etrans; [apply filter_length_le |]. by rewrite length_map.
Qed.

End Headers.

Section Separation.
Import ExcelProcessor.
Context {F : Type} {fops : FloatOps F} {rt : Builtins F} {uc : Unicode}.

(** The loops only append: one pass adds what it would add to empty lists. *)
Lemma separate_cell_app (df : DataFrame F) (i : nat) (row : list (cell F))
    (t n : list (ExcelDataPoint F)) (col : pystr) :
  separate_cell df i row (t, n) col
  = (t ++ (separate_cell df i row ([], []) col).1,
     n ++ (separate_cell df i row ([], []) col).2).
Proof.
  rewrite !separate_cell_by_tag.
  destruct (negb _ || isna _); simpl; [by rewrite !app_nil_r |].
  destruct (dp_type _); simpl; by rewrite ?app_nil_r.
Qed.

Lemma separate_headers_app (df : DataFrame F) (i : nat) (row : list (cell F))
    (hs : list pystr) (t n : list (ExcelDataPoint F)) :
  foldl (separate_cell df i row) (t, n) hs
  = (t ++ List.flat_map (fun col => (separate_cell df i row ([], []) col).1) hs,
     n ++ List.flat_map (fun col => (separate_cell df i row ([], []) col).2) hs).
Proof.
  revert t n. induction hs as [|col hs IH]; intros t n; cbn [foldl List.flat_map];
    [by rewrite !app_nil_r |].
  by rewrite separate_cell_app, IH, <- !app_assoc.
Qed.

Lemma separate_rows_app (df : DataFrame F) (headers : list pystr) (k : nat)
    (rs : list (list (cell F))) (t n : list (ExcelDataPoint F)) :
  separate_rows df headers k rs (t, n)
  = (t ++ concat (imap (fun j row =>
                          List.flat_map
                            (fun col => (separate_cell df (k + j) row ([], []) col).1)
                            headers) rs),
     n ++ concat (imap (fun j row =>
                          List.flat_map
                            (fun col => (separate_cell df (k + j) row ([], []) col).2)
                            headers) rs)).
Proof.
  revert k t n. induction rs as [|row rs IH]; intros k t n;
    cbn [separate_rows imap concat]; [by rewrite !app_nil_r |].
  rewrite separate_headers_app, IH, <- !app_assoc, Nat.add_0_r.
  do 2 f_equal; do 2 f_equal; apply imap_ext; intros j r _; cbn [compose];
    by rewrite Nat.add_succ_comm.
Qed.

(** What one cell contributes: nothing, or its data point to one list. *)
Lemma separate_cell_single (df : DataFrame F) (i : nat) (row : list (cell F))
    (col : pystr) :
  let dp := _create_data_point (Z.of_nat i) col (row_get (columns df) row col) in
  let out := separate_cell df i row ([], []) col in
  (length out.1 + length out.2 <= 1)%nat
  /\ (forall p, p ∈ out.1 ->
        p = dp /\ dp_type dp = text /\ col ∈ columns df
        /\ isna (row_get (columns df) row col) = false)
  /\ (forall p, p ∈ out.2 ->
        p = dp /\ dp_type dp ∈ [number; percentage; currency] /\ col ∈ columns df
        /\ isna (row_get (columns df) row col) = false).
Proof.
  intros dp out. subst out. rewrite separate_cell_by_tag. fold dp.
  destruct (str_in_list col (columns df)) eqn:Hcol; simpl;
    [|split_and!; [lia | by intros p Hp%elem_of_nil..]].
  apply str_in_list_spec in Hcol.
  destruct (isna _) eqn:Hna; simpl;
    [split_and!; [lia | by intros p Hp%elem_of_nil..] |].
  destruct (dp_type dp) eqn:Ht; simpl; split_and!; try lia;
    intros p Hp; try (by apply elem_of_nil in Hp);
    apply list_elem_of_singleton in Hp as ->;
    split_and!; try done; rewrite !elem_of_cons; auto.
Qed.

Lemma create_data_point_fields (row_idx : Z) (col : pystr) (value : cell F) :
  let dp := _create_data_point row_idx col value in
  row_index dp = row_idx /\ column_name dp = col
  /\ (dp_type dp = text -> is_Some (text_value dp) /\ numerical_value dp = None)
  /\ (dp_type dp ∈ [number; percentage; currency] ->
        is_Some (numerical_value dp) /\ text_value dp = None).
Proof.
  intros dp. subst dp. unfold _create_data_point, _is_numerical.
  destruct (isna value); [|destruct (py_float value) eqn:Hf].
  1, 3: destruct (startswith (cps "=") (strip (py_str value)));
    cbv beta iota delta [row_index column_name text_value numerical_value dp_type];
    split_and!; try done; eauto;
    rewrite !elem_of_cons, elem_of_nil; intros; intuition discriminate.
  cbv beta iota delta [row_index column_name text_value numerical_value dp_type].
  split_and!; try done; try (by eauto).
  intros Ht. exfalso. revert Ht. unfold _classify_numerical_type.
  destruct (_ || _); [done |]. destruct (existsb _ _); [done |].
  by destruct (_ && _).
Qed.


Lemma concat_imap_sorted {A} (key : A -> Z) (g : nat -> list (cell F) -> list A)
    (base : nat) (l : list (list (cell F))) :
  (forall j row x, x ∈ g j row -> key x = Z.of_nat (base + j)) ->
  StronglySorted (fun a b => key a <= key b) (concat (imap g l)).
Proof.
  revert g base. induction l as [|row l IH]; intros g base Hg; simpl; [constructor |].
  apply StronglySorted_app. split_and!.
  - intros a b Ha Hb%list_elem_of_In.
    apply in_concat in Hb as (lb & Hlb%list_elem_of_In & Hb%list_elem_of_In).
    apply elem_of_lookup_imap in Hlb as (j & r & -> & _).
    rewrite (Hg _ _ _ Ha), (Hg _ _ _ Hb). lia.
  - assert (Forall (fun x => key x = Z.of_nat (base + 0)) (g 0%nat row)) as Hall
      by (apply Forall_forall; intros x Hx; eauto).
    clear -Hall. induction Hall as [|x xs Hx Hxs IHxs]; constructor; [done |].
    eapply Forall_impl; [exact Hxs |]. intros y Hy. simpl in Hy. lia.
  - apply (IH (g ∘ S) (S base)). intros j r x Hx. rewrite (Hg _ _ _ Hx). lia.
Qed.

Lemma concat_imap_length {A} (g1 g2 : nat -> list (cell F) -> list A) (m : nat)
    (l : list (list (cell F))) :
  (forall j row, (length (g1 j row) + length (g2 j row) <= m)%nat) ->
  (length (concat (imap g1 l)) + length (concat (imap g2 l)) <= length l * m)%nat.
Proof.
  revert g1 g2. induction l as [|row l IH]; intros g1 g2 Hg; simpl; [lia |].
  rewrite !length_app.
  specialize (IH (g1 ∘ S) (g2 ∘ S) (fun j r => Hg (S j) r)).
  specialize (Hg 0%nat row). lia.
Qed.


End Separation.

Section Cells.
Import ExcelProcessor.
Context {F : Type} {fops : FloatOps F} {rt : Builtins F} {uc : Unicode}.

(** Where the points of both lists come from. *)
Lemma separate_points_bounds (df : DataFrame F) (headers : list pystr) :
  Forall (fun dp => column_name dp ∈ headers
                    /\ 0 <= row_index dp < Z.of_nat (length (rows df)))
    ((_separate_data_types df headers).1 ++ (_separate_data_types df headers).2).
Proof.
  unfold _separate_data_types. rewrite separate_rows_app. cbn [fst snd app].
  apply Forall_app. split; apply Forall_forall; intros p Hp;
    apply list_elem_of_In, in_concat in Hp as (l & Hl%list_elem_of_In & Hp);
    apply elem_of_lookup_imap in Hl as (i & row & -> & Hrow);
    apply in_flat_map in Hp as (col & Hcol%list_elem_of_In & Hp%list_elem_of_In);
    simpl in Hp;
    destruct (separate_cell_single df i row col) as (_ & Ht & Hn);
    [apply Ht in Hp as (-> & _) | apply Hn in Hp as (-> & _)];
    destruct (create_data_point_fields (Z.of_nat i) col (row_get (columns df) row col))
      as (-> & -> & _);
    apply lookup_lt_Some in Hrow; (split; [done | lia]).
Qed.

(** X4. No data point is filed under a column label that carries
    surrounding whitespace: the headers are stripped before the cells are
    looked up by header, so the cells of such a column are never read
    under its own label. *)
Theorem padded_column_is_dropped (df : DataFrame F) (col : pystr) :
  strip col <> col ->
  Forall (fun dp => column_name dp <> col)
    ((_separate_data_types df (_extract_headers df)).1
     ++ (_separate_data_types df (_extract_headers df)).2).
Proof.
  intros Hpad.
  eapply Forall_impl; [apply separate_points_bounds |].
  intros dp [Hh _] <-. apply Hpad. clear -Hh.
  unfold _extract_headers in Hh. rewrite extract_headers_fold in Hh.
  apply list_elem_of_In, filter_In in Hh as [Hin _].
  apply in_map_iff in Hin as (c & <- & _). apply strip_idemp.
Qed.


Lemma contains_single_iff (c : N) (s : pystr) : contains [c] s = true <-> c ∈ s.
Proof.
  split; [apply contains_single_elem |].
  intros (a & b & ->)%list_elem_of_split. apply contains_spec. by exists a, b.
Qed.

Lemma strip_keeps_no_symbol (s : pystr) :
  (contains (cps "%") (strip s) = true -> contains (cps "%") s = true)
  /\ (has_currency_symbol (strip s) -> has_currency_symbol s).
Proof.
  split.
  - change (cps "%") with [37%N]. rewrite !contains_single_iff. apply strip_subset.
  - intros (symbol & Hin & Hc). exists symbol. split; [done |].
    unfold currency_symbols in Hin. change (cps "$") with [36%N] in Hin.
    rewrite !elem_of_cons, elem_of_nil in Hin.
    destruct Hin as [-> | [-> | [-> | [-> | [-> | []]]]]];
      apply contains_single_iff, strip_subset; by apply contains_single_iff.
Qed.

Lemma int_string_has_no_symbol (n : Z) :
  contains (cps "%") (str_of_int n) = false /\ ~ has_currency_symbol (str_of_int n).
Proof.
  assert (forall c, ~ int_char c -> contains [c] (str_of_int n) = false) as Hno.
  { intros c Hc. destruct (contains _ _) eqn:E; [|done]. exfalso. apply Hc.
    apply contains_single_elem in E.
    by apply (proj1 (Forall_forall _ _) (str_of_int_chars n)). }
  split.
  - change (cps "%") with [37%N]. apply Hno. unfold int_char. lia.
  - intros (symbol & Hin & Hc). unfold currency_symbols in Hin.
    change (cps "$") with [36%N] in Hin.
    rewrite !elem_of_cons, elem_of_nil in Hin.
    destruct Hin as [-> | [-> | [-> | [-> | [-> | []]]]]];
      (rewrite Hno in Hc; [discriminate | unfold int_char; lia]).
Qed.

(** X6. No cell is ever tagged currency, and none is tagged percentage for
    a percent sign, given two facts of the runtime: [float()] accepts no
    string that holds a percent sign or a currency symbol, and [str()] of
    a float holds neither. A cell is tagged percentage only as a float
    within [0, 1]. *)
Theorem no_cell_is_tagged_currency (row_idx : Z) (col : pystr) (value : cell F) :
  (forall s x, float_of_str s = Some x ->
     contains (cps "%") s = false /\ ~ has_currency_symbol s) ->
  (forall x, contains (cps "%") (str_of_float x) = false
             /\ ~ has_currency_symbol (str_of_float x)) ->
  let dp := _create_data_point row_idx col value in
  dp_type dp <> currency
  /\ (dp_type dp = percentage -> float_in_unit_interval value).
Proof.
  intros Hparse Hshow dp.
  assert (_is_numerical value = true ->
          contains (cps "%") (strip (py_str value)) = false
          /\ ~ has_currency_symbol (strip (py_str value))) as Hclean.
  { intros Hnum.
    assert (contains (cps "%") (py_str value) = false
            /\ ~ has_currency_symbol (py_str value)) as [Hp Hc].
    { destruct value as [| b | n | x | s | shown]; cbn [py_str].
      - discriminate.
      - split; [by destruct b |].
        intros Hc%has_currency_symbol_test. by destruct b.
      - apply int_string_has_no_symbol.
      - apply Hshow.
      - unfold _is_numerical in Hnum. cbn [isna py_float] in Hnum.
        destruct (float_of_str s) eqn:Hs; [|discriminate]. by apply (Hparse s f).
      - discriminate. }
    split.
    + destruct (contains _ (strip _)) eqn:E; [|done].
      apply strip_keeps_no_symbol in E. congruence.
    + intros Hs%strip_keeps_no_symbol. tauto. }
  subst dp. unfold _create_data_point.
  destruct (_is_numerical value) eqn:Hnum;
    [|destruct (startswith (cps "=") (strip (py_str value)));
      cbv beta iota delta [dp_type]; split; discriminate].
  cbv beta iota delta [dp_type]. destruct (Hclean eq_refl) as [Hp Hc].
  split.
  - intros Ht. apply classify_numerical_type_order in Ht. tauto.
  - intros Ht. apply classify_numerical_type_order in Ht as [Ht | Ht]; [congruence | done].
Qed.

End Cells.

(* ===================================================================== *)
(** * The extractor: reading and processing a file *)
(* ===================================================================== *)

Section Reading.
Import ExcelProcessor.
Context {F : Type} {fops : FloatOps F} {rt : Builtins F} {uc : Unicode}
        {pandas : Pandas F} {hashing : Hashing}.

Lemma try_except_reraise {A} (body : M A) (msg : exn -> pystr) (w : world) :
  (forall e w', body w = (Raise e, w') -> is_Exception e = true /\ w' = w) ->
  (forall a w', body w = (Return a, w') -> w' = w) ->
  (exists a, try_except body (fun e => raise (ValueError (msg e))) w = (Return a, w)
             /\ body w = (Return a, w))
  \/ (exists e, try_except body (fun e => raise (ValueError (msg e))) w
                = (Raise (ValueError (msg e)), w)
                /\ body w = (Raise e, w)).
Proof.
  intros Hraise Hret. unfold try_except.
  destruct (body w) as [[a | e] w'] eqn:Hbody.
  - rewrite (Hret a w' eq_refl). left. eauto.
  - destruct (Hraise e w' eq_refl) as [-> ->]. right. eauto.
Qed.

(** The outcomes of reading a file. *)
Lemma read_file_to_dataframe_outcome_aux (file_content : list Byte.byte)
    (filename : pystr) (w : world) :
  catchable (read_csv file_content) ->
  catchable (read_excel file_content) ->
  (exists df,
     _read_file_to_dataframe file_content filename w = (Return df, w)
     /\ columns df <> [] /\ rows df <> []
     /\ (if endswith (cps ".csv") (lower filename)
         then read_csv file_content = Return df
         else existsb (fun ext => endswith ext (lower filename)) [cps ".xlsx"; cps ".xls"]
              = true
              /\ read_excel file_content = Return df))
  \/ (exists reason,
        _read_file_to_dataframe file_content filename w
        = (Raise (ValueError (cps "Error reading file " ++ filename ++ cps ": " ++ reason)),
           w)).
Proof.
  intros Hcsv Hexcel. unfold _read_file_to_dataframe.
  match goal with
  | |- context [try_except ?b _ w] => set (body := b)
  end.
  assert (forall o w', body w = (o, w') ->
            w' = w
            /\ match o with
               | Return df =>
                   columns df <> [] /\ rows df <> []
                   /\ (if endswith (cps ".csv") (lower filename)
                       then read_csv file_content = Return df
                       else existsb (fun ext => endswith ext (lower filename))
                                    [cps ".xlsx"; cps ".xls"] = true
                            /\ read_excel file_content = Return df)
               | Raise e => is_Exception e = true
               end) as Hbody.
  { intros o w'. subst body. unfold mbind, M_bind, lift, raise, mret, M_ret, df_empty.
    destruct (endswith (cps ".csv") (lower filename)).
    - destruct (read_csv file_content) as [df | e] eqn:Hread.
      + destruct (columns df) eqn:Hc; [intros [= <- <-]; done |].
        destruct (rows df) eqn:Hr; intros [= <- <-]; [done |].
        by rewrite Hc, Hr.
      + intros [= <- <-]. split; [done | by apply Hcsv].
    - destruct (existsb _ _) eqn:Hx.
      + destruct (read_excel file_content) as [df | e] eqn:Hread.
        * destruct (columns df) eqn:Hc; [intros [= <- <-]; done |].
          destruct (rows df) eqn:Hr; intros [= <- <-]; [done |].
          by rewrite Hc, Hr.
        * intros [= <- <-]. split; [done | by apply Hexcel].
      + intros [= <- <-]. done. }
  destruct (try_except_reraise body
              (fun e => cps "Error reading file " ++ filename ++ cps ": " ++ exn_str e) w)
    as [(df & Hrun & Hb) | (e & Hrun & Hb)].
  - intros e w' Hb. by destruct (Hbody _ _ Hb) as [-> ?].
  - intros a w' Hb. by destruct (Hbody _ _ Hb) as [-> ?].
  - left. exists df. split; [exact Hrun |]. by destruct (Hbody _ _ Hb) as [_ ?].
  - right. exists (exn_str e). exact Hrun.
Qed.

(** X7. Reading a file returns a frame with at least one row and one
    column, read by the reader its extension names: [read_csv] for .csv,
    [read_excel] for .xlsx and .xls. Every other outcome is a
    [ValueError] whose message starts with the file name: a reader's own
    error, an empty frame and an extension without a reader all come out
    that way. Nothing is printed. *)
Theorem read_file_to_dataframe_outcome (file_content : list Byte.byte)
    (filename : pystr) (w : world) :
  catchable (read_csv file_content) ->
  catchable (read_excel file_content) ->
  (exists df,
     _read_file_to_dataframe file_content filename w = (Return df, w)
     /\ columns df <> [] /\ rows df <> []
     /\ (if endswith (cps ".csv") (lower filename)
         then read_csv file_content = Return df
         else existsb (fun ext => endswith ext (lower filename)) [cps ".xlsx"; cps ".xls"]
              = true
              /\ read_excel file_content = Return df))
  \/ (exists reason,
        _read_file_to_dataframe file_content filename w
        = (Raise (ValueError (cps "Error reading file " ++ filename ++ cps ": " ++ reason)),
           w)).
Proof. apply read_file_to_dataframe_outcome_aux. Qed.


End Reading.

(** The label " Quota " of the padded frame: its two cells give no point. *)
Lemma padded_column_is_dropped_witness :
  Forall (fun dp => ExcelProcessor.column_name dp <> cps " Quota ")
    ((ExcelProcessor._separate_data_types (rt := sample_builtins)
        padded_frame (ExcelProcessor._extract_headers (uc := ascii_case_only) padded_frame)).1
     ++ (ExcelProcessor._separate_data_types (rt := sample_builtins)
           padded_frame
           (ExcelProcessor._extract_headers (uc := ascii_case_only) padded_frame)).2).
Proof.
  apply (padded_column_is_dropped (rt := sample_builtins) (uc := ascii_case_only)
           padded_frame (cps " Quota ")).
  vm_compute. discriminate.
Defined.

Lemma sample_builtins_parse_clean (s : pystr) (x : float) :
  float_of_str (Builtins := sample_builtins) s = Some x ->
  contains (cps "%") s = false /\ ~ has_currency_symbol s.
Proof.
  cbn [float_of_str sample_builtins]. intros Hs.
  assert (s = cps "0.5" \/ s = cps "42") as [-> | ->].
  { destruct (bool_decide (s = cps "0.5")) eqn:E1;
      [left; by apply bool_decide_eq_true in E1 |].
    destruct (bool_decide (s = cps "42")) eqn:E2;
      [right; by apply bool_decide_eq_true in E2 | discriminate]. }
  - split; [reflexivity |].
    intros Hc. apply has_currency_symbol_test in Hc.
    vm_compute in Hc. discriminate.
  - split; [reflexivity |].
    intros Hc. apply has_currency_symbol_test in Hc.
    vm_compute in Hc. discriminate.
Qed.

Lemma sample_builtins_show_clean (x : float) :
  contains (cps "%") (str_of_float (Builtins := sample_builtins) x) = false
  /\ ~ has_currency_symbol (str_of_float (Builtins := sample_builtins) x).
Proof.
  cbn [str_of_float sample_builtins].
  destruct (PrimFloat.eqb x 0.5); [|destruct (PrimFloat.eqb x 1.125);
                                     [|destruct (PrimFloat.eqb x 1.5)]];
    (split; [reflexivity |]);
    intros Hc; apply has_currency_symbol_test in Hc;
    vm_compute in Hc; discriminate.
Qed.

(** The cell "0.5", a string the sample conversions accept. *)
Lemma no_cell_is_tagged_currency_witness :
  let dp := ExcelProcessor._create_data_point (rt := sample_builtins) 0 (cps "Rate")
              (ExcelProcessor.CStr (cps "0.5")) in
  ExcelProcessor.dp_type dp <> ExcelProcessor.currency
  /\ (ExcelProcessor.dp_type dp = ExcelProcessor.percentage ->
      float_in_unit_interval (F := float) (ExcelProcessor.CStr (cps "0.5"))).
Proof.
  apply (no_cell_is_tagged_currency (rt := sample_builtins) 0 (cps "Rate")
           (ExcelProcessor.CStr (cps "0.5"))).
  - exact sample_builtins_parse_clean.
  - exact sample_builtins_show_clean.
Defined.

Lemma sample_pandas_catchable (content : list Byte.byte) :
  catchable (ExcelProcessor.read_csv (Pandas := sample_pandas) content)
  /\ catchable (ExcelProcessor.read_excel (Pandas := sample_pandas) content).
Proof.
  split; intros e; cbn [ExcelProcessor.read_csv ExcelProcessor.read_excel sample_pandas].
  - destruct content; intros [= <-]; reflexivity.
  - intros [= <-]. reflexivity.
Qed.

(** Reading the sample bytes as "sales.CSV". *)
Lemma read_file_to_dataframe_outcome_witness :
  (exists df,
     ExcelProcessor._read_file_to_dataframe (uc := ascii_case_only) (pandas := sample_pandas)
       sample_csv (cps "sales.CSV") world0 = (Return df, world0)
     /\ ExcelProcessor.columns df <> [] /\ ExcelProcessor.rows df <> []
     /\ (if ExcelProcessor.endswith (cps ".csv") (@lower ascii_case_only (cps "sales.CSV"))
         then ExcelProcessor.read_csv (Pandas := sample_pandas) sample_csv = Return df
         else existsb (fun ext => ExcelProcessor.endswith ext
                                    (@lower ascii_case_only (cps "sales.CSV")))
                [cps ".xlsx"; cps ".xls"] = true
              /\ ExcelProcessor.read_excel (Pandas := sample_pandas) sample_csv = Return df))
  \/ (exists reason,
        ExcelProcessor._read_file_to_dataframe (uc := ascii_case_only)
          (pandas := sample_pandas) sample_csv (cps "sales.CSV") world0
        = (Raise (ValueError (cps "Error reading file " ++ cps "sales.CSV" ++ cps ": "
                              ++ reason)), world0)).
Proof.
  apply (read_file_to_dataframe_outcome (uc := ascii_case_only) (pandas := sample_pandas)
           sample_csv (cps "sales.CSV") world0).
  - apply sample_pandas_catchable.
  - apply sample_pandas_catchable.
Defined.


(* ===================================================================== *)
(** * Search: suggestions *)
(* ===================================================================== *)

Lemma take_sublist {A} (n : nat) (l : list A) : take n l `sublist_of` l.
Proof.
  rewrite <- (take_drop n l) at 2. apply sublist_inserts_r. done.
Qed.

Lemma filter_sublist {A} (f : A -> bool) (l : list A) : List.filter f l `sublist_of` l.
Proof.
  induction l as [|x l IH]; [done |]. cbn [List.filter].
  destruct (f x); [by apply sublist_skip | by apply sublist_cons].
Qed.

Lemma slice_to_sublist {A} (n : Z) (l : list A) :
  SearchService.slice_to n l `sublist_of` l.
Proof. unfold SearchService.slice_to. destruct (n <? 0); apply take_sublist. Qed.

Lemma slice_to_length {A} (n : Z) (l : list A) :
  0 <= n -> length (SearchService.slice_to n l) = Nat.min (Z.to_nat n) (length l).
Proof.
  intros Hn. unfold SearchService.slice_to.
  destruct (n <? 0) eqn:E; [apply Z.ltb_lt in E; lia |]. apply length_take.
Qed.

Lemma split_from_words (word s : pystr) :
  Forall (fun c => isspace c = false) word ->
  Forall (fun w => w <> [] /\ Forall (fun c => isspace c = false) w)
    (SearchService.split_from word s).
Proof.
  revert word. induction s as [|c s IH]; intros word Hword; cbn [SearchService.split_from].
  - destruct word as [|k word]; [constructor |].
    constructor; [split; [done | exact Hword] | constructor].
  - destruct (isspace c) eqn:Hc.
    + destruct word as [|k word]; [by apply IH |].
      constructor; [done | by apply IH].
    + apply IH. apply Forall_app. split; [done | by repeat constructor].
Qed.

Lemma split_from_blank (s : pystr) :
  Forall (fun c => isspace c = true) s -> SearchService.split_from [] s = [].
Proof.
  induction 1 as [|c s Hc _ IH]; [done |]. cbn [SearchService.split_from].
  by rewrite Hc.
Qed.

Section Suggestions.
Import SearchService.
Context {F : Type} {uc : Unicode}.


(** X10. [_generate_search_suggestions] returns at most three of the five
    base suggestions, in their order; none of them holds, in lowercase, a
    word of the lowercased query. The search results play no part. A query
    whose lowercase is blank gets the first three base suggestions. *)
Theorem generate_search_suggestions_spec (query : pystr)
    (results : list (SearchResult F)) :
  let answer := _generate_search_suggestions query results in
  answer `sublist_of` base_suggestions
  /\ (length answer <= 3)%nat
  /\ Forall (fun s => forall word, word ∈ split (lower query) ->
                        word <> [] /\ contains word (lower s) = false) answer
  /\ answer = _generate_search_suggestions (F := F) query []
  /\ (Forall (fun c => isspace c = true) (lower query) ->
      answer = take 3 base_suggestions).
Proof.
  intros answer. subst answer. unfold _generate_search_suggestions. split_and!.
  - etrans; [apply take_sublist | apply filter_sublist].
  - rewrite length_take. lia.
  - apply Forall_forall. intros s Hs word Hword.
    eapply elem_of_sublist in Hs; [|apply take_sublist].
    apply list_elem_of_In, filter_In in Hs as [_ Hs].
    apply negb_true_iff in Hs. split.
    + pose proof (split_from_words [] (lower query) (Forall_nil_2 _)) as Hw.
      rewrite Forall_forall in Hw. by apply Hw.
    + destruct (contains word (lower s)) eqn:Hc; [|done].
      assert (existsb (fun word => contains word (lower s)) (split (lower query)) = true)
        as Hex; [|congruence].
      apply existsb_exists. exists word. split; [by apply list_elem_of_In | done].
  - done.
  - intros Hblank. unfold split. rewrite (split_from_blank _ Hblank). done.
Qed.

End Suggestions.


(** A query of two spaces. *)
Lemma generate_search_suggestions_spec_witness :
  let answer := SearchService._generate_search_suggestions (F := float)
                  (uc := ascii_case_only) (cps "  ") [] in
  answer `sublist_of` SearchService.base_suggestions
  /\ (length answer <= 3)%nat
  /\ Forall (fun s => forall word,
               word ∈ SearchService.split (@lower ascii_case_only (cps "  ")) ->
               word <> [] /\ contains word (@lower ascii_case_only s) = false) answer
  /\ answer = SearchService._generate_search_suggestions (F := float)
                (uc := ascii_case_only) (cps "  ") []
  /\ (Forall (fun c => isspace c = true) (@lower ascii_case_only (cps "  ")) ->
      answer = take 3 SearchService.base_suggestions).
Proof.
  apply (generate_search_suggestions_spec (F := float) (uc := ascii_case_only)
           (cps "  ") []).
Defined.

(* ===================================================================== *)
(** * SQL mode: rows, the statements that reach the database *)
(* ===================================================================== *)

Lemma foldl_insert_snoc {K V} `{Countable K} (l : list (K * V)) (k : K) (v : V)
    (acc : gmap K V) :
  foldl (fun d kv => <[kv.1 := kv.2]> d) acc (l ++ [(k, v)])
  = <[k := v]> (foldl (fun d kv => <[kv.1 := kv.2]> d) acc l).
Proof. by rewrite foldl_app. Qed.

Lemma foldl_insert_lookup {K V} `{Countable K} (l : list (K * V)) :
  let d := foldl (fun d kv => <[kv.1 := kv.2]> d) (∅ : gmap K V) l in
  (forall c, d !! c = None <-> forall i v, l !! i <> Some (c, v))
  /\ (forall i c v, l !! i = Some (c, v) ->
        (forall j v', (i < j)%nat -> l !! j <> Some (c, v')) -> d !! c = Some v)
  /\ (forall c v, d !! c = Some v ->
        exists i, l !! i = Some (c, v)
                  /\ forall j v', (i < j)%nat -> l !! j <> Some (c, v')).
Proof.
  induction l as [|[k x] l IH] using rev_ind; cbn zeta.
  - split_and!; [|done..]. intros c. split; [done |]. intros _. apply lookup_empty.
  - rewrite foldl_insert_snoc. cbn zeta in IH. destruct IH as (IHn & IHs & IHe).
    split_and!.
    + intros c. rewrite lookup_insert_None, IHn. split.
      * intros [Hl Hk] i v Hi. apply lookup_app_Some in Hi as [Hi | [_ Hi]].
        { by apply (Hl i v). }
        apply list_lookup_singleton_Some in Hi as [_ [= -> ->]]. done.
      * intros Hall. split.
        { intros i v Hi. apply (Hall i v). by apply lookup_app_l_Some. }
        intros ->. apply (Hall (length l) x).
        by rewrite lookup_app_r, Nat.sub_diag by lia.
    + intros i c v Hi Hlast. apply lookup_app_Some in Hi as [Hi | [Hlen Hi]].
      * assert (k <> c) as Hk.
        { intros ->. apply (Hlast (length l) x).
          - by apply lookup_lt_Some in Hi.
          - by rewrite lookup_app_r, Nat.sub_diag by lia. }
        rewrite lookup_insert_ne by done. apply (IHs i); [done |].
        intros j v' Hj Hlj. apply (Hlast j v' Hj). by apply lookup_app_l_Some.
      * apply list_lookup_singleton_Some in Hi as [_ [= -> ->]].
        apply lookup_insert_eq.
    + intros c v Hd. destruct (decide (k = c)) as [-> | Hk].
      * rewrite lookup_insert_eq in Hd. injection Hd as ->.
        exists (length l). split.
        { by rewrite lookup_app_r, Nat.sub_diag by lia. }
        intros j v' Hj Hlj. apply lookup_lt_Some in Hlj.
        rewrite length_app in Hlj. cbn in Hlj. lia.
      * rewrite lookup_insert_ne in Hd by done.
        destruct (IHe c v Hd) as (i & Hi & Hlast). exists i. split.
        { by apply lookup_app_l_Some. }
        intros j v' Hj Hlj. apply lookup_app_Some in Hlj as [Hlj | [_ Hlj]].
        { by apply (Hlast j v'). }
        apply list_lookup_singleton_Some in Hlj as [_ [= -> ->]]. done.
Qed.

Section SqlRows.
Import SearchService.
Context {F : Type} {fops : FloatOps F} {fmt : Formatting F} {uc : Unicode}.

(** Reading a row by column name. *)
Lemma dict_of_zip_lookup_aux (columns : list pystr) (row : list (pyval F)) :
  let d := dict_of_zip columns row in
  (forall c, d !! c = None
             <-> forall i, (i < length row)%nat -> columns !! i <> Some c)
  /\ (forall i c v, columns !! i = Some c -> row !! i = Some v ->
        (forall j, (i < j < length row)%nat -> columns !! j <> Some c) ->
        d !! c = Some v).
Proof.
  cbn zeta. unfold dict_of_zip.
  destruct (foldl_insert_lookup (zip columns row)) as (Hn & Hs & _). cbn zeta in Hn, Hs.
  split.
  - intros c. rewrite Hn. split.
    + intros Hall i Hi Hc.
      destruct (lookup_lt_is_Some_2 row i Hi) as [v Hv].
      apply (Hall i v). apply lookup_zip_with_Some. eauto.
    + intros Hall i v Hi. apply lookup_zip_with_Some in Hi as (c' & v' & [= <- <-] & Hc & Hv).
      apply (Hall i); [by apply lookup_lt_Some in Hv | done].
  - intros i c v Hc Hv Hlast. apply (Hs i).
    + apply lookup_zip_with_Some. eauto.
    + intros j v' Hj Hlj.
      apply lookup_zip_with_Some in Hlj as (c' & v'' & [= <- <-] & Hc' & Hv').
      apply (Hlast j); [|done]. apply lookup_lt_Some in Hv'. lia.
Qed.

(** X11. [dict(zip(columns, row))] reads a row by column name: it has a
    key for each column that meets a value of the row and for no other
    name, and under a name it holds the value at the last position where
    that name stands among the columns paired with a value. So a later
    duplicate of a column name hides the earlier value, and values beyond
    the columns, or columns beyond the values, are dropped. *)
Theorem dict_of_zip_lookup (columns : list pystr) (row : list (pyval F)) :
  let d := dict_of_zip columns row in
  (forall c, d !! c = None
             <-> forall i, (i < length row)%nat -> columns !! i <> Some c)
  /\ (forall i c v, columns !! i = Some c -> row !! i = Some v ->
        (forall j, (i < j < length row)%nat -> columns !! j <> Some c) ->
        d !! c = Some v).
Proof. apply dict_of_zip_lookup_aux. Qed.

Lemma check_keywords_cases (keywords : list pystr) (query_upper : pystr) (w : world) :
  (Forall (fun kw => contains kw query_upper = false) keywords
   /\ check_keywords keywords query_upper w = (Return tt, w))
  \/ (exists kw, kw ∈ keywords /\ contains kw query_upper = true /\
        check_keywords keywords query_upper w
        = (Raise (ValueError (cps "Unsafe SQL operation detected: " ++ kw)), w)).
Proof.
  destruct (decide (Forall (fun kw => contains kw query_upper = false) keywords))
    as [Hall | Hex].
  - left. split; [done | by apply check_keywords_passes].
  - right. apply check_keywords_raises.
    apply not_Forall_Exists in Hex; [|intros kw; apply _].
    eapply Exists_impl; [exact Hex |]. intros kw Hkw. cbn in Hkw.
    by destruct (contains kw query_upper).
Qed.

(** What a call of [_execute_sql_safely] can leave behind. *)
Lemma execute_sql_safely_trace (self : SearchService F) (sql : pystr) (w : world)
    (o : outcome (list (dict F))) (w' : world) :
  _execute_sql_safely self sql w = (o, w') ->
  history w' = history w
  /\ (w' = w
      \/ (executed w' = executed w ++ [sql] /\ passes_gate sql /\ db self <> None))
  /\ (forall e, o = Raise e ->
        (w' = w /\ exists kw, kw ∈ unsafe_keywords /\ contains kw (upper sql) = true
                              /\ e = ValueError (cps "Unsafe SQL operation detected: " ++ kw))
        \/ is_Exception e = false).
Proof.
  unfold _execute_sql_safely.
  destruct (db self) as [session|] eqn:Hdb;
    [|intros [= <- <-]; split_and!; [done | by left | done]].
  unfold mbind at 1. unfold M_bind at 1.
  destruct (check_keywords_cases unsafe_keywords (upper sql) w)
    as [[Hpass ->] | (kw & Hin & Hc & ->)].
  2: { intros [= <- <-]. split_and!; [done | by left |].
       intros e [= <-]. left. eauto 6. }
  unfold try_except, db_execute, mbind, M_bind, lift, print, mret, M_ret.
  assert (forall w1, executed w1 = executed w ++ [sql] ->
            w1 = w \/ (executed w1 = executed w ++ [sql] /\ passes_gate sql
                       /\ Some session <> None)) as Hright.
  { intros w1 Hw1. right. split_and!; [done | done | congruence]. }
  destruct (execute session sql) as [cursor | e1].
  - destruct (fetchall cursor) as [rows | e2].
    + destruct (keys cursor) as [columns | e3].
      * intros [= <- <-]. split_and!; [done | by apply Hright | done].
      * destruct (is_Exception e3) eqn:He; intros [= <- <-];
          (split_and!; [done | by apply Hright |]);
          [done | intros e [= <-]; by right].
    + destruct (is_Exception e2) eqn:He; intros [= <- <-];
        (split_and!; [done | by apply Hright |]);
        [done | intros e [= <-]; by right].
  - destruct (is_Exception e1) eqn:He; intros [= <- <-];
      (split_and!; [done | by apply Hright |]);
      [done | intros e [= <-]; by right].
Qed.

(** X12. Whatever the session does, [_execute_sql_safely] writes no
    history row and sends the database at most the one statement it was
    given, and that only with a session and when the uppercased statement
    holds none of the seven keywords. The only exception it raises from
    under [Exception] is the [ValueError] of the gate, and then it has
    touched nothing. *)
Theorem execute_sql_safely_reaches_database_only_through_gate
    (self : SearchService F) (sql : pystr) (w : world) :
  let run := _execute_sql_safely self sql w in
  history run.2 = history w
  /\ (run.2 = w
      \/ (executed run.2 = executed w ++ [sql] /\ passes_gate sql /\ db self <> None))
  /\ (forall e, run.1 = Raise e ->
        (run.2 = w /\ exists kw, kw ∈ unsafe_keywords /\ contains kw (upper sql) = true
                                 /\ e = ValueError (cps "Unsafe SQL operation detected: " ++ kw))
        \/ is_Exception e = false).
Proof.
  cbn zeta. destruct (_execute_sql_safely self sql w) as [o w'] eqn:Hrun.
  by apply execute_sql_safely_trace.
Qed.

Lemma execute_sql_safely_success (self : SearchService F) (session : AsyncSession F)
    (sql : pystr) (cursor : Cursor F) (rows : list (list (pyval F)))
    (columns : list pystr) (w : world) :
  db self = Some session ->
  passes_gate sql ->
  execute session sql = Return cursor ->
  fetchall cursor = Return rows ->
  keys cursor = Return columns ->
  _execute_sql_safely self sql w
  = (Return (List.map (dict_of_zip columns) rows),
     {| stdout := stdout w; executed := executed w ++ [sql]; history := history w |}).
Proof.
  intros Hdb Hpass Hx Hf Hk. unfold _execute_sql_safely. rewrite Hdb.
  unfold mbind at 1. unfold M_bind at 1. rewrite (check_keywords_passes _ _ w Hpass).
  unfold try_except, db_execute, mbind, M_bind, lift, mret, M_ret.
  by rewrite Hx, Hf, Hk.
Qed.

(** X13. A statement that passes the gate and that the database answers
    comes back as one dictionary for each row fetched, in the order
    fetched, each the row read under the column names; the statement is
    recorded as executed once and nothing is printed. *)
Theorem execute_sql_safely_returns_rows (self : SearchService F)
    (session : AsyncSession F) (sql : pystr) (cursor : Cursor F)
    (rows : list (list (pyval F))) (columns : list pystr) (w : world) :
  db self = Some session ->
  passes_gate sql ->
  execute session sql = Return cursor ->
  fetchall cursor = Return rows ->
  keys cursor = Return columns ->
  exists results,
    _execute_sql_safely self sql w
    = (Return results,
       {| stdout := stdout w; executed := executed w ++ [sql]; history := history w |})
    /\ length results = length rows
    /\ (forall k row, rows !! k = Some row ->
          results !! k = Some (dict_of_zip columns row))
    /\ (NoDup columns ->
        forall k row d i c v,
          rows !! k = Some row -> results !! k = Some d ->
          columns !! i = Some c -> row !! i = Some v -> d !! c = Some v).
Proof.
  intros Hdb Hpass Hx Hf Hk. exists (List.map (dict_of_zip columns) rows).
  split_and!.
  - by apply (execute_sql_safely_success self session sql cursor).
  - apply length_map.
  - intros k row Hrow. change (List.map ?f ?l) with (f <$> l).
    by rewrite list_lookup_fmap, Hrow.
  - intros Hnd k row d i c v Hrow Hd Hc Hv.
    change (List.map ?f ?l) with (f <$> l) in Hd.
    rewrite list_lookup_fmap, Hrow in Hd. injection Hd as <-.
    destruct (dict_of_zip_lookup_aux columns row) as [_ Hs].
    apply (Hs i c v Hc Hv). intros j Hj Hcj.
    pose proof (NoDup_lookup _ _ _ _ Hnd Hc Hcj). lia.
Qed.

End SqlRows.

(* ===================================================================== *)
(** * SQL mode: generation, and the whole path *)
(* ===================================================================== *)

Lemma lstrip_suffix (s : pystr) : exists a, s = a ++ lstrip s.
Proof.
  induction s as [|c s [a IH]]; [by exists [] |]. cbn [lstrip].
  destruct (isspace c); [|by exists []].
  exists (c :: a). cbn [app]. by rewrite <- IH.
Qed.

Lemma strip_infix (s : pystr) : exists a b, s = a ++ strip s ++ b.
Proof.
  destruct (lstrip_suffix s) as [a Ha].
  destruct (lstrip_suffix (rev (lstrip s))) as [b Hb].
  exists a, (rev b). unfold strip. rewrite <- rev_app_distr, <- Hb, rev_involutive. done.
Qed.

Lemma contains_strip (sub s : pystr) :
  contains sub (strip s) = true -> contains sub s = true.
Proof.
  rewrite !contains_spec. intros (a & b & Hs).
  destruct (strip_infix s) as (a' & b' & Hs').
  exists (a' ++ a), (b ++ b'). rewrite Hs' at 1. rewrite Hs. by rewrite <- !app_assoc.
Qed.

(** Removing every run of three of a character leaves no such run. *)
Lemma replace_triple_start (t : N) (s : pystr) :
  startswith [t; t; t] s = false ->
  startswith [t; t; t] (SearchService.replace_from [t; t; t] [] 0 s) = false.
Proof.
  destruct s as [|a [|b [|c s3]]]; [done | | |].
  - intros _. cbn. by destruct (t =? a)%N eqn:Ha; cbn; rewrite ?Ha.
  - intros _. cbn. destruct (t =? a)%N eqn:Ha; cbn; rewrite ?Ha; cbn; [|done].
    by destruct (t =? b)%N eqn:Hb; cbn; rewrite ?Ha, ?Hb.
  - intros Hs. cbn [SearchService.replace_from]. rewrite Hs.
    cbn [startswith] in Hs |- *.
    destruct (t =? a)%N; [|done]. cbn [andb] in Hs |- *.
    destruct (t =? b)%N eqn:Hb; cbn [andb] in Hs |- *.
    + rewrite andb_true_r in Hs. rewrite Hs. cbn [andb]. rewrite Hb. cbn [andb].
      destruct s3 as [|d s4]; cbn [SearchService.replace_from startswith].
      * by rewrite Hs.
      * by rewrite Hs.
    + rewrite Hb. done.
Qed.

Lemma replace_triple_free (t : N) (skip : nat) (s : pystr) :
  contains [t; t; t] (SearchService.replace_from [t; t; t] [] skip s) = false.
Proof.
  revert skip. induction s as [|c s IH]; intros skip; [done |].
  destruct skip as [|k]; [|apply IH].
  destruct (startswith [t; t; t] (c :: s)) eqn:Hs.
  - cbn [SearchService.replace_from]. rewrite Hs. apply IH.
  - pose proof (replace_triple_start t (c :: s) Hs) as Hstart.
    cbn [SearchService.replace_from] in Hstart |- *. rewrite Hs in Hstart |- *.
    cbn [contains]. rewrite Hstart. apply IH.
Qed.

Lemma bind_raise {A B} (m : M A) (k : A -> M B) (e : exn) (w w' : world) :
  m w = (Raise e, w') -> (m ≫= k) w = (Raise e, w').
Proof. intros Hm. unfold mbind, M_bind. by rewrite Hm. Qed.

Section GenerationFacts.
Import SearchService.
Context {F : Type} {fops : FloatOps F} {fmt : Formatting F} {uc : Unicode}
        {tm : TextModel} {re : Regex}.

(** The fallback statement of [_generate_sql_with_gemini]. *)
Lemma default_query_passes_gate :
  passes_gate (cps "SELECT * FROM spreadsheet_data LIMIT 10").
Proof. unfold passes_gate, unsafe_keywords. repeat constructor. Qed.

(** The three ways a call of [_generate_sql_with_gemini] can end. *)
Lemma generate_sql_cases (natural_query schema_context : pystr)
    (table_context : option (dict F)) (w : world) :
  exists prompt,
    (exists text sql_part,
       generate_content prompt = Return text
       /\ _generate_sql_with_gemini natural_query schema_context table_context w
          = (Return (strip (replace (cps "```") [] sql_part),
                     match search_explanation text with
                     | Some g => strip g
                     | None => cps "No explanation provided"
                     end), w))
    \/ (exists e,
          generate_content prompt = Raise e /\ is_Exception e = true
          /\ _generate_sql_with_gemini natural_query schema_context table_context w
             = (Return (cps "SELECT * FROM spreadsheet_data LIMIT 10",
                        cps "Error generating query: " ++ exn_str e),
                {| stdout := stdout w
                             ++ [cps "Error generating SQL with Gemini: " ++ exn_str e];
                   executed := executed w; history := history w |}))
    \/ (exists e,
          generate_content prompt = Raise e /\ is_Exception e = false
          /\ _generate_sql_with_gemini natural_query schema_context table_context w
             = (Raise e, w)).
Proof.
  unfold _generate_sql_with_gemini. cbv zeta.
  match goal with
  | |- context [generate_content ?p] => set (prompt := p)
  end.
  exists prompt. unfold try_except, mbind, M_bind, lift, print, mret, M_ret.
  destruct (generate_content prompt) as [text | e]; [left; eauto |].
  destruct (is_Exception e) eqn:He; [right; left | right; right]; eauto.
Qed.

(** What generation hands on. *)
Lemma generated_sql_is_clean_aux (natural_query schema_context : pystr)
    (table_context : option (dict F)) (w w' : world) (sql_query explanation : pystr) :
  _generate_sql_with_gemini natural_query schema_context table_context w
  = (Return (sql_query, explanation), w') ->
  contains (cps "```") sql_query = false
  /\ strip sql_query = sql_query
  /\ executed w' = executed w
  /\ history w' = history w.
Proof.
  intros Hrun.
  destruct (generate_sql_cases natural_query schema_context table_context w)
    as (prompt & [(text & part & _ & Hgen) | [(e & _ & _ & Hgen) | (e & _ & _ & Hgen)]]);
    rewrite Hgen in Hrun; [| |discriminate]; injection Hrun as <- <- <-.
  - split_and!; [|apply strip_idemp|done..].
    destruct (contains _ (strip _)) eqn:Hc; [|done].
    apply contains_strip in Hc. unfold replace in Hc.
    change (cps "```") with [96; 96; 96]%N in Hc.
    by rewrite replace_triple_free in Hc.
  - split_and!; done.
Qed.

(** X14. The statement [_generate_sql_with_gemini] hands on never holds a
    code fence of three backticks and carries no whitespace at either
    end, whatever the model answers and whatever the two searches pick
    out of the answer. Generating sends nothing to the database and
    writes no history. *)
Theorem generated_sql_is_clean (natural_query schema_context : pystr)
    (table_context : option (dict F)) (w w' : world) (sql_query explanation : pystr) :
  _generate_sql_with_gemini natural_query schema_context table_context w
  = (Return (sql_query, explanation), w') ->
  contains (cps "```") sql_query = false
  /\ strip sql_query = sql_query
  /\ executed w' = executed w
  /\ history w' = history w.
Proof. apply generated_sql_is_clean_aux. Qed.

Lemma post_process_row_pure (result : dict F) (w : world) :
  exists o, post_process_row result w = (o, w).
Proof.
  unfold post_process_row.
  destruct (result !! cps "numerical_value") as [nv|]; [|by eexists].
  destruct (result !! cps "column_name") as [v|]; [|by eexists].
  unfold mbind, M_bind, val_lower.
  destruct (dict_get result (cps "column_name") (VStr [])); try by eexists.
  cbn. repeat (match goal with |- context [if ?b then _ else _] => destruct b end);
    by eexists.
Qed.

Lemma post_process_pure (results : list (dict F)) (original_query : pystr) (w : world) :
  exists o, _post_process_sql_results results original_query w = (o, w)
            /\ forall rs, o = Return rs -> length rs = length results.
Proof.
  unfold _post_process_sql_results.
  assert (forall l, exists o, mapM post_process_row l w = (o, w)
                              /\ forall rs, o = Return rs -> length rs = length l) as Hmap.
  { induction l as [|r l (o & Hl & Hlen)].
    - eexists. split; [done |]. by intros rs [= <-].
    - cbn [mapM]. destruct (post_process_row_pure r w) as [[r' | e] Hr].
      + rewrite (bind_return _ _ _ _ _ Hr). destruct o as [rs | e].
        * rewrite (bind_return _ _ _ _ _ Hl).
          eexists. split; [done |]. intros rs' [= <-]. cbn. by rewrite (Hlen rs).
        * rewrite (bind_raise _ _ _ _ _ Hl). eexists. split; [done |]. done.
      + rewrite (bind_raise _ _ _ _ _ Hr). eexists. split; [done |]. done. }
  destruct results as [|r rs]; [|apply Hmap].
  eexists. split; [done |]. by intros rs [= <-].
Qed.

Lemma log_search_history_trace (self : SearchService F) (q kind : pystr) (n : nat)
    (w : world) :
  exists o w', _log_search_history self q kind n w = (o, w')
    /\ executed w' = executed w
    /\ (history w' = history w
        \/ (history w' = history w ++ [(q, kind, n)] /\ db self <> None /\ o = Return tt))
    /\ (forall e, o = Raise e -> w' = w /\ is_Exception e = false).
Proof.
  unfold _log_search_history. destruct (db self) as [session|].
  - unfold try_except, db_add_commit, print.
    destruct (commit session) as [[] | e].
    + eexists _, _. split; [done |]. split_and!; [done | right | done]. done.
    + destruct (is_Exception e) eqn:He; eexists _, _; (split; [done |]);
        (split_and!; [done | by left |]); [done |]. by intros e' [= <-].
  - eexists _, _. split; [done |]. split_and!; [done | by left | done].
Qed.

Lemma execute_sql_safely_executes (self : SearchService F) (session : AsyncSession F)
    (sql : pystr) (w : world) :
  db self = Some session ->
  passes_gate sql ->
  exists o w', _execute_sql_safely self sql w = (o, w')
               /\ executed w' = executed w ++ [sql]
               /\ history w' = history w.
Proof.
  intros Hdb Hpass. unfold _execute_sql_safely. rewrite Hdb.
  unfold mbind at 1. unfold M_bind at 1. rewrite (check_keywords_passes _ _ w Hpass).
  unfold try_except, db_execute, mbind, M_bind, lift, print, mret, M_ret.
  destruct (execute session sql) as [cursor | e1].
  - destruct (fetchall cursor) as [rows | e2].
    + destruct (keys cursor) as [columns | e3]; [by eexists _, _ |].
      destruct (is_Exception e3); by eexists _, _.
    + destruct (is_Exception e2); by eexists _, _.
  - destruct (is_Exception e1); by eexists _, _.
Qed.

(** The path of [natural_language_to_sql] after generation. *)
Lemma natural_language_to_sql_after (self : SearchService F) (query : pystr)
    (table_context : option (dict F)) (w w1 : world) (sql_query explanation : pystr) :
  _generate_sql_with_gemini query _get_database_schema_context table_context w
  = (Return (sql_query, explanation), w1) ->
  exists o w2 o' w3,
    _execute_sql_safely self sql_query w1 = (o, w2)
    /\ natural_language_to_sql self query table_context w = (o', w3)
    /\ executed w3 = executed w2
    /\ match o with
       | Raise e => o' = Raise e /\ w3 = w2
       | Return results =>
           (forall r, o' = Return r ->
              generated_sql r = sql_query /\ SearchService.explanation r = explanation
              /\ sq_query r = query
              /\ row_count r = length (sq_results r)
              /\ length (sq_results r) = length results
              /\ (history w3 = history w2
                  \/ history w3 = history w2 ++ [(query, cps "sql", row_count r)]))
           /\ (forall e, o' = Raise e -> history w3 = history w2)
       end.
Proof.
  intros Hgen. unfold natural_language_to_sql. cbv zeta.
  rewrite (bind_return _ _ _ _ _ Hgen).
  destruct (_execute_sql_safely self sql_query w1) as [[results | e] w2] eqn:Hexec.
  2: { eexists _, _, _, _. split; [done |].
       unfold mbind, M_bind. rewrite Hexec. done. }
  rewrite (bind_return _ _ _ _ _ Hexec).
  destruct (post_process_pure results query w2) as (o1 & Hpost & Hlen).
  destruct o1 as [processed | e].
  - rewrite (bind_return _ _ _ _ _ Hpost).
    destruct (log_search_history_trace self query (cps "sql") (length processed) w2)
      as (o2 & w3 & Hlog & Hexe & Hhist & Hraise).
    unfold mbind, M_bind. rewrite Hlog. destruct o2 as [[] | e].
    + eexists _, _, _, _. split; [done |]. split; [done |]. split; [done |]. split.
      * intros r [= <-]. cbn. split_and!; try done; [by apply Hlen |].
        destruct Hhist as [? | (? & _)]; eauto.
      * done.
    + eexists _, _, _, _. split; [done |]. split; [done |]. split; [done |]. split.
      * done.
      * intros e' _. by destruct (Hraise e eq_refl) as [-> _].
  - eexists _, _, _, _. split; [done |].
    unfold mbind, M_bind. rewrite Hpost. done.
Qed.

(** X15. Whatever the model, the searches and the session do, a call of
    [natural_language_to_sql] sends the database at most one statement:
    the statement it generated, and only when the service holds a session
    and the uppercased statement holds none of the seven keywords. A
    result returned carries that statement and counts its rows; a history
    row is written only for a result returned. *)
Theorem natural_language_to_sql_statements (self : SearchService F) (query : pystr)
    (table_context : option (dict F)) (w : world) :
  let run := natural_language_to_sql self query table_context w in
  (executed run.2 = executed w
   \/ exists sql_query,
        executed run.2 = executed w ++ [sql_query]
        /\ passes_gate sql_query /\ db self <> None
        /\ contains (cps "```") sql_query = false
        /\ forall r, run.1 = Return r -> generated_sql r = sql_query)
  /\ (forall r, run.1 = Return r ->
        row_count r = length (sq_results r)
        /\ (history run.2 = history w
            \/ history run.2 = history w ++ [(query, cps "sql", row_count r)]))
  /\ (forall e, run.1 = Raise e -> history run.2 = history w).
Proof.
  cbn zeta.
  destruct (_generate_sql_with_gemini query _get_database_schema_context table_context w)
    as [[[sql_query explanation] | e] w1] eqn:Hgen.
  2: { unfold natural_language_to_sql. cbv zeta.
       rewrite (bind_raise _ _ _ _ _ Hgen). cbn [fst snd].
       destruct (generate_sql_cases query _get_database_schema_context table_context w)
         as (prompt & [(text & part & _ & Hc) | [(e' & _ & _ & Hc) | (e' & _ & _ & Hc)]]);
         rewrite Hc in Hgen; try discriminate.
       injection Hgen as <- <-. split_and!; [by left | done | done]. }
  destruct (generated_sql_is_clean_aux _ _ _ _ _ _ _ Hgen) as (Hfence & _ & Hexe1 & Hhist1).
  destruct (natural_language_to_sql_after self query table_context w w1 sql_query
              explanation Hgen) as (o & w2 & o' & w3 & Hexec & -> & Hexe3 & Hrest).
  cbn [fst snd].
  destruct (execute_sql_safely_trace self sql_query w1 o w2 Hexec)
    as (Hhist2 & Hexe2 & Hraise).
  split_and!.
  - destruct Hexe2 as [-> | (Hexe2 & Hpass & Hdb)].
    + left. congruence.
    + right. exists sql_query. split_and!; [congruence | done..|].
      destruct o as [results | e]; [|by destruct Hrest as [-> _]].
      intros r Hr. by apply Hrest.
  - destruct o as [results | e]; [|by destruct Hrest as [-> _]].
    intros r Hr. destruct Hrest as [Hret _].
    destruct (Hret r Hr) as (_ & _ & _ & Hcount & _ & Hh).
    split; [done |]. rewrite <- Hhist1, <- Hhist2. done.
  - destruct o as [results | e].
    + intros e He. destruct Hrest as [_ Hr]. rewrite (Hr e He). congruence.
    + intros e' _. destruct Hrest as [_ ->]. congruence.
Qed.

(** X16. When the text model fails with an exception, a service with a
    session still queries the database: it sends its fixed fallback
    statement, which passes the gate under every case table. A result
    returned names the fallback as the generated SQL and the error as the
    explanation. *)
Theorem natural_language_to_sql_falls_back (self : SearchService F)
    (session : AsyncSession F) (query : pystr) (table_context : option (dict F))
    (e : exn) (w : world) :
  db self = Some session ->
  (forall prompt, generate_content prompt = Raise e) ->
  is_Exception e = true ->
  let run := natural_language_to_sql self query table_context w in
  executed run.2 = executed w ++ [cps "SELECT * FROM spreadsheet_data LIMIT 10"]
  /\ (forall r, run.1 = Return r ->
        generated_sql r = cps "SELECT * FROM spreadsheet_data LIMIT 10"
        /\ explanation r = cps "Error generating query: " ++ exn_str e).
Proof.
  intros Hdb Hfail He. cbn zeta.
  destruct (generate_sql_cases query _get_database_schema_context table_context w)
    as (prompt & [(text & part & Hc & _) | [(e' & Hc & _ & Hgen) | (e' & Hc & He' & _)]]);
    rewrite Hfail in Hc; try discriminate; injection Hc as <-; [|congruence].
  destruct (natural_language_to_sql_after self query table_context w _ _ _ Hgen)
    as (o & w2 & o' & w3 & Hexec & -> & Hexe3 & Hrest).
  cbn [fst snd].
  destruct (execute_sql_safely_executes self session
              (cps "SELECT * FROM spreadsheet_data LIMIT 10")
              {| stdout := stdout w ++ [cps "Error generating SQL with Gemini: " ++ exn_str e];
                 executed := executed w; history := history w |} Hdb
              default_query_passes_gate) as (o1 & w2' & Hexec' & Hexe2 & _).
  rewrite Hexec in Hexec'. injection Hexec' as <- <-.
  split_and!.
  - rewrite Hexe3, Hexe2. done.
  - destruct o as [results | e1]; [|by destruct Hrest as [-> _]].
    intros r Hr. destruct Hrest as [Hret _].
    destruct (Hret r Hr) as (? & ? & _). done.
Qed.

End GenerationFacts.

(* ===================================================================== *)
(** * Semantic search: metadata, results, history *)
(* ===================================================================== *)

Section SearchFacts.
Import SearchService.
Context {F : Type} {fops : FloatOps F} {fmt : Formatting F} {uc : Unicode}
        {provider : EmbeddingService.Provider F}.

Lemma numerical_context_fold (result : list (pystr * pyval F * pyval F)) (acc : dict F) :
  foldl (fun ctx row =>
           let '(column_name, numerical_value, data_type) := row in
           <[column_name :=
               VDict [(cps "value", numerical_value); (cps "type", data_type)]]> ctx)
        acc result
  = foldl (fun d kv => <[kv.1 := kv.2]> d) acc
          ((fun row => (row.1.1, context_entry row.1.2 row.2)) <$> result).
Proof.
  revert acc. induction result as [|[[c v] t] result IH]; intros acc; [done |].
  cbn [foldl fmap list_fmap]. by rewrite IH.
Qed.

(** The three ways a call of [_enhance_metadata_with_sql_context] with a
    session can end. *)
Lemma enhance_metadata_cases (self : SearchService F) (session : AsyncSession F)
    (md : dict F) (w : world) :
  db self = Some session ->
  let answer := select_numerical session (dict_get md (cps "file_id") VNone)
                  (dict_get md (cps "row_index") VNone) in
  (exists rows,
     answer = Return rows
     /\ _enhance_metadata_with_sql_context self md w
        = (Return (<[cps "numerical_context" :=
                       VDict (map_to_list
                                (foldl (fun d kv => <[kv.1 := kv.2]> d) (∅ : dict F)
                                   ((fun row => (row.1.1, context_entry row.1.2 row.2))
                                      <$> rows)))]> md), w))
  \/ (exists e,
        answer = Raise e /\ is_Exception e = true
        /\ _enhance_metadata_with_sql_context self md w
           = (Return md,
              {| stdout := stdout w ++ [cps "Error enhancing metadata: " ++ exn_str e];
                 executed := executed w; history := history w |}))
  \/ (exists e,
        answer = Raise e /\ is_Exception e = false
        /\ _enhance_metadata_with_sql_context self md w = (Raise e, w)).
Proof.
  intros Hdb. cbn zeta. unfold _enhance_metadata_with_sql_context. rewrite Hdb.
  unfold try_except, mbind, M_bind, lift, print, mret, M_ret.
  destruct (select_numerical session _ _) as [rows | e].
  - left. exists rows. split; [done |]. by rewrite numerical_context_fold.
  - destruct (is_Exception e) eqn:He; [right; left | right; right]; eauto.
Qed.

Lemma enhance_metadata_trace (self : SearchService F) (md : dict F) (w : world)
    (o : outcome (dict F)) (w' : world) :
  _enhance_metadata_with_sql_context self md w = (o, w') ->
  history w' = history w /\ executed w' = executed w
  /\ (forall e, o = Raise e -> is_Exception e = false /\ w' = w)
  /\ (forall md', o = Return md' ->
        (forall key, key <> cps "numerical_context" -> md' !! key = md !! key)
        /\ (db self = None -> md' = md /\ w' = w)
        /\ (md' = md
            \/ exists items, md' !! cps "numerical_context" = Some (VDict items)
                             /\ NoDup items.*1 /\ w' = w)).
Proof.
  destruct (db self) as [session|] eqn:Hdb.
  - destruct (enhance_metadata_cases self session md w Hdb)
      as [(rows & _ & ->) | [(e & _ & _ & ->) | (e & _ & He & ->)]];
      intros [= <- <-].
    + split_and!; [done | done | done |]. intros md' [= <-]. split_and!.
      * intros key Hkey. by rewrite lookup_insert_ne.
      * done.
      * right. eexists. split; [apply lookup_insert_eq |].
        split; [apply NoDup_fst_map_to_list | done].
    + split_and!; [done | done | done |]. intros md' [= <-]. split_and!; [done | done |].
      by left.
    + split_and!; [done | done | | done]. by intros e' [= <-].
  - unfold _enhance_metadata_with_sql_context. rewrite Hdb. intros [= <- <-].
    split_and!; [done | done | done |]. intros md' [= <-]. split_and!; [done | done |].
    by left.
Qed.

(** X17. [_enhance_metadata_with_sql_context] never fails with an
    exception of its own: it raises only what [except Exception] lets
    through. A bag it returns agrees with the bag it was given on every
    key but [numerical_context]; without a session, or when the lookup
    fails, it is the bag given. It writes no history. *)
Theorem enhance_metadata_frame (self : SearchService F) (md : dict F) (w : world) :
  let run := _enhance_metadata_with_sql_context self md w in
  history run.2 = history w
  /\ (forall e, run.1 = Raise e -> is_Exception e = false /\ run.2 = w)
  /\ (forall md', run.1 = Return md' ->
        (forall key, key <> cps "numerical_context" -> md' !! key = md !! key)
        /\ (db self = None -> md' = md /\ run.2 = w)
        /\ (md' = md
            \/ exists items, md' !! cps "numerical_context" = Some (VDict items)
                             /\ NoDup items.*1 /\ run.2 = w)).
Proof.
  cbn zeta.
  destruct (_enhance_metadata_with_sql_context self md w) as [o w'] eqn:Hrun.
  destruct (enhance_metadata_trace self md w o w' Hrun) as (? & ? & ? & ?). done.
Qed.

(** X18. With a session that answers the lookup, the bag comes back with
    [numerical_context] set and nothing printed. The context has one
    entry for each column name among the rows of the answer and no other;
    the entry of a name holds the value and the type of the last row
    under that name, so an earlier row of the same name is hidden. *)
Theorem enhance_metadata_numerical_context (self : SearchService F)
    (session : AsyncSession F) (md : dict F)
    (rows : list (pystr * pyval F * pyval F)) (w : world) :
  db self = Some session ->
  select_numerical session (dict_get md (cps "file_id") VNone)
    (dict_get md (cps "row_index") VNone) = Return rows ->
  exists items,
    _enhance_metadata_with_sql_context self md w
    = (Return (<[cps "numerical_context" := VDict items]> md), w)
    /\ NoDup items.*1
    /\ (forall c entry,
          (c, entry) ∈ items
          <-> exists i v t,
                rows !! i = Some (c, v, t) /\ entry = context_entry v t
                /\ forall j v' t', (i < j)%nat -> rows !! j <> Some (c, v', t')).
Proof.
  intros Hdb Hrows.
  destruct (enhance_metadata_cases self session md w Hdb)
    as [(rows' & Ha & Hrun) | [(e & Ha & _) | (e & Ha & _)]];
    cbn zeta in Ha; rewrite Hrows in Ha; try discriminate.
  injection Ha as <-. eexists. split; [exact Hrun |].
  split; [apply NoDup_fst_map_to_list |].
  intros c entry. rewrite elem_of_map_to_list.
  destruct (foldl_insert_lookup
              ((fun row : pystr * pyval F * pyval F =>
                  (row.1.1, context_entry row.1.2 row.2)) <$> rows))
    as (_ & Hs & He). cbn zeta in Hs, He.
  split.
  - intros Hd. destruct (He c entry Hd) as (i & Hi & Hlast).
    rewrite list_lookup_fmap in Hi.
    destruct (rows !! i) as [[[c' v] t]|] eqn:Hri; [|discriminate].
    cbn in Hi. injection Hi as <- <-.
    exists i, v, t. split_and!; [done | done |].
    intros j v' t' Hj Hrj. apply (Hlast j (context_entry v' t') Hj).
    by rewrite list_lookup_fmap, Hrj.
  - intros (i & v & t & Hi & -> & Hlast). apply (Hs i).
    + by rewrite list_lookup_fmap, Hi.
    + intros j entry' Hj Hlj. rewrite list_lookup_fmap in Hlj.
      destruct (rows !! j) as [[[c' v'] t']|] eqn:Hrj; [|discriminate].
      cbn in Hlj. injection Hlj as -> _. by apply (Hlast j v' t').
Qed.

Lemma create_query_embedding_trace (model q : pystr) (w : world)
    (o : outcome (list F)) (w' : world) :
  EmbeddingService.create_query_embedding model q w = (o, w') ->
  history w' = history w /\ executed w' = executed w
  /\ (forall e, o = Raise e -> is_Exception e = false).
Proof.
  unfold EmbeddingService.create_query_embedding, try_except, lift, print, mbind, M_bind,
    mret, M_ret.
  destruct (EmbeddingService.embed_content _ _ _) as [emb | e].
  - intros [= <- <-]. done.
  - destruct (is_Exception e) eqn:He; intros [= <- <-]; [done |].
    split_and!; [done | done |]. by intros e' [= <-].
Qed.

Lemma search_loop_trace (self : SearchService F) (limit : Z) (threshold : F)
    (ns : list (pystr * dict F * F)) (acc : list (SearchResult F)) (w : world)
    (o : outcome (list (SearchResult F))) (w' : world) :
  search_loop self limit threshold ns acc w = (o, w') ->
  history w' = history w
  /\ (forall e, o = Raise e -> is_Exception e = false)
  /\ (forall res, o = Return res ->
        exists picked, res = acc ++ picked
                       /\ Forall (from_neighbour threshold ns) picked).
Proof.
  revert acc w. induction ns as [|[[doc md] d] ns IH]; intros acc w Hrun.
  - injection Hrun as <- <-. split_and!; [done | done |].
    intros res [= <-]. exists []. by rewrite app_nil_r.
  - cbn [search_loop] in Hrun.
    assert (forall picked,
              Forall (from_neighbour threshold ns) picked ->
              Forall (from_neighbour threshold ((doc, md, d) :: ns)) picked) as Hshift.
    { intros picked Hp. eapply Forall_impl; [exact Hp |].
      intros r (i & doc' & md' & d' & Hi & Hr). exists (S i), doc', md', d'. done. }
    destruct (f_ltb (f_sub f_one d) threshold) eqn:Hlt.
    { destruct (IH _ _ Hrun) as (Hh & Hr & Hres). split_and!; [done | done |].
      intros res Ho. destruct (Hres res Ho) as (picked & -> & Hp). eauto. }
    unfold mbind, M_bind in Hrun.
    destruct (_enhance_metadata_with_sql_context self md w) as [[md' | e] w1] eqn:Hmd.
    2: { injection Hrun as <- <-.
         destruct (enhance_metadata_trace self md w _ _ Hmd) as (Hh & _ & Hr & _).
         split_and!; [done | | done]. intros e' [= <-]. by apply Hr. }
    destruct (enhance_metadata_trace self md w _ _ Hmd) as (Hh & _ & _ & Hret).
    destruct (Hret md' eq_refl) as (Hkeys & _).
    assert (forall k dflt, k <> cps "numerical_context" ->
              dict_get md' k dflt = dict_get md k dflt) as Hget.
    { intros k dflt Hk. unfold dict_get. by rewrite Hkeys. }
    match type of Hrun with
    | context [acc ++ [?r]] => set (result := r) in *
    end.
    assert (from_neighbour threshold ((doc, md, d) :: ns) result) as Hresult.
    { exists 0%nat, doc, md, d. subst result. cbn [content score metadata source
        sr_row_index sr_column_name].
      split_and!; [done | done | done | done | done | | |].
      - by apply Hget.
      - by apply Hget.
      - by rewrite !Hget. }
    destruct (Z.of_nat (length (acc ++ [result])) >=? limit).
    + injection Hrun as <- <-. split_and!; [done | done |].
      intros res [= <-]. exists [result]. split; [done | by constructor].
    + destruct (IH _ _ Hrun) as (Hh' & Hr & Hres). split_and!; [congruence | done |].
      intros res Ho. destruct (Hres res Ho) as (picked & -> & Hp).
      exists (result :: picked). split; [by rewrite <- app_assoc |].
      constructor; [done | by apply Hshift].
Qed.

(** The steps of a returning run of [semantic_search]. *)
Lemma semantic_search_steps (self : SearchService F) (q : pystr) (limit : Z)
    (threshold : F) (resp : SearchResponse F) (w w' : world) :
  semantic_search self q limit threshold w = (Return resp, w') ->
  exists emb qr w3,
    vector_db self emb (limit * 2) = Return qr
    /\ Forall (from_neighbour threshold (listed_neighbours qr)) (results resp)
    /\ history w3 = history w
    /\ _log_search_history self q (cps "semantic") (length (results resp)) w3
       = (Return tt, w')
    /\ query resp = q /\ search_type resp = cps "semantic"
    /\ total_results resp = length (results resp)
    /\ suggestions resp = _generate_search_suggestions q (results resp).
Proof.
  unfold semantic_search. intros Hrun.
  apply bind_return_inv in Hrun as (emb & w1 & Hemb & Hrun).
  apply bind_return_inv in Hrun as (qr & w2 & Hq & Hrun).
  apply bind_return_inv in Hrun as (res & w3 & Hres & Hrun).
  apply bind_return_inv in Hrun as ([] & w4 & Hlog & Hrun).
  injection Hrun as <- <-. cbn [results total_results query search_type suggestions].
  unfold lift in Hq. injection Hq as Hq <-.
  apply create_query_embedding_trace in Hemb as (Hh1 & _ & _).
  exists emb, qr, w3. split_and!; try done.
  - unfold listed_neighbours. destruct (documents qr) as [|docs ?].
    + injection Hres as <- _. constructor.
    + apply bind_return_inv in Hres as (metas & ? & Hm & Hres).
      apply bind_return_inv in Hres as (dists & ? & Hd & Hres).
      destruct (metadatas qr) as [|metas' ?]; [discriminate |].
      destruct (distances qr) as [|dists' ?]; [discriminate |].
      injection Hm as -> <-. injection Hd as -> <-. cbn [hd].
      apply search_loop_trace in Hres as (_ & _ & Hret).
      destruct (Hret res eq_refl) as (picked & -> & Hp). done.
  - destruct (documents qr) as [|docs ?].
    + injection Hres as _ <-. done.
    + apply bind_return_inv in Hres as (metas & ? & Hm & Hres).
      apply bind_return_inv in Hres as (dists & ? & Hd & Hres).
      destruct (metadatas qr) as [|metas' ?]; [discriminate |].
      destruct (distances qr) as [|dists' ?]; [discriminate |].
      injection Hm as _ <-. injection Hd as _ <-.
      apply search_loop_trace in Hres as (Hh & _). congruence.
Qed.


(** X20. A search that returns writes at most one history row, the query
    with the kind semantic and the number of results returned: it writes
    that row when the service holds a session whose commit succeeds, and
    none without a session or when the commit fails with an exception. A
    failed history write does not fail the search. *)
Theorem semantic_search_history (self : SearchService F) (q : pystr)
    (limit : Z) (threshold : F) (resp : SearchResponse F) (w w' : world) :
  semantic_search self q limit threshold w = (Return resp, w') ->
  match db self with
  | None => history w' = history w
  | Some session =>
      match commit session with
      | Return _ => history w' = history w ++ [(q, cps "semantic", total_results resp)]
      | Raise e => history w' = history w /\ is_Exception e = true
      end
  end.
Proof.
  intros Hrun.
  destruct (semantic_search_steps self q limit threshold resp w w' Hrun)
    as (emb & qr & w3 & _ & _ & Hh & Hlog & _ & _ & -> & _).
  unfold _log_search_history in Hlog. destruct (db self) as [session|].
  - unfold try_except, db_add_commit, print in Hlog.
    destruct (commit session) as [[] | e].
    + injection Hlog as <-. cbn. by rewrite Hh.
    + destruct (is_Exception e); [|discriminate].
      injection Hlog as <-. cbn. by rewrite Hh.
  - injection Hlog as <-. done.
Qed.

End SearchFacts.

(* ===================================================================== *)
(** * The search endpoints *)
(* ===================================================================== *)

Section SearchEndpoints.
Import SearchService Endpoints.
Context {F : Type} {fops : FloatOps F} {fmt : Formatting F} {uc : Unicode}
        {provider : EmbeddingService.Provider F} {tm : TextModel} {re : Regex}.

(** X21. When the statement generated for a request holds one of the
    seven keywords and the service has a session, [natural_language_to_sql]
    raises the [ValueError] of the gate and the endpoint answers with
    status 500, the gate's message in the detail. Nothing was sent to the
    database and no history row was written. *)
Theorem generate_sql_query_rejects_unsafe (service : SearchService F)
    (session : AsyncSession F) (natural_query : pystr)
    (table_context : option (dict F)) (w w1 : world) (sql_query explanation : pystr) :
  db service = Some session ->
  _generate_sql_with_gemini natural_query _get_database_schema_context table_context w
  = (Return (sql_query, explanation), w1) ->
  Exists (fun kw => contains kw (upper sql_query) = true) unsafe_keywords ->
  exists kw,
    kw ∈ unsafe_keywords /\ contains kw (upper sql_query) = true
    /\ natural_language_to_sql service natural_query table_context w
       = (Raise (ValueError (cps "Unsafe SQL operation detected: " ++ kw)), w1)
    /\ generate_sql_query service natural_query table_context w
       = (Return (HTTPException 500
                    (cps "Error generating SQL query: "
                     ++ cps "Unsafe SQL operation detected: " ++ kw)), w1)
    /\ executed w1 = executed w /\ history w1 = history w.
Proof.
  intros Hdb Hgen Hbad.
  destruct (check_keywords_raises _ _ w1 Hbad) as (kw & Hin & Hc & Hcheck).
  assert (_execute_sql_safely service sql_query w1
          = (Raise (ValueError (cps "Unsafe SQL operation detected: " ++ kw)), w1))
    as Hexec.
  { unfold _execute_sql_safely. rewrite Hdb. by rewrite (bind_raise _ _ _ _ _ Hcheck). }
  assert (natural_language_to_sql service natural_query table_context w
          = (Raise (ValueError (cps "Unsafe SQL operation detected: " ++ kw)), w1))
    as Hrun.
  { unfold natural_language_to_sql. cbv zeta. rewrite (bind_return _ _ _ _ _ Hgen).
    by rewrite (bind_raise _ _ _ _ _ Hexec). }
  destruct (generated_sql_is_clean_aux _ _ _ _ _ _ _ Hgen) as (_ & _ & ? & ?).
  exists kw. split_and!; [done | done | done | | done | done].
  unfold generate_sql_query, try_except.
  rewrite (bind_raise _ _ _ _ _ Hrun). done.
Qed.

(** X22. When the vector store fails with an exception, the semantic
    endpoint answers with status 500 and the store's message in the
    detail, and no history row is written: the failed search leaves no
    trace but what the embedding step printed. *)
Theorem semantic_search_endpoint_store_failure (service : SearchService F)
    (q : pystr) (limit : Z) (threshold : F) (e : exn) (w : world) :
  (forall task_type,
     catchable (EmbeddingService.embed_content (model_name service) q task_type)) ->
  (forall emb, vector_db service emb (limit * 2) = Raise e) ->
  is_Exception e = true ->
  exists w',
    semantic_search_endpoint service q limit threshold w
    = (Return (HTTPException 500 (cps "Error performing semantic search: " ++ exn_str e)),
       w')
    /\ history w' = history w.
Proof.
  intros Hprov Hstore He.
  destruct (create_query_embedding_returns (model_name service) q w Hprov)
    as (emb & w1 & Hemb).
  pose proof (create_query_embedding_trace _ _ _ _ _ Hemb) as (Hh & _ & _).
  exists w1. split; [|done].
  unfold semantic_search_endpoint, try_except.
  assert (semantic_search service q limit threshold w = (Raise e, w1)) as Hrun.
  { unfold semantic_search. rewrite (bind_return _ _ _ _ _ Hemb).
    erewrite bind_raise; [done |]. unfold lift. by rewrite Hstore. }
  rewrite (bind_raise _ _ _ _ _ Hrun). by rewrite He.
Qed.

End SearchEndpoints.

(* ===================================================================== *)
(** * Ingest: embeddings and rows *)
(* ===================================================================== *)

Lemma chunks_concat {A} (b m : nat) (l : list A) :
  (length l <= m * b)%nat ->
  concat ((fun k => take b (drop (k * b) l)) <$> seq 0 m) = l.
Proof.
  revert l. induction m as [|m IH]; intros l Hl.
  - destruct l; [done | cbn in Hl; lia].
  - cbn [seq fmap list_fmap concat]. rewrite <- fmap_S_seq, <- list_fmap_compose.
    cbn [Nat.mul]. rewrite drop_0.
    transitivity (take b l ++ drop b l); [|apply take_drop]. f_equal.
    transitivity (concat ((fun k => take b (drop (k * b) (drop b l))) <$> seq 0 m));
      [|apply IH; rewrite length_drop; cbn [Nat.mul] in Hl; lia].
    f_equal. apply list_fmap_ext. intros _ k _. cbn [compose Nat.mul].
    by rewrite drop_drop.
Qed.

Lemma range_step_batches {A} (b : nat) (l : list A) :
  (0 < b)%nat ->
  concat ((fun i => take b (drop i l)) <$> EmbeddingService.range_step (length l) b) = l.
Proof.
  intros Hb. unfold EmbeddingService.range_step.
  change (List.map ?f ?x) with (f <$> x). rewrite <- list_fmap_compose.
  apply chunks_concat.
  pose proof (Nat.div_mod_eq (length l + b - 1) b) as Hdiv.
  pose proof (Nat.mod_upper_bound (length l + b - 1) b) as Hmod. nia.
Qed.

Section IngestFacts.
Import ExcelProcessor EmbeddingService.
Context {F : Type} {fops : FloatOps F} {provider : Provider F} {stores : Stores F}.

Lemma I_bind_return {A B} (m : I F A) (k : A -> I F B) (a : A) (s s' : ingest F) :
  m s = (Return a, s') -> (m ≫= k) s = k a s'.
Proof. intros Hm. unfold mbind, I_bind. by rewrite Hm. Qed.

Lemma I_bind_raise {A B} (m : I F A) (k : A -> I F B) (e : exn) (s s' : ingest F) :
  m s = (Raise e, s') -> (m ≫= k) s = (Raise e, s').
Proof. intros Hm. unfold mbind, I_bind. by rewrite Hm. Qed.

Lemma I_bind_inv {A B} (m : I F A) (k : A -> I F B) (o : outcome B) (s s' : ingest F) :
  (m ≫= k) s = (o, s') ->
  (exists a s1, m s = (Return a, s1) /\ k a s1 = (o, s'))
  \/ (exists e, m s = (Raise e, s') /\ o = Raise e).
Proof.
  unfold mbind, I_bind. destruct (m s) as [[a | e] s1]; [left; eauto |].
  intros [= <- <-]. right. eauto.
Qed.

Lemma lift_M_frame {A} (m : M A) (s : ingest F) (o : outcome A) (s' : ingest F) :
  lift_M m s = (o, s') ->
  m (out s) = (o, out s')
  /\ collection s' = collection s /\ pending s' = pending s /\ stored s' = stored s.
Proof.
  unfold lift_M. destruct (m (out s)) as [o1 w1]. by intros [= <- <-].
Qed.

(** The three ways a call of [_create_embedding] can end. *)
Lemma create_embedding_cases (model_name text : pystr) (w : world) :
  (exists emb,
     embed_content model_name text (cps "retrieval_document") = Return emb
     /\ _create_embedding model_name text w = (Return emb, w))
  \/ (exists e w',
        embed_content model_name text (cps "retrieval_document") = Raise e
        /\ is_Exception e = true
        /\ _create_embedding model_name text w = (Return zero_vector, w')
        /\ executed w' = executed w /\ history w' = history w)
  \/ (exists e,
        embed_content model_name text (cps "retrieval_document") = Raise e
        /\ is_Exception e = false
        /\ _create_embedding model_name text w = (Raise e, w)).
Proof.
  unfold _create_embedding, try_except, lift, print, mbind, M_bind, mret, M_ret.
  destruct (embed_content _ _ _) as [emb | e]; [left; eauto |].
  destruct (is_Exception e) eqn:He; [right; left | right; right]; eauto 8.
Qed.

Lemma create_embedding_trace (model_name text : pystr) (w : world)
    (o : outcome (list F)) (w' : world) :
  _create_embedding model_name text w = (o, w') ->
  executed w' = executed w /\ history w' = history w
  /\ (forall emb, o = Return emb -> embedding_of model_name text emb)
  /\ (forall e, o = Raise e ->
        embed_content model_name text (cps "retrieval_document") = Raise e
        /\ is_Exception e = false /\ w' = w).
Proof.
  intros Hrun.
  destruct (create_embedding_cases model_name text w)
    as [(emb & Hp & Hc) | [(e & w1 & Hp & He & Hc & Hx & Hh) | (e & Hp & He & Hc)]];
    rewrite Hc in Hrun; injection Hrun as <- <-.
  - split_and!; [done | done | | done]. intros emb' [= <-]. by left.
  - split_and!; [done | done | | done]. intros emb' [= <-]. right. eauto.
  - split_and!; [done | done | done |]. by intros e' [= <-].
Qed.

Lemma create_batch_loop_trace (model_name : pystr) (batch : list (ExcelDataPoint F))
    (headers : list pystr) (acc : list (list F)) (w : world)
    (o : outcome (list (list F))) (w' : world) :
  create_batch_loop model_name batch headers acc w = (o, w') ->
  executed w' = executed w /\ history w' = history w
  /\ (forall embs, o = Return embs ->
        exists new, embs = acc ++ new
          /\ Forall2 (fun dp emb =>
                        embedding_of model_name (_create_context_text dp headers) emb)
               batch new)
  /\ (forall e, o = Raise e -> is_Exception e = false).
Proof.
  revert acc w. induction batch as [|dp batch IH]; intros acc w Hrun.
  - injection Hrun as <- <-. split_and!; [done | done | | done].
    intros embs [= <-]. exists []. by rewrite app_nil_r.
  - cbn [create_batch_loop] in Hrun. unfold mbind, M_bind in Hrun.
    destruct (_create_embedding model_name (_create_context_text dp headers) w)
      as [[emb | e] w1] eqn:Hemb;
      apply create_embedding_trace in Hemb as (Hx & Hh & Hret & Hraise).
    + destruct (IH _ _ Hrun) as (Hx' & Hh' & Hret' & Hraise').
      split_and!; [congruence | congruence | | done].
      intros embs Ho. destruct (Hret' embs Ho) as (new & -> & Hnew).
      exists (emb :: new). split; [by rewrite <- app_assoc |].
      constructor; [by apply Hret | done].
    + injection Hrun as <- <-. split_and!; [done | done | done |].
      intros e' [= <-]. by destruct (Hraise e eq_refl) as (_ & ? & _).
Qed.

(** X23. With a provider whose calls are not cancelled,
    [_create_batch_embeddings] returns one embedding for each point of the
    batch, in order: the provider's answer for the point's context text,
    or the zero vector where the provider failed, so a provider failure
    never shortens the list. It sends nothing to the database and writes
    no history. *)
Theorem create_batch_embeddings_one_per_point (model_name : pystr)
    (batch : list (ExcelDataPoint F)) (headers : list pystr) (w : world) :
  (forall dp, dp ∈ batch ->
     catchable (embed_content model_name (_create_context_text dp headers)
                  (cps "retrieval_document"))) ->
  exists embeddings w',
    _create_batch_embeddings model_name batch headers w = (Return embeddings, w')
    /\ Forall2 (fun dp emb =>
                  embedding_of model_name (_create_context_text dp headers) emb)
         batch embeddings
    /\ length embeddings = length batch
    /\ executed w' = executed w /\ history w' = history w.
Proof.
  intros Hc. unfold _create_batch_embeddings.
  destruct (create_batch_loop model_name batch headers [] w) as [o w'] eqn:Hrun.
  pose proof (create_batch_loop_trace _ _ _ _ _ _ _ Hrun) as (Hx & Hh & Hret & _).
  assert (exists embs, o = Return embs) as [embs ->].
  { clear Hret Hx Hh. revert Hrun. generalize (@nil (list F)). revert w.
    induction batch as [|dp batch IH]; intros w acc Hrun.
    - injection Hrun as <- _. eauto.
    - cbn [create_batch_loop] in Hrun. unfold mbind, M_bind in Hrun.
      destruct (_create_embedding model_name (_create_context_text dp headers) w)
        as [[emb | e] w1] eqn:Hemb.
      + eapply IH; [|exact Hrun]. intros dp' Hdp'. apply Hc. by right.
      + apply create_embedding_trace in Hemb as (_ & _ & _ & Hraise).
        destruct (Hraise e eq_refl) as (Hp & He & _).
        assert (is_Exception e = true) by (eapply Hc; [left | exact Hp]). congruence. }
  destruct (Hret embs eq_refl) as (new & -> & Hnew). cbn [app].
  exists new, w'. split_and!; [done | done | | done | done].
  symmetry. by eapply Forall2_length.
Qed.

Lemma store_embedding_trace (embedding : list F) (text : pystr) (md : entry_metadata)
    (doc_id : pystr) (s : ingest F) (o : outcome unit) (s' : ingest F) :
  _store_embedding_in_chromadb embedding text md doc_id s = (o, s') ->
  pending s' = pending s /\ stored s' = stored s
  /\ match o with
     | Return _ =>
         collection s' = collection s ++ [{| ve_embedding := embedding; ve_document := text;
                                             ve_metadata := md; ve_id := doc_id |}]
     | Raise e =>
         collection s' = collection s
         /\ vector_add (collection s)
              {| ve_embedding := embedding; ve_document := text;
                 ve_metadata := md; ve_id := doc_id |} = Raise e
     end.
Proof.
  unfold _store_embedding_in_chromadb, I_try_except, collection_add.
  destruct (vector_add _ _) as [[] | e].
  - by intros [= <- <-].
  - destruct (is_Exception e); [|by intros [= <- <-]].
    unfold mbind, I_bind, lift_M, print, I_raise. by intros [= <- <-].
Qed.

Lemma store_batch_trace (headers : list pystr) (file_id : Z)
    (pairs : list (ExcelDataPoint F * list F)) (n : nat) (s : ingest F)
    (o : outcome nat) (s' : ingest F) :
  store_batch headers file_id pairs n s = (o, s') ->
  exists k,
    collection s' = collection s ++ (data_entry headers file_id <$> take k pairs)
    /\ pending s' = pending s ++ (text_row file_id <$> (take k pairs).*1)
    /\ stored s' = stored s
    /\ match o with
       | Return n' => k = length pairs /\ n' = (n + length pairs)%nat
       | Raise e => (k < length pairs)%nat
       end.
Proof.
  revert n s. induction pairs as [|[dp emb] pairs IH]; intros n s Hrun.
  - injection Hrun as <- <-. exists 0%nat. cbn. rewrite !app_nil_r.
    split_and!; try done; lia.
  - cbn [store_batch] in Hrun.
    apply I_bind_inv in Hrun as [([] & s1 & Hadd & Hrun) | (e & Hadd & ->)].
    + apply store_embedding_trace in Hadd as (Hp1 & Hs1 & Hc1).
      apply I_bind_inv in Hrun as [([] & s2 & Href & Hrun) | (e & Href & ->)];
        [|discriminate].
      injection Href as <-.
      destruct (IH _ _ Hrun) as (k & Hc & Hp & Hs & Ho).
      exists (S k). cbn [take fmap list_fmap] in *. cbn in Hc, Hp, Hs.
      split_and!.
      * rewrite Hc, Hc1, <- app_assoc. done.
      * rewrite Hp, Hp1, <- app_assoc. done.
      * congruence.
      * destruct o; cbn [length]; [|lia]. destruct Ho as [-> ->]. split; lia.
    + apply store_embedding_trace in Hadd as (Hp1 & Hs1 & Hc1 & _).
      exists 0%nat. cbn. rewrite !app_nil_r. split_and!; [done | done | done | lia].
Qed.

Lemma batches_loop_trace (model_name : pystr) (text_data : list (ExcelDataPoint F))
    (headers : list pystr) (file_id : Z) (batch_size : nat) (starts : list nat)
    (n : nat) (s : ingest F) (o : outcome nat) (s' : ingest F) :
  batches_loop model_name text_data headers file_id batch_size starts n s = (o, s') ->
  let batches := (fun i => take batch_size (drop i text_data)) <$> starts in
  exists pairs,
    collection s' = collection s ++ (data_entry headers file_id <$> pairs)
    /\ pending s' = pending s ++ (text_row file_id <$> pairs.*1)
    /\ stored s' = stored s
    /\ Forall (fun pair => embedding_of model_name (_create_context_text pair.1 headers)
                             pair.2) pairs
    /\ pairs.*1 `prefix_of` concat batches
    /\ (forall n', o = Return n' ->
          pairs.*1 = concat batches /\ n' = (n + length (concat batches))%nat).
Proof.
  cbn zeta. revert n s. induction starts as [|i starts IH]; intros n s Hrun.
  - injection Hrun as <- <-. exists []. cbn. rewrite !app_nil_r.
    split_and!; try done. intros n' [= <-]. split; [done | lia].
  - cbn [batches_loop] in Hrun. cbn [fmap list_fmap concat].
    set (batch := take batch_size (drop i text_data)) in *.
    apply I_bind_inv in Hrun as [(embs & s1 & Hemb & Hrun) | (e & Hemb & ->)].
    2: { apply lift_M_frame in Hemb as (_ & Hc & Hp & Hs).
         exists []. cbn. rewrite !app_nil_r. split_and!; try done.
         apply prefix_nil. }
    apply lift_M_frame in Hemb as (Hemb & Hc1 & Hp1 & Hs1).
    apply create_batch_loop_trace in Hemb as (_ & _ & Hret & _).
    destruct (Hret embs eq_refl) as (new & -> & Hnew). cbn [app] in Hrun.
    assert ((zip batch new).*1 = batch) as Hfst.
    { apply fst_zip. by rewrite (Forall2_length _ _ _ Hnew). }
    assert (Forall (fun pair : ExcelDataPoint F * list F =>
                      embedding_of model_name (_create_context_text pair.1 headers) pair.2)
              (zip batch new)) as Hzip.
    { clear -Hnew. induction Hnew; constructor; done. }
    apply I_bind_inv in Hrun as [(n1 & s2 & Hstore & Hrun) | (e & Hstore & ->)].
    + apply store_batch_trace in Hstore as (k & Hc2 & Hp2 & Hs2 & -> & ->).
      rewrite firstn_all in Hc2, Hp2.
      destruct (IH _ _ Hrun) as (pairs & Hc & Hp & Hs & Hall & Hpre & Ho).
      exists (zip batch new ++ pairs). rewrite !fmap_app, Hfst.
      split_and!.
      * rewrite Hc, Hc2, Hc1, <- app_assoc. done.
      * rewrite Hp, Hp2, Hp1, Hfst, <- app_assoc. done.
      * congruence.
      * by apply Forall_app.
      * by apply prefix_app.
      * intros n' Hn'. destruct (Ho n' Hn') as [-> ->]. split; [done |].
        assert (length (zip batch new) = length batch) as Hlen
          by (rewrite <- Hfst at 2; by rewrite length_fmap).
        rewrite length_app. lia.
    + apply store_batch_trace in Hstore as (k & Hc2 & Hp2 & Hs2 & Hk).
      exists (take k (zip batch new)). split_and!.
      * rewrite Hc2, Hc1. done.
      * rewrite Hp2, Hp1. done.
      * congruence.
      * by apply Forall_take.
      * rewrite fmap_take, Hfst. etrans; [apply prefix_take |].
        by apply prefix_app_r.
      * done.
Qed.

(** The ways [_create_and_store_embeddings] can end. *)
Lemma create_and_store_embeddings_trace (model_name : pystr)
    (text_data : list (ExcelDataPoint F)) (headers : list pystr) (file_id : Z)
    (s : ingest F) (o : outcome nat) (s' : ingest F) :
  _create_and_store_embeddings model_name text_data headers file_id s = (o, s') ->
  match o with
  | Return n =>
      n = (1 + length text_data)%nat
      /\ pending s' = []
      /\ exists header_embedding pairs,
           pairs.*1 = text_data
           /\ embedding_of model_name (cps "Headers: " ++ join (cps " | ") headers)
                header_embedding
           /\ Forall (fun pair =>
                        embedding_of model_name (_create_context_text pair.1 headers) pair.2)
                pairs
           /\ collection s'
              = collection s ++ header_entry headers file_id header_embedding
                                :: (data_entry headers file_id <$> pairs)
           /\ stored s' = stored s ++ pending s ++ (text_row file_id <$> text_data)
  | Raise e =>
      stored s' = stored s
      /\ collection s `prefix_of` collection s'
      /\ pending s `prefix_of` pending s'
  end.
Proof.
  unfold _create_and_store_embeddings. cbv zeta. intros Hrun.
  apply I_bind_inv in Hrun as [(hemb & s1 & Hemb & Hrun) | (e & Hemb & ->)].
  2: { apply lift_M_frame in Hemb as (_ & -> & -> & ->). done. }
  apply lift_M_frame in Hemb as (Hemb & Hc1 & Hp1 & Hs1).
  apply create_embedding_trace in Hemb as (_ & _ & Hhemb & _).
  specialize (Hhemb hemb eq_refl).
  apply I_bind_inv in Hrun as [([] & s2 & Hadd & Hrun) | (e & Hadd & ->)].
  2: { apply store_embedding_trace in Hadd as (-> & -> & -> & _).
       rewrite Hc1, Hp1, Hs1. done. }
  apply store_embedding_trace in Hadd as (Hp2 & Hs2 & Hc2).
  apply I_bind_inv in Hrun as [(n & s3 & Hloop & Hrun) | (e & Hloop & ->)].
  2: { apply batches_loop_trace in Hloop as (pairs & Hc & Hp & Hs & _).
       rewrite Hs, Hs2, Hs1, Hc, Hc2, Hc1, Hp, Hp2, Hp1.
       split_and!; [done | | by apply prefix_app_r].
       rewrite <- app_assoc. by apply prefix_app_r. }
  apply batches_loop_trace in Hloop as (pairs & Hc & Hp & Hs & Hall & _ & Ho).
  destruct (Ho n eq_refl) as [Hfst ->].
  rewrite range_step_batches in Hfst by lia.
  rewrite range_step_batches in Hrun by lia. clear Ho.
  apply I_bind_inv in Hrun as [([] & s4 & Hcommit & Hrun) | (e & Hcommit & ->)].
  - injection Hrun as <- <-. unfold db_commit in Hcommit.
    destruct (session_commit (stored s3) (pending s3)); [|discriminate].
    injection Hcommit as <-. cbn [pending collection stored].
    split_and!; [done | done |]. exists hemb, pairs.
    split_and!; [done | done | done | |].
    + rewrite Hc, Hc2, Hc1, <- app_assoc. done.
    + rewrite Hs, Hs2, Hs1, Hp, Hp2, Hp1, Hfst. done.
  - unfold db_commit in Hcommit.
    destruct (session_commit (stored s3) (pending s3)); [discriminate |].
    injection Hcommit as _ <-.
    rewrite Hs, Hs2, Hs1, Hc, Hc2, Hc1, Hp, Hp2, Hp1.
    split_and!; [done | | by apply prefix_app_r].
    rewrite <- app_assoc. by apply prefix_app_r.
Qed.

(** X24. When [_create_and_store_embeddings] returns, it returns one more
    than the number of text points: the vector collection has gained the
    header entry and then one entry for each text point, in order, none
    lost at the boundary between two batches of ten; each entry carries
    the embedding made for its own context text, or the zero vector. The
    session has committed one row for each text point, after the rows
    that were pending, and nothing is left pending. *)
Theorem create_and_store_embeddings_stores_all (model_name : pystr)
    (text_data : list (ExcelDataPoint F)) (headers : list pystr) (file_id : Z)
    (s s' : ingest F) (n : nat) :
  _create_and_store_embeddings model_name text_data headers file_id s = (Return n, s') ->
  n = (1 + length text_data)%nat
  /\ pending s' = []
  /\ exists header_embedding pairs,
       pairs.*1 = text_data
       /\ embedding_of model_name (cps "Headers: " ++ join (cps " | ") headers)
            header_embedding
       /\ Forall (fun pair =>
                    embedding_of model_name (_create_context_text pair.1 headers) pair.2)
            pairs
       /\ collection s'
          = collection s ++ header_entry headers file_id header_embedding
                            :: (data_entry headers file_id <$> pairs)
       /\ stored s' = stored s ++ pending s ++ (text_row file_id <$> text_data).
Proof.
  intros Hrun. by apply create_and_store_embeddings_trace in Hrun.
Qed.

(** X25. When [_create_and_store_embeddings] raises, no row has been
    committed: the rows added for the points already embedded are left
    pending. The entries already added to the vector collection stay
    there, so the collection can hold entries whose rows were never
    stored. *)
Theorem create_and_store_embeddings_failure_commits_nothing (model_name : pystr)
    (text_data : list (ExcelDataPoint F)) (headers : list pystr) (file_id : Z)
    (s s' : ingest F) (e : exn) :
  _create_and_store_embeddings model_name text_data headers file_id s = (Raise e, s') ->
  stored s' = stored s
  /\ collection s `prefix_of` collection s'
  /\ pending s `prefix_of` pending s'.
Proof.
  intros Hrun. by apply create_and_store_embeddings_trace in Hrun.
Qed.

Lemma store_numerical_loop_run (numerical_data : list (ExcelDataPoint F)) (file_id : Z)
    (count : nat) (s : ingest F) :
  store_numerical_loop numerical_data file_id count s
  = (Return (count + length numerical_data)%nat,
     {| out := out s; collection := collection s;
        pending := pending s ++ (numerical_row file_id <$> numerical_data);
        stored := stored s |}).
Proof.
  revert count s. induction numerical_data as [|dp nd IH]; intros count s.
  - cbn. rewrite app_nil_r, Nat.add_0_r. by destruct s.
  - cbn [store_numerical_loop]. unfold mbind, I_bind, db_add. rewrite IH.
    cbn [out collection pending stored length fmap list_fmap]. rewrite <- app_assoc.
    replace (count + 1 + length nd)%nat with (count + S (length nd))%nat by lia. done.
Qed.

(** X26. [_store_numerical_metadata] adds one row for each numerical
    point, in order, with the point's number and type and with neither a
    text value nor an embedding id, and commits. When the commit succeeds
    it returns the number of points, with every pending row stored; when
    the commit fails it raises and the rows are left pending. It never
    touches the vector collection and prints nothing. *)
Theorem store_numerical_metadata_rows (numerical_data : list (ExcelDataPoint F))
    (file_id : Z) (s : ingest F) :
  let run := _store_numerical_metadata numerical_data file_id s in
  let rows := pending s ++ (numerical_row file_id <$> numerical_data) in
  collection run.2 = collection s /\ out run.2 = out s
  /\ match run.1 with
     | Return count =>
         count = length numerical_data
         /\ session_commit (stored s) rows = Return tt
         /\ pending run.2 = [] /\ stored run.2 = stored s ++ rows
     | Raise e =>
         session_commit (stored s) rows = Raise e
         /\ pending run.2 = rows /\ stored run.2 = stored s
     end.
Proof.
  cbn zeta. unfold _store_numerical_metadata.
  rewrite (I_bind_return _ _ _ _ _ (store_numerical_loop_run _ _ _ _)).
  unfold mbind, I_bind, db_commit. cbn [stored pending out collection].
  destruct (session_commit _ _) as [[] | e]; cbn; done.
Qed.

Lemma store_numerical_metadata_trace (numerical_data : list (ExcelDataPoint F))
    (file_id : Z) (s : ingest F) (o : outcome nat) (s' : ingest F) :
  _store_numerical_metadata numerical_data file_id s = (o, s') ->
  collection s' = collection s
  /\ match o with
     | Return count =>
         count = length numerical_data
         /\ pending s' = []
         /\ stored s' = stored s ++ pending s ++ (numerical_row file_id <$> numerical_data)
     | Raise e => stored s' = stored s
     end.
Proof.
  unfold _store_numerical_metadata.
  rewrite (I_bind_return _ _ _ _ _ (store_numerical_loop_run _ _ _ _)).
  unfold mbind, I_bind, db_commit. cbn [stored pending out collection].
  destruct (session_commit _ _) as [[] | e]; intros [= <- <-]; cbn; done.
Qed.

Lemma store_file_metadata_trace (processed_data : ProcessedExcelData F)
    (original_filename : pystr) (s : ingest F)
    (o : outcome (ExcelFile * Z)) (s' : ingest F) :
  _store_file_metadata processed_data original_filename s = (o, s') ->
  let file := file_row processed_data original_filename in
  collection s' = collection s /\ out s' = out s
  /\ match o with
     | Return (excel_file, file_id) =>
         excel_file = file
         /\ session_refresh (stored s ++ pending s ++ [FileRecord file]) file
            = Return file_id
         /\ pending s' = []
         /\ stored s' = stored s ++ pending s ++ [FileRecord file]
     | Raise e =>
         stored s' = stored s \/ stored s' = stored s ++ pending s ++ [FileRecord file]
     end.
Proof.
  unfold _store_file_metadata. cbv zeta. fold (file_row processed_data original_filename).
  unfold mbind, I_bind, db_add, db_commit, db_refresh, mret, I_ret.
  cbn [stored pending out collection].
  destruct (session_commit _ _) as [[] | e]; [|intros [= <- <-]; cbn; auto].
  cbn [stored pending out collection].
  destruct (session_refresh _ _) as [file_id | e] eqn:Href; intros [= <- <-]; cbn;
    split_and?; auto.
Qed.

(** X27. When [process_and_store_data] returns, the metadata count is the
    number of numerical points and the embeddings count is zero for a
    sheet without text points and one more than their number otherwise:
    the headers are embedded only when some text point is. The session has
    committed, after the rows that were pending, the file row, then one
    row for each text point and one for each numerical point, all under
    the id the database gave the file row; nothing is left pending. *)
Theorem process_and_store_data_counts (model_name : pystr)
    (processed_data : ProcessedExcelData F) (original_filename : pystr)
    (s s' : ingest F) (counts : IngestCounts) :
  process_and_store_data model_name processed_data original_filename s
  = (Return counts, s') ->
  let file := file_row processed_data original_filename in
  metadata_count counts = length (numerical_data processed_data)
  /\ embeddings_count counts
     = match text_data processed_data with
       | [] => 0%nat
       | _ => (1 + length (text_data processed_data))%nat
       end
  /\ pending s' = []
  /\ exists file_id,
       session_refresh (stored s ++ pending s ++ [FileRecord file]) file = Return file_id
       /\ stored s'
          = stored s ++ pending s ++ FileRecord file
              :: (text_row file_id <$> text_data processed_data)
              ++ (numerical_row file_id <$> numerical_data processed_data)
       /\ ve_id <$> collection s'
          = (ve_id <$> collection s)
            ++ match text_data processed_data with
               | [] => []
               | _ => header_doc_id file_id
                      :: (data_doc_id file_id <$> text_data processed_data)
               end.
Proof.
  intros Hrun. cbn zeta. unfold process_and_store_data in Hrun.
  apply I_bind_inv in Hrun as [([excel_file file_id] & s1 & Hfile & Hrun) | (e & _ & [=])].
  apply store_file_metadata_trace in Hfile as (Hc1 & _ & _ & Href & Hp1 & Hs1).
  apply I_bind_inv in Hrun as [(n & s2 & Htext & Hrun) | (e & _ & [=])].
  apply I_bind_inv in Hrun as [(m & s3 & Hnum & Hrun) | (e & _ & [=])].
  injection Hrun as <- <-. cbn [metadata_count embeddings_count].
  apply store_numerical_metadata_trace in Hnum as (Hc3 & -> & Hp3 & Hs3).
  destruct (text_data processed_data) as [|dp td] eqn:Htd.
  - injection Htext as <- <-.
    split_and!; [done | done | done |]. exists file_id.
    split_and!; [done | |].
    + rewrite Hs3, Hs1, Hp1. cbn. by rewrite <- !app_assoc.
    + rewrite Hc3, Hc1. by rewrite app_nil_r.
  - apply create_and_store_embeddings_trace in Htext
      as (-> & Hp2 & hemb & pairs & Hfst & _ & _ & Hc2 & Hs2).
    split_and!; [done | done | done |]. exists file_id.
    split_and!; [done | |].
    + rewrite Hs3, Hp2, Hs2, Hs1, Hp1. cbn. rewrite <- !app_assoc. cbn. done.
    + rewrite Hc3, Hc2, Hc1, fmap_app. f_equal. cbn [fmap list_fmap]. f_equal.
      change (data_doc_id file_id dp :: (data_doc_id file_id <$> td))
        with (data_doc_id file_id <$> dp :: td).
      rewrite <- Hfst, <- !list_fmap_compose. done.
Qed.

End IngestFacts.

(* ===================================================================== *)
(** * Ingest: document ids and context texts *)
(* ===================================================================== *)

Lemma cps_inj (a b : string) : cps a = cps b -> a = b.
Proof.
  unfold cps. intros Hab.
  rewrite <- (string_of_list_ascii_of_string a), <- (string_of_list_ascii_of_string b).
  f_equal. revert Hab. generalize (list_ascii_of_string a) (list_ascii_of_string b).
  induction l as [|x l IH]; intros [|y l']; cbn; try done.
  intros [= Hxy Hl]. f_equal; [|by apply IH].
  by rewrite <- (ascii_N_embedding x), <- (ascii_N_embedding y), Hxy.
Qed.

Lemma str_of_int_inj (n m : Z) : str_of_int n = str_of_int m -> n = m.
Proof.
  unfold str_of_int. intros Hnm%cps_inj. apply DecimalZ.to_int_inj.
  assert (forall z, Z.to_int z <> Decimal.Pos Decimal.Nil
                    /\ Z.to_int z <> Decimal.Neg Decimal.Nil) as Hnn.
  { intros [|p|p]; cbn; split; try done; intros [= Hp];
      by apply DecimalPos.Unsigned.to_uint_nonnil in Hp. }
  assert (Some (Z.to_int n) = Some (Z.to_int m)) as [= ->]; [|done].
  rewrite <- (NilZero.isi (Z.to_int n)), <- (NilZero.isi (Z.to_int m)), Hnm;
    [done | apply Hnn..].
Qed.

Lemma app_delim_inj (d : N) (a a' r r' : pystr) :
  d ∉ a -> d ∉ a' -> a ++ d :: r = a' ++ d :: r' -> a = a' /\ r = r'.
Proof.
  revert a'. induction a as [|x a IH]; intros [|y a'] Ha Ha'; cbn.
  - by intros [= <-].
  - intros [= <- _]. exfalso. apply Ha'. by left.
  - intros [= -> _]. exfalso. apply Ha. by left.
  - intros [= <- Hrest]. apply not_elem_of_cons in Ha as [_ Ha].
    apply not_elem_of_cons in Ha' as [_ Ha'].
    destruct (IH a' Ha Ha' Hrest) as [-> ->]. done.
Qed.

Lemma str_of_int_no_underscore (n : Z) : 95%N ∉ str_of_int n.
Proof.
  intros Hin. pose proof (str_of_int_chars n) as Hall.
  rewrite Forall_forall in Hall. destruct (Hall _ Hin) as [? | ?]; lia.
Qed.

Section DocumentIds.
Import ExcelProcessor EmbeddingService.
Context {F : Type} {fops : FloatOps F} {rt : Builtins F}.

(** X28. The id under which a text point is filed in the vector
    collection determines the file id, the row index and the column name:
    two points get the same id only when they agree on all three, so
    within a file the id names one cell. It is never the id of the header
    entry of any file. *)
Theorem data_doc_id_injective (file_id file_id' : Z) (dp dp' : ExcelDataPoint F) :
  (data_doc_id file_id dp = data_doc_id file_id' dp' ->
   file_id = file_id' /\ row_index dp = row_index dp'
   /\ column_name dp = column_name dp')
  /\ data_doc_id file_id dp <> header_doc_id file_id'.
Proof.
  unfold data_doc_id, header_doc_id.
  change (cps "_row_") with (95%N :: cps "row_").
  change (cps "_col_") with (95%N :: cps "col_").
  change (cps "_headers") with (95%N :: cps "headers").
  split.
  - intros Heq. apply app_inv_head in Heq.
    apply app_delim_inj in Heq as [Hf Heq]; try apply str_of_int_no_underscore.
    apply app_inv_head in Heq.
    apply app_delim_inj in Heq as [Hr Heq]; try apply str_of_int_no_underscore.
    apply app_inv_head in Heq.
    split_and!; [by apply str_of_int_inj | by apply str_of_int_inj | done].
  - intros Heq. apply app_inv_head in Heq.
    apply app_delim_inj in Heq as [_ Heq]; try apply str_of_int_no_underscore.
    discriminate.
Qed.

Lemma create_data_point_text (row_idx : Z) (col : pystr) (value : cell F) :
  dp_type (_create_data_point row_idx col value) = text ->
  _create_data_point row_idx col value
  = {| row_index := row_idx; column_name := col;
       text_value := Some (strip (py_str value)); dp_type := text;
       numerical_value := None; dp_formula := None |}
  /\ startswith (cps "=") (strip (py_str value)) = false.
Proof.
  unfold _create_data_point. destruct (_is_numerical value).
  - cbv beta iota delta [dp_type]. unfold _classify_numerical_type.
    destruct (_ || _); [done |]. destruct (existsb _ _); [done |].
    by destruct (_ && _).
  - destruct (startswith (cps "=") (strip (py_str value))); [done |]. done.
Qed.

Lemma separate_text_points (df : DataFrame F) (headers : list pystr) :
  Forall (fun dp => dp_type dp = text
                    /\ exists row_idx col value, dp = _create_data_point row_idx col value)
    (_separate_data_types df headers).1.
Proof.
  unfold _separate_data_types. rewrite separate_rows_app. cbn [fst snd app].
  apply Forall_forall. intros p Hp.
  apply list_elem_of_In, in_concat in Hp as (l & Hl%list_elem_of_In & Hp).
  apply elem_of_lookup_imap in Hl as (i & row & -> & Hrow).
  apply in_flat_map in Hp as (col & Hcol%list_elem_of_In & Hp%list_elem_of_In).
  simpl in Hp.
  destruct (separate_cell_single df i row col) as (_ & Ht & _).
  apply Ht in Hp as (-> & Htype & _). eauto.
Qed.

(** X29. A text point the extractor hands to ingest is embedded under a
    context text of two parts, the column and the value: its text is the
    cell's string without surrounding whitespace, it does not start with
    an equals sign, and the point carries no formula, so the formula part
    of the context text never appears on this path. *)
Theorem extracted_text_has_no_formula_context (df : DataFrame F)
    (headers embedded_headers : list pystr) :
  Forall (fun dp =>
            exists v, text_value dp = Some v /\ strip v = v
                      /\ startswith (cps "=") v = false
                      /\ dp_formula dp = None
                      /\ _create_context_text dp embedded_headers
                         = cps "Column: " ++ column_name dp ++ cps " | "
                           ++ cps "Value: " ++ v)
    (_separate_data_types df headers).1.
Proof.
  eapply Forall_impl; [apply separate_text_points |].
  intros dp (Htype & i & col & value & ->).
  apply create_data_point_text in Htype as [-> Hstart].
  exists (strip (py_str value)).
  split_and!; [done | apply strip_idemp | done | done | done].
Qed.

End DocumentIds.

(* ===================================================================== *)
(** * The upload endpoint *)
(* ===================================================================== *)

Section UploadEndpoint.
Import ExcelProcessor EmbeddingService Endpoints.
Context {F : Type} {fops : FloatOps F} {rt : Builtins F} {uc : Unicode}
        {pandas : Pandas F} {hashing : Hashing}
        {provider : Provider F} {stores : Stores F}.

(** X30. [upload_excel_file] never answers with its success body. A file
    name that ends in none of .xlsx, .xls and .csv gets status 400 and
    nothing is touched. When the file is processed and its data stored, the
    endpoint then reads the processed data by subscript, which that type
    does not support, and answers with status 500 after the rows were
    committed and the embeddings added. *)
Theorem upload_excel_file_never_succeeds (processor : ExcelProcessor)
    (model_name filename : pystr) (file_content : list Byte.byte) (s : ingest F) :
  let run := upload_excel_file processor model_name filename file_content s in
  (forall body, run.1 <> Return (Ok body))
  /\ (existsb (fun ext => endswith ext (lower filename))
              [cps ".xlsx"; cps ".xls"; cps ".csv"] = false ->
      run = (Return (HTTPException 400
                       (cps "Invalid file type. Only Excel (.xlsx, .xls) and CSV files are supported.")),
             s))
  /\ (forall data s1 counts s2,
        existsb (fun ext => endswith ext (lower filename))
                [cps ".xlsx"; cps ".xls"; cps ".csv"] = true ->
        lift_M (process_file processor file_content filename) s = (Return data, s1) ->
        process_and_store_data model_name data filename s1 = (Return counts, s2) ->
        run = (Return (HTTPException 500
                         (cps "Error processing file: "
                          ++ cps "'ProcessedExcelData' object is not subscriptable")),
               s2)).
Proof.
  cbn zeta. unfold upload_excel_file.
  destruct (existsb _ _) eqn:Hext; cbn [negb].
  2: { split_and!; [done | done | done]. }
  split_and!; [| done |].
  - intros body. unfold I_try_except.
    match goal with
    | |- context [match ?b s with _ => _ end] => destruct (b s) as [[r | e] s'] eqn:Hbody
    end.
    + exfalso.
      apply I_bind_inv in Hbody as [(data & s1 & _ & Hbody) | (e & _ & [=])].
      apply I_bind_inv in Hbody as [(counts & s2 & _ & Hbody) | (e & _ & [=])].
      apply I_bind_inv in Hbody as [(hs & s3 & Hsub & _) | (e & _ & [=])].
      discriminate.
    + cbn. destruct (is_Exception e); cbn; done.
  - intros data s1 counts s2 _ Hfile Hstore. unfold I_try_except.
    rewrite (I_bind_return _ _ _ _ _ Hfile), (I_bind_return _ _ _ _ _ Hstore).
    done.
Qed.

End UploadEndpoint.

(* ===================================================================== *)
(** * The theorems on the stand-ins *)
(* ===================================================================== *)

(** A statement the sales session answers with two rows. *)
Lemma execute_sql_safely_returns_rows_witness :
  exists results,
    SearchService._execute_sql_safely (uc := ascii_case_only) sales_service
      (cps "SELECT * FROM spreadsheet_data LIMIT 5") world0
    = (Return results,
       {| stdout := stdout world0;
          executed := executed world0 ++ [cps "SELECT * FROM spreadsheet_data LIMIT 5"];
          history := history world0 |})
    /\ length results
       = length [[SearchService.VInt 0; SearchService.VStr (cps "Quota");
                  SearchService.VFloat 1.5%float];
                 [SearchService.VInt 1; SearchService.VStr (cps "Quota");
                  SearchService.VFloat 0.5%float]]
    /\ (forall k row,
          [[SearchService.VInt 0; SearchService.VStr (cps "Quota");
            SearchService.VFloat 1.5%float];
           [SearchService.VInt 1; SearchService.VStr (cps "Quota");
            SearchService.VFloat 0.5%float]] !! k = Some row ->
          results !! k
          = Some (SearchService.dict_of_zip
                    [cps "row_index"; cps "column_name"; cps "numerical_value"] row))
    /\ (NoDup [cps "row_index"; cps "column_name"; cps "numerical_value"] ->
        forall k row d i c v,
          [[SearchService.VInt 0; SearchService.VStr (cps "Quota");
            SearchService.VFloat 1.5%float];
           [SearchService.VInt 1; SearchService.VStr (cps "Quota");
            SearchService.VFloat 0.5%float]] !! k = Some row ->
          results !! k = Some d ->
          [cps "row_index"; cps "column_name"; cps "numerical_value"] !! i = Some c ->
          row !! i = Some v -> d !! c = Some v).
Proof.
  apply (execute_sql_safely_returns_rows (uc := ascii_case_only) sales_service
           sales_session (cps "SELECT * FROM spreadsheet_data LIMIT 5") sales_cursor).
  - reflexivity.
  - unfold passes_gate, SearchService.unsafe_keywords. repeat constructor.
  - reflexivity.
  - reflexivity.
  - reflexivity.
Defined.

(** The fenced answer of the sample model. *)
Lemma generated_sql_is_clean_witness :
  contains (cps "```") (cps "SELECT * FROM spreadsheet_data LIMIT 5") = false
  /\ strip (cps "SELECT * FROM spreadsheet_data LIMIT 5")
     = cps "SELECT * FROM spreadsheet_data LIMIT 5"
  /\ executed world0 = executed world0
  /\ history world0 = history world0.
Proof.
  apply (generated_sql_is_clean (F := float) (fmt := sample_formatting)
           (tm := fenced_model) (re := sample_regex)
           (cps "the first five rows") SearchService._get_database_schema_context None
           world0 world0 (cps "SELECT * FROM spreadsheet_data LIMIT 5")
           (cps "The first five rows.")).
  vm_compute. reflexivity.
Defined.

(** The failing model in front of the sales session. *)
Lemma natural_language_to_sql_falls_back_witness :
  let run := SearchService.natural_language_to_sql (fmt := sample_formatting)
               (uc := ascii_case_only) (tm := failing_model) (re := sample_regex)
               sales_service (cps "best quota") None world0 in
  executed run.2 = executed world0 ++ [cps "SELECT * FROM spreadsheet_data LIMIT 10"]
  /\ (forall r, run.1 = Return r ->
        SearchService.generated_sql r = cps "SELECT * FROM spreadsheet_data LIMIT 10"
        /\ SearchService.explanation r
           = cps "Error generating query: "
             ++ exn_str (ProviderError (cps "429 Resource has been exhausted"))).
Proof.
  apply (natural_language_to_sql_falls_back (fmt := sample_formatting)
           (uc := ascii_case_only) (tm := failing_model) (re := sample_regex)
           sales_service sales_session (cps "best quota") None
           (ProviderError (cps "429 Resource has been exhausted")) world0).
  - reflexivity.
  - intros prompt. reflexivity.
  - reflexivity.
Defined.

(** The lookup of the sales session: two rows under the same column. *)
Lemma enhance_metadata_numerical_context_witness :
  exists items,
    SearchService._enhance_metadata_with_sql_context sales_service ∅ world0
    = (Return (<[cps "numerical_context" := SearchService.VDict items]> ∅), world0)
    /\ NoDup items.*1
    /\ (forall c entry,
          (c, entry) ∈ items
          <-> exists i v t,
                sales_lookup !! i = Some (c, v, t)
                /\ entry = context_entry v t
                /\ forall j v' t', (i < j)%nat ->
                     sales_lookup !! j <> Some (c, v', t')).
Proof.
  apply (enhance_metadata_numerical_context sales_service sales_session ∅).
  - reflexivity.
  - reflexivity.
Defined.


(** A search with the sales session, whose commit succeeds. *)
Lemma semantic_search_history_witness :
  exists resp w',
    SearchService.semantic_search (fmt := sample_formatting) (uc := ascii_case_only)
      (provider := zeros_provider) sales_service (cps "north") 5 0.5%float world0
    = (Return resp, w')
    /\ match SearchService.db sales_service with
       | None => history w' = history world0
       | Some session =>
           match SearchService.commit session with
           | Return _ =>
               history w'
               = history world0
                 ++ [(cps "north", cps "semantic", SearchService.total_results resp)]
           | Raise e => history w' = history world0 /\ is_Exception e = true
           end
       end.
Proof.
  eexists _, _. split; [vm_compute; reflexivity |].
  eapply (semantic_search_history (fmt := sample_formatting) (uc := ascii_case_only)
            (provider := zeros_provider) sales_service (cps "north") 5 0.5%float _ world0).
  vm_compute. reflexivity.
Defined.

(** The model that answers with a DROP statement, in front of the sales
    session. *)
Lemma generate_sql_query_rejects_unsafe_witness :
  exists kw,
    kw ∈ SearchService.unsafe_keywords
    /\ contains kw (@upper ascii_case_only (cps "DROP TABLE spreadsheet_data")) = true
    /\ SearchService.natural_language_to_sql (fmt := sample_formatting)
         (uc := ascii_case_only) (tm := dropping_model) (re := sample_regex)
         sales_service (cps "remove everything") None world0
       = (Raise (ValueError (cps "Unsafe SQL operation detected: " ++ kw)), world0)
    /\ Endpoints.generate_sql_query (fmt := sample_formatting) (uc := ascii_case_only)
         (tm := dropping_model) (re := sample_regex)
         sales_service (cps "remove everything") None world0
       = (Return (Endpoints.HTTPException 500
                    (cps "Error generating SQL query: "
                     ++ cps "Unsafe SQL operation detected: " ++ kw)), world0)
    /\ executed world0 = executed world0 /\ history world0 = history world0.
Proof.
  apply (generate_sql_query_rejects_unsafe (fmt := sample_formatting)
           (uc := ascii_case_only) (tm := dropping_model) (re := sample_regex)
           sales_service sales_session (cps "remove everything") None world0 world0
           (cps "DROP TABLE spreadsheet_data") (cps "Removes the table.")).
  - reflexivity.
  - vm_compute. reflexivity.
  - unfold SearchService.unsafe_keywords.
    do 3 apply Exists_cons_tl. apply Exists_cons_hd. reflexivity.
Defined.

(** A search while the vector store is down. *)
Lemma semantic_search_endpoint_store_failure_witness :
  exists w',
    Endpoints.semantic_search_endpoint (fmt := sample_formatting) (uc := ascii_case_only)
      (provider := zeros_provider) down_service (cps "north") 5 0.5%float world0
    = (Return (Endpoints.HTTPException 500
                 (cps "Error performing semantic search: "
                  ++ exn_str (ProviderError
                                (cps "Collection excel_embeddings does not exist.")))),
       w')
    /\ history w' = history world0.
Proof.
  apply (semantic_search_endpoint_store_failure (fmt := sample_formatting)
           (uc := ascii_case_only) (provider := zeros_provider)
           down_service (cps "north") 5 0.5%float
           (ProviderError (cps "Collection excel_embeddings does not exist.")) world0).
  - intros task_type e He. discriminate He.
  - intros emb. reflexivity.
  - reflexivity.
Defined.

(** A batch of two points with a provider that fails on every call. *)
Lemma create_batch_embeddings_one_per_point_witness :
  exists embeddings w',
    EmbeddingService._create_batch_embeddings (provider := failing_provider)
      (cps "models/text-embedding-004") sample_points [cps "Region"; cps "Quota"] world0
    = (Return embeddings, w')
    /\ Forall2 (fun dp emb =>
                  embedding_of (provider := failing_provider)
                    (cps "models/text-embedding-004")
                    (EmbeddingService._create_context_text dp [cps "Region"; cps "Quota"])
                    emb)
         sample_points embeddings
    /\ length embeddings = length sample_points
    /\ executed w' = executed world0 /\ history w' = history world0.
Proof.
  apply (create_batch_embeddings_one_per_point (provider := failing_provider)
           (cps "models/text-embedding-004") sample_points [cps "Region"; cps "Quota"]
           world0).
  intros dp _ e He. injection He as <-. reflexivity.
Defined.

(** Two text points into stores that take everything. *)
Lemma create_and_store_embeddings_stores_all_witness :
  exists n s',
    EmbeddingService._create_and_store_embeddings (provider := zeros_provider)
      (stores := accepting_stores) (cps "models/text-embedding-004")
      sample_points [cps "Region"; cps "Quota"] 7 ingest0 = (Return n, s')
    /\ n = (1 + length sample_points)%nat
    /\ EmbeddingService.pending s' = []
    /\ exists header_embedding pairs,
         pairs.*1 = sample_points
         /\ embedding_of (provider := zeros_provider) (cps "models/text-embedding-004")
              (cps "Headers: "
               ++ EmbeddingService.join (cps " | ") [cps "Region"; cps "Quota"])
              header_embedding
         /\ Forall (fun pair =>
                      embedding_of (provider := zeros_provider)
                        (cps "models/text-embedding-004")
                        (EmbeddingService._create_context_text pair.1
                           [cps "Region"; cps "Quota"]) pair.2) pairs
         /\ EmbeddingService.collection s'
            = EmbeddingService.collection ingest0
              ++ header_entry [cps "Region"; cps "Quota"] 7 header_embedding
                 :: (data_entry [cps "Region"; cps "Quota"] 7 <$> pairs)
         /\ EmbeddingService.stored s'
            = EmbeddingService.stored ingest0 ++ EmbeddingService.pending ingest0
              ++ (text_row 7 <$> sample_points).
Proof.
  eexists _, _. split; [vm_compute; reflexivity |].
  eapply (create_and_store_embeddings_stores_all (provider := zeros_provider)
            (stores := accepting_stores) (cps "models/text-embedding-004")
            sample_points [cps "Region"; cps "Quota"] 7 ingest0).
  vm_compute. reflexivity.
Defined.

(** Two text points into a collection that is full after one entry. *)
Lemma create_and_store_embeddings_failure_commits_nothing_witness :
  exists e s',
    EmbeddingService._create_and_store_embeddings (provider := zeros_provider)
      (stores := full_stores) (cps "models/text-embedding-004")
      sample_points [cps "Region"; cps "Quota"] 7 ingest0 = (Raise e, s')
    /\ EmbeddingService.stored s' = EmbeddingService.stored ingest0
    /\ EmbeddingService.collection ingest0 `prefix_of` EmbeddingService.collection s'
    /\ EmbeddingService.pending ingest0 `prefix_of` EmbeddingService.pending s'.
Proof.
  eexists _, _. split; [vm_compute; reflexivity |].
  eapply (create_and_store_embeddings_failure_commits_nothing (provider := zeros_provider)
            (stores := full_stores) (cps "models/text-embedding-004")
            sample_points [cps "Region"; cps "Quota"] 7 ingest0).
  vm_compute. reflexivity.
Defined.

(** The sample sheet into stores that take everything. *)
Lemma process_and_store_data_counts_witness :
  exists counts s',
    EmbeddingService.process_and_store_data (provider := zeros_provider)
      (stores := accepting_stores) (cps "models/text-embedding-004")
      sample_processed (cps "sales.csv") ingest0 = (Return counts, s')
    /\ EmbeddingService.metadata_count counts
       = length (ExcelProcessor.numerical_data sample_processed)
    /\ EmbeddingService.embeddings_count counts
       = match ExcelProcessor.text_data sample_processed with
         | [] => 0%nat
         | _ => (1 + length (ExcelProcessor.text_data sample_processed))%nat
         end
    /\ EmbeddingService.pending s' = []
    /\ exists file_id,
         EmbeddingService.session_refresh (Stores := accepting_stores)
           (EmbeddingService.stored ingest0 ++ EmbeddingService.pending ingest0
            ++ [EmbeddingService.FileRecord (file_row sample_processed (cps "sales.csv"))])
           (file_row sample_processed (cps "sales.csv")) = Return file_id
         /\ EmbeddingService.stored s'
            = EmbeddingService.stored ingest0 ++ EmbeddingService.pending ingest0
              ++ EmbeddingService.FileRecord (file_row sample_processed (cps "sales.csv"))
                 :: (text_row file_id <$> ExcelProcessor.text_data sample_processed)
                 ++ (numerical_row file_id
                       <$> ExcelProcessor.numerical_data sample_processed)
         /\ EmbeddingService.ve_id <$> EmbeddingService.collection s'
            = (EmbeddingService.ve_id <$> EmbeddingService.collection ingest0)
              ++ match ExcelProcessor.text_data sample_processed with
                 | [] => []
                 | _ => EmbeddingService.header_doc_id 7
                        :: (EmbeddingService.data_doc_id 7
                              <$> ExcelProcessor.text_data sample_processed)
                 end.
Proof.
  eexists _, _. split; [vm_compute; reflexivity |].
  pose proof (process_and_store_data_counts (provider := zeros_provider)
                (stores := accepting_stores) (cps "models/text-embedding-004")
                sample_processed (cps "sales.csv") ingest0) as Hthm.
  edestruct Hthm as (Hm & He & Hp & file_id & Href & Hs & Hc);
    [vm_compute; reflexivity |].
  split_and!; [exact Hm | exact He | exact Hp |].
  exists file_id. injection Href as <-. split_and!; [reflexivity | exact Hs | exact Hc].
Defined.
